(** * do-device: credential store, console-line enumeration and console
      automation, embedded from the Python sources.

    Modelled files:
    - [bin/pwdecrypt.py], [bin/SSH_pwdecrypt.py], [bin/SNMP_pwdecrypt.py]
      (realm and device tables),
    - [bin/do-oob-device.py] ([receive], [connect], the [show line] parser),
    - [bin/get-snmp-mac.py], [bin/get-snmp-arp.py] ([short_ifName]).

    Conventions.  A Python [str] is a [string]; every character the code
    tests for (separators, markers, digits, white space) is ASCII, and a
    decoded text is kept as the bytes of its UTF-8 form, so that
    [bytes.decode('utf-8')] is a validity check and [str.encode('utf-8')]
    is the identity on the underlying bytes.  Python integers are [Z].
    A [dict] is a [gmap].  Exceptions are values of [exn]; a function that
    can raise runs in the monad [M]. *)

From Stdlib Require Import ZArith Ascii String List Lia Bool.
From stdpp Require Import base option gmap strings list.

Local Open Scope Z_scope.

(** ** Python built-ins used by the scripts *)

Module Py.

Definition ascii_in (lo hi : N) (c : ascii) : bool :=
  let n := N_of_ascii c in ((lo <=? n) && (n <=? hi))%N.

(** [str.isspace] on ASCII: TAB..CR, FS..US and SPACE. *)
Definition isspace (c : ascii) : bool :=
  ascii_in 9 13 c || ascii_in 28 32 c.

Definition isdigit (c : ascii) : bool := ascii_in 48 57 c.

Fixpoint startswith (p s : string) : bool :=
  match p with
  | EmptyString => true
  | String a p' =>
      match s with
      | EmptyString => false
      | String b s' => Ascii.eqb a b && startswith p' s'
      end
  end.

(** [needle in s]. *)
Fixpoint contains (needle s : string) : bool :=
  startswith needle s ||
  match s with
  | EmptyString => false
  | String _ s' => contains needle s'
  end.

Fixpoint lstrip (s : string) : string :=
  match s with
  | String c s' => if isspace c then lstrip s' else s
  | EmptyString => EmptyString
  end.

(** [s.rstrip(chars)] for a one-character [chars]. *)
Fixpoint rstrip_char (c : ascii) (s : string) : string :=
  match s with
  | EmptyString => EmptyString
  | String a s' =>
      match rstrip_char c s' with
      | EmptyString => if Ascii.eqb a c then EmptyString else String a EmptyString
      | r => String a r
      end
  end.

Fixpoint rstrip (s : string) : string :=
  match s with
  | EmptyString => EmptyString
  | String a s' =>
      match rstrip s' with
      | EmptyString => if isspace a then EmptyString else String a EmptyString
      | r => String a r
      end
  end.

Definition strip (s : string) : string := rstrip (lstrip s).

(** [s.count(c)] for a one-character argument. *)
Fixpoint count_char (c : ascii) (s : string) : nat :=
  match s with
  | EmptyString => O
  | String a s' => ((if Ascii.eqb a c then 1 else 0) + count_char c s')%nat
  end.

(** [s.split(c)] for a one-character separator: always [count + 1] fields. *)
Fixpoint split_char (c : ascii) (s : string) : list string :=
  match s with
  | EmptyString => [EmptyString]
  | String a s' =>
      if Ascii.eqb a c then EmptyString :: split_char c s'
      else match split_char c s' with
           | f :: fs => String a f :: fs
           | [] => [String a EmptyString]
           end
  end.

(** [s.split()]: maximal runs of non-space characters. *)
Fixpoint split_ws_aux (cur : option string) (s : string) : list string :=
  match s with
  | EmptyString => match cur with Some w => [w] | None => [] end
  | String a s' =>
      if isspace a
      then match cur with
           | Some w => w :: split_ws_aux None s'
           | None => split_ws_aux None s'
           end
      else split_ws_aux
             (Some (match cur with
                    | Some w => w +:+ String a EmptyString
                    | None => String a EmptyString
                    end)) s'
  end.

Definition split_ws (s : string) : list string := split_ws_aux None s.

(** [s.replace(old, new)]: left to right, non-overlapping.  [skip] counts
    the characters of a match that are still to be dropped. *)
Fixpoint replace_aux (old new : string) (skip : nat) (s : string) : string :=
  match s with
  | EmptyString => EmptyString
  | String c s' =>
      match skip with
      | S k => replace_aux old new k s'
      | O =>
          if startswith old s
          then new +:+ replace_aux old new (String.length old - 1) s'
          else String c (replace_aux old new O s')
      end
  end.

Fixpoint intersperse (new s : string) : string :=
  match s with
  | EmptyString => new
  | String c s' => new +:+ String c (intersperse new s')
  end.

Definition replace (old new s : string) : string :=
  match old with
  | EmptyString => intersperse new s
  | _ => replace_aux old new O s
  end.

(** [s.lower()] on the ASCII letters. *)
Definition lower_char (c : ascii) : ascii :=
  if ascii_in 65 90 c then ascii_of_N (N_of_ascii c + 32) else c.

Fixpoint lower (s : string) : string :=
  match s with
  | EmptyString => EmptyString
  | String c s' => String (lower_char c) (lower s')
  end.

Definition nonempty (s : string) : bool :=
  match s with EmptyString => false | _ => true end.

(** Indexing [l[i]] with Python's negative indices; [None] is IndexError. *)
Definition index {A} (l : list A) (i : Z) : option A :=
  let n := Z.of_nat (length l) in
  if (0 <=? i) && (i <? n) then l !! Z.to_nat i
  else if (- n <=? i) && (i <? 0) then l !! Z.to_nat (n + i)
  else None.

(** [str(n)] for an integer. *)
Definition digit_char (d : Z) : ascii := ascii_of_N (Z.to_N (48 + d)).

Fixpoint str_pos (fuel : nat) (n : Z) (acc : string) : string :=
  match fuel with
  | O => acc
  | S f =>
      let acc' := String (digit_char (n mod 10)) acc in
      if n <? 10 then acc' else str_pos f (n / 10) acc'
  end.

Definition str (n : Z) : string :=
  if n <? 0
  then String "-" (str_pos (S (Z.to_nat (Z.log2 (- n)))) (- n) EmptyString)
  else str_pos (S (Z.to_nat (Z.log2 n))) n EmptyString.

(** [int(s)]: surrounding white space, an optional sign, decimal digits
    with single underscores between digits.  [None] is ValueError.  (The
    cap that recent Python versions put on the length of such a numeral is
    left out.) *)
Fixpoint int_digits (acc : Z) (prev_digit : bool) (s : string) : option Z :=
  match s with
  | EmptyString => if prev_digit then Some acc else None
  | String c s' =>
      if isdigit c
      then int_digits (10 * acc + (Z.of_N (N_of_ascii c) - 48)) true s'
      else if Ascii.eqb c "_" && prev_digit
           then match s' with
                | String d _ => if isdigit d then int_digits acc false s' else None
                | EmptyString => None
                end
           else None
  end.

Definition int (s : string) : option Z :=
  match strip s with
  | String "-" s' => Z.opp <$> int_digits 0 false s'
  | String "+" s' => int_digits 0 false s'
  | s' => int_digits 0 false s'
  end.

End Py.


(** ** Interface-name normalisation ([get-snmp-mac.py], [get-snmp-arp.py]) *)

Module IfName.

Fixpoint all_digits (s : string) : bool :=
  match s with
  | EmptyString => true
  | String c s' => Py.isdigit c && all_digits s'
  end.

(** The tail of [re.match('^D/\d+$', s)] after [D/]: one or more digits up
    to the end of the string, or up to a final newline ([$] also matches
    there). *)
Fixpoint digits_to_end (seen : bool) (s : string) : bool :=
  match s with
  | EmptyString => seen
  | String c s' =>
      if Py.isdigit c then digits_to_end true s'
      else seen && Ascii.eqb c "010" && negb (Py.nonempty s')
  end.

(** [re.match('^D/\d+$', s)] for a literal character [D]. *)
Definition re_match_slot (d : ascii) (s : string) : bool :=
  match s with
  | String a (String "/" s') => Ascii.eqb a d && digits_to_end false s'
  | _ => false
  end.

(** The replacements shared by both scripts, up to the vlan handling. *)
Definition short_common (ifName : string) : string :=
  (* handle Cisco IOS/NXOS devices *)
  let ifName := Py.replace "TenGigabitEthernet" "Te" ifName in
  let ifName := Py.replace "GigabitEthernet" "Gi" ifName in
  let ifName := Py.replace "FastEthernet" "Fa" ifName in
  let ifName := Py.replace "Ethernet" "Et" ifName in
  let ifName := Py.replace "Management" "Ma" ifName in
  let ifName := Py.replace "Port-channel" "Po" ifName in
  let ifName := Py.replace "port-channel" "Po" ifName in
  (* handle Cisco 31000 and such *)
  let ifName := Py.replace "switch" "Et" ifName in
  (* handle Ubiquiti Edge Switches *)
  let ifName := if re_match_slot "0" ifName then "Et" +:+ ifName else ifName in
  let ifName := if re_match_slot "3" ifName
                then Py.replace "3/" "Po" ifName else ifName in
  (* handle vlan interfaces *)
  if Py.startswith "vl" (Py.lower ifName) then
    let ifName := Py.replace "Vlan" "" ifName in
    let ifName := Py.replace "Vl" "" ifName in
    Py.replace "VLAN- " "" ifName
  else if Py.startswith "br-vlan" (Py.lower ifName) then
    Py.replace "br-vlan" "" ifName
  else ifName.

End IfName.

Module GetSnmpMac.

(** [short_ifName] of [get-snmp-mac.py]. *)
Definition short_ifName (ifName : string) : string :=
  IfName.short_common ifName.

End GetSnmpMac.

Module GetSnmpArp.

(** The set literal [ignore_ifNames]; its two ['Juniper'] entries are one
    element. *)
Definition ignore_ifNames : list string := ["bme0"; "Juniper"; "jsrv"; "lo0"].

Definition ignore_ifName (ifName : string) : bool :=
  existsb (fun ignore => Py.startswith ignore ifName) ignore_ifNames.

(** [short_ifName] of [get-snmp-arp.py]; the [vlan.] branch only prints a
    debug message. *)
Definition short_ifName (ifName : string) : string :=
  let ifName := IfName.short_common ifName in
  if ignore_ifName ifName then "" else ifName.

End GetSnmpArp.

(** ** Interface names in short form *)

Module ShortForm.

(** The long forms that [short_ifName] rewrites wherever they occur; the
    three [...Ethernet] forms all contain ["Ethernet"]. *)
Definition long_forms : list string :=
  ["Ethernet"; "Management"; "Port-channel"; "port-channel"; "switch"].

(** A name is in short form when no rule of [short_ifName] applies to it:
    it holds no long form, is neither [0/<digits>] nor [3/<digits>], and
    does not start with [vl] or [br-vlan] in any letter case. *)
Definition short_form (s : string) : bool :=
  forallb (fun p => negb (Py.contains p s)) long_forms
  && negb (IfName.re_match_slot "0" s)
  && negb (IfName.re_match_slot "3" s)
  && negb (Py.startswith "vl" (Py.lower s))
  && negb (Py.startswith "br-vlan" (Py.lower s)).

End ShortForm.

(** ** Exceptions and the state-and-exception monad *)

Inductive exn : Type :=
  | KeyError (key : string)
  | InvalidToken
  | UnicodeDecodeError
  | ValueError
  | IndexError
  | NameError (name : string)
  | UnboundLocalError (name : string).

Inductive outcome (A : Type) : Type :=
  | Return (a : A)
  | Raise (e : exn).
Arguments Return {A} a.
Arguments Raise {A} e.

(** A computation over a state [St]: it returns or raises, and leaves a
    state behind in both cases. *)
Definition M (St A : Type) : Type := St -> outcome A * St.

Definition ret {St A} (a : A) : M St A := fun st => (Return a, st).

Definition raise {St A} (e : exn) : M St A := fun st => (Raise e, st).

Definition bind {St A B} (m : M St A) (k : A -> M St B) : M St B :=
  fun st =>
    match m st with
    | (Return a, st') => k a st'
    | (Raise e, st') => (Raise e, st')
    end.

Declare Scope py_scope.
Delimit Scope py_scope with py.
Notation "x <- m ;; k" := (bind m (fun x => k))
  (at level 100, m at next level, right associativity) : py_scope.
Notation "m ;; k" := (bind m (fun _ => k))
  (at level 100, right associativity) : py_scope.

(** [try: m except: h]: the handler replaces the result, the state stays. *)
Definition try_except {St A} (m : M St A) (h : M St A) : M St A :=
  fun st =>
    match m st with
    | (Return a, st') => (Return a, st')
    | (Raise _, st') => h st'
    end.

Definition lift_option {St A} (e : exn) (o : option A) : M St A :=
  match o with Some a => ret a | None => raise e end.

(** ** Bytes and UTF-8 *)

Module Utf8.

Definition between (lo hi b : N) : bool := ((lo <=? b) && (b <=? hi))%N.

(** Well-formed UTF-8 (the table of RFC 3629, which the strict decoder of
    [bytes.decode('utf-8')] enforces): [pending] continuation bytes are
    still due, the next of them within [lo..hi]. *)
Fixpoint valid_aux (pending : nat) (lo hi : N) (bs : list N) : bool :=
  match bs with
  | [] => match pending with O => true | S _ => false end
  | b :: bs' =>
      match pending with
      | S k => between lo hi b && valid_aux k 128 191 bs'
      | O =>
          if (b <=? 127)%N then valid_aux 0 128 191 bs'
          else if between 194 223 b then valid_aux 1 128 191 bs'
          else if (b =? 224)%N then valid_aux 2 160 191 bs'
          else if (b =? 237)%N then valid_aux 2 128 159 bs'
          else if between 225 239 b then valid_aux 2 128 191 bs'
          else if (b =? 240)%N then valid_aux 3 144 191 bs'
          else if between 241 243 b then valid_aux 3 128 191 bs'
          else if (b =? 244)%N then valid_aux 3 128 143 bs'
          else false
      end
  end.

Definition valid (bs : list Byte.byte) : bool :=
  valid_aux 0 128 191 (map Byte.to_N bs).

(** [bs.decode('utf-8')]; [None] is UnicodeDecodeError. *)
Definition decode (bs : list Byte.byte) : option string :=
  if valid bs then Some (string_of_list_byte bs) else None.

(** [s.encode('utf-8')]. *)
Definition encode (s : string) : list Byte.byte := list_byte_of_string s.

End Utf8.

(** ** The envelope cipher *)

(** [Fernet(CRYPTKEY).decrypt] of the [cryptography] package, for the one
    key compiled into the scripts; [None] is its [InvalidToken]. *)
Class Fernet : Type :=
  fernet_decrypt : list Byte.byte -> option (list Byte.byte).

Module Cipher.

Section Decrypt.
Context {F : Fernet}.

(** The decrypt log: the arguments of the calls of [decrypt_password], in
    call order. *)
Definition log : Type := list string.

(** [decrypt_password], the same text in [pwdecrypt.py],
    [SSH_pwdecrypt.py] and [SNMP_pwdecrypt.py]. *)
Definition decrypt_password (crypted : string) : M log string :=
  fun calls =>
    let enc := Utf8.encode crypted in
    match fernet_decrypt enc with
    | None => (Raise InvalidToken, calls ++ [crypted])
    | Some decrypt =>
        match Utf8.decode decrypt with
        | None => (Raise UnicodeDecodeError, calls ++ [crypted])
        | Some decrypted => (Return decrypted, calls ++ [crypted])
        end
    end.

End Decrypt.

(** A stand-in cipher for the closed examples: the token of a text is the
    text behind the prefix [enc:]; every other token is rejected. *)
Definition example_cipher : Fernet :=
  fun tok =>
    match String.string_of_list_byte tok with
    | String "e" (String "n" (String "c" (String ":" s))) =>
        Some (list_byte_of_string s)
    | _ => None
    end.

End Cipher.

(** ** The credential store ([pwdecrypt.py], [SSH_pwdecrypt.py]) *)

Module Store.

(** The value of a realm: the dict with keys [username], [password] and
    [secret]. *)
Record realm_data : Type := {
  r_username : string;
  r_password : string;
  r_secret : string
}.

#[global] Instance realm_data_eq_dec : EqDecision realm_data.
Proof. solve_decision. Defined.

(** The dict [device_credentials]. *)
Record device_credentials : Type := {
  ip : string;
  global_delay_factor : Z;
  device_type : string;
  username : string;
  password : string;
  secret : string
}.

(** First component of the pair [read_deviceinfo] returns: [None], the
    empty string, or the dict. *)
Inductive found : Type :=
  | NoDevice
  | EmptyCredentials
  | Credentials (c : device_credentials).

(** The variables a device line is unpacked into. *)
Record device_line : Type := {
  l_curdevice : string;
  l_ip : string;
  l_device_type : string;
  l_username : string;
  l_password : string;
  l_secret : string;
  l_ssh_port : Z
}.

(** What the program finds outside itself: the environment variable
    [DO_DEVICE], whether it names a directory, and the [readlines()] of the
    realm file and of the device file ([None]: [open] raised). *)
Record environ : Type := {
  DO_DEVICE : option string;
  DO_DEVICE_isdir : bool;
  credentials_txt : option (list string);
  deviceinfo_txt : option (list string)
}.

(** [curline = line.lstrip(); curline = curline.rstrip('\n')]. *)
Definition curline_of (line : string) : string :=
  Py.rstrip_char "010" (Py.lstrip line).

(** [len(curline) > 0 and not curline.startswith('#')]. *)
Definition is_data_line (curline : string) : bool :=
  Py.nonempty curline && negb (Py.startswith "#" curline).

Definition is_empty (s : string) : bool := negb (Py.nonempty s).

(** [len(x) > 0 and x.startswith('*')]. *)
Definition is_realm_ref (x : string) : bool :=
  Py.nonempty x && Py.startswith "*" x.

Section WithCipher.
Context {F : Fernet}.
Local Open Scope py_scope.

Import Cipher.

(** Body of the loop of [read_credentials] for a data line. *)
Definition realm_line (realms : gmap string realm_data) (curline : string)
  : M log (gmap string realm_data) :=
  if (Py.count_char ";" curline =? 3)%nat then
    match Py.split_char ";" curline with
    | [myrealm; username; password; secret] =>
        password <- decrypt_password password ;;
        secret <- (if String.eqb secret "*" then ret password
                   else decrypt_password secret) ;;
        if is_empty username || is_empty password || is_empty secret
        then ret realms
        else ret (<[myrealm := {| r_username := username;
                                  r_password := password;
                                  r_secret := secret |}]> realms)
    | _ => raise ValueError
    end
  else ret realms.

Fixpoint realm_lines (lines : list string) (realms : gmap string realm_data)
  : M log (gmap string realm_data) :=
  match lines with
  | [] => ret realms
  | line :: rest =>
      let curline := curline_of line in
      if is_data_line curline
      then realms' <- realm_line realms curline ;; realm_lines rest realms'
      else realm_lines rest realms
  end.

(** [read_credentials]: the same in both files, debug prints apart. *)
Definition read_credentials (file : option (list string))
  : M log (option (gmap string realm_data)) :=
  match file with
  | None => ret None
  | Some lines =>
      realms <- realm_lines lines ∅ ;;
      if decide (realms = ∅) then ret None else ret (Some realms)
  end.

(** [curline.count(';')] is 5 or 6. *)
Definition device_syntax (curline : string) : bool :=
  let n := Py.count_char ";" curline in ((n =? 5) || (n =? 6))%nat.

(** The unpacking of [curline.split(';')], with [ssh_port = 22] unless a
    seventh field gives it. *)
Definition unpack_line (curline : string) : M log device_line :=
  if (Py.count_char ";" curline =? 5)%nat then
    match Py.split_char ";" curline with
    | [curdevice; ip; device_type; username; password; secret] =>
        ret {| l_curdevice := curdevice; l_ip := ip;
               l_device_type := device_type; l_username := username;
               l_password := password; l_secret := secret;
               l_ssh_port := 22 |}
    | _ => raise ValueError
    end
  else
    match Py.split_char ";" curline with
    | [curdevice; ip; device_type; username; password; secret; ssh_port] =>
        ssh_port <- lift_option ValueError (Py.int ssh_port) ;;
        ret {| l_curdevice := curdevice; l_ip := ip;
               l_device_type := device_type; l_username := username;
               l_password := password; l_secret := secret;
               l_ssh_port := ssh_port |}
    | _ => raise ValueError
    end.

(** The two files differ in how a realm reference is looked up. *)
Section Lookup.

(** [realm_field realms ref get]: the field [get] of the realm that the
    reference [ref] (the whole field, asterisk included) names. *)
Variable realm_field :
  gmap string realm_data -> string -> (realm_data -> string) -> M log string.

(** The body of the loop of [read_deviceinfo] from [ssh_port = 22] to the
    last [decrypt_password], before [curdevice] is looked at. *)
Definition resolve_line (realms : gmap string realm_data) (curline : string)
  : M log device_line :=
  l <- unpack_line curline ;;
  let ip := if is_empty (l_ip l) then l_curdevice l else l_ip l in
  username <- (if is_realm_ref (l_username l)
               then realm_field realms (l_username l) r_username
               else ret (l_username l)) ;;
  password <- (if is_realm_ref (l_password l)
               then realm_field realms (l_password l) r_password
               else if Py.nonempty (l_password l)
                    then decrypt_password (l_password l)
                    else ret (l_password l)) ;;
  secret <- (if is_realm_ref (l_secret l)
             then realm_field realms (l_secret l) r_secret
             else if Py.nonempty (l_secret l)
                  then decrypt_password (l_secret l)
                  else ret (l_secret l)) ;;
  ret {| l_curdevice := l_curdevice l; l_ip := ip;
         l_device_type := l_device_type l; l_username := username;
         l_password := password; l_secret := secret;
         l_ssh_port := l_ssh_port l |}.

(** [if curdevice == device: ...] for a resolved line. *)
Definition matched (l : device_line) : found * Z :=
  if is_empty (l_username l) || is_empty (l_password l) || is_empty (l_secret l)
  then (EmptyCredentials, l_ssh_port l)
  else (Credentials {| ip := l_ip l; global_delay_factor := 3;
                       device_type := l_device_type l;
                       username := l_username l;
                       password := l_password l;
                       secret := l_secret l |},
        l_ssh_port l).

(** The loop [for line in lines] of [read_deviceinfo]; [ssh_port] is the
    variable of that name. *)
Fixpoint device_lines (realms : gmap string realm_data) (device : string)
    (lines : list string) (ssh_port : Z) : M log (found * Z) :=
  match lines with
  | [] => ret (NoDevice, ssh_port)
  | line :: rest =>
      let curline := curline_of line in
      if is_data_line curline then
        if negb (device_syntax curline)
        then device_lines realms device rest ssh_port
        else
          l <- resolve_line realms curline ;;
          if String.eqb (l_curdevice l) device
          then ret (matched l)
          else device_lines realms device rest (l_ssh_port l)
      else device_lines realms device rest ssh_port
  end.

Definition read_deviceinfo_with (file : option (list string))
    (realms : gmap string realm_data) (device : string) : M log (found * Z) :=
  match file with
  | None => ret (NoDevice, 22)
  | Some lines => device_lines realms device lines 22
  end.

End Lookup.
End WithCipher.
End Store.

Module Pwdecrypt.
Import Store Cipher.
Section WithCipher.
Context {F : Fernet}.
Local Open Scope py_scope.

(** [my_realm = realms[x]; x = my_realm[...]]: a missing key raises. *)
Definition realm_field (realms : gmap string realm_data) (ref : string)
    (get : realm_data -> string) : M log string :=
  my_realm <- lift_option (KeyError ref) (realms !! ref) ;;
  ret (get my_realm).

Definition read_credentials := Store.read_credentials.

Definition read_deviceinfo (file : option (list string))
    (realms : gmap string realm_data) (device : string) : M log (found * Z) :=
  read_deviceinfo_with realm_field file realms device.

(** [get_credentials] of [pwdecrypt.py].  Its three early returns read
    [ssh_port], a local that is assigned only by the last statement. *)
Definition get_credentials (env : environ) (device : string)
  : M log (found * Z) :=
  match DO_DEVICE env with
  | None => raise (UnboundLocalError "ssh_port")
  | Some _ =>
      if negb (DO_DEVICE_isdir env) then raise (UnboundLocalError "ssh_port")
      else
        realms <- read_credentials (credentials_txt env) ;;
        match realms with
        | None => raise (UnboundLocalError "ssh_port")
        | Some realms => read_deviceinfo (deviceinfo_txt env) realms device
        end
  end.

End WithCipher.
End Pwdecrypt.

Module SSH_pwdecrypt.
Import Store Cipher.
Section WithCipher.
Context {F : Fernet}.
Local Open Scope py_scope.

(** [if x in realms: ... else: (warning); x = '']. *)
Definition realm_field (realms : gmap string realm_data) (ref : string)
    (get : realm_data -> string) : M log string :=
  match realms !! ref with
  | Some my_realm => ret (get my_realm)
  | None => ret ""
  end.

Definition read_credentials := Store.read_credentials.

Definition read_deviceinfo (file : option (list string))
    (realms : gmap string realm_data) (device : string) : M log (found * Z) :=
  read_deviceinfo_with realm_field file realms device.

(** [get_credentials] of [SSH_pwdecrypt.py]. *)
Definition get_credentials (env : environ) (device : string)
  : M log (found * Z) :=
  let ssh_port := 22 in
  match DO_DEVICE env with
  | None => ret (NoDevice, ssh_port)
  | Some _ =>
      if negb (DO_DEVICE_isdir env) then ret (NoDevice, ssh_port)
      else
        realms <- read_credentials (credentials_txt env) ;;
        match realms with
        | None => ret (NoDevice, ssh_port)
        | Some realms => read_deviceinfo (deviceinfo_txt env) realms device
        end
  end.

End WithCipher.
End SSH_pwdecrypt.

(** ** The SNMP credential store ([SNMP_pwdecrypt.py]) *)

Module SNMP_pwdecrypt.
Import Cipher.

Record realm_data : Type := {
  r_community : string;
  r_port : string
}.

Record device_credentials : Type := {
  hostname : string;
  ipaddr : string;
  community : string;
  port : string
}.

(** [s.isnumeric()] on ASCII. *)
Definition isnumeric (s : string) : bool :=
  Py.nonempty s && IfName.all_digits s.

Section WithCipher.
Context {F : Fernet}.
Local Open Scope py_scope.

Definition realm_line (realms : gmap string realm_data) (curline : string)
  : M log (gmap string realm_data) :=
  if (Py.count_char ";" curline =? 2)%nat then
    match Py.split_char ";" curline with
    | [myrealm; community; port] =>
        community <- decrypt_password community ;;
        let port := if String.eqb port "*" then "161" else port in
        ret (<[myrealm := {| r_community := community; r_port := port |}]> realms)
    | _ => raise ValueError
    end
  else ret realms.

Fixpoint realm_lines (lines : list string) (realms : gmap string realm_data)
  : M log (gmap string realm_data) :=
  match lines with
  | [] => ret realms
  | line :: rest =>
      let curline := Store.curline_of line in
      if Store.is_data_line curline
      then realms' <- realm_line realms curline ;; realm_lines rest realms'
      else realm_lines rest realms
  end.

(** The body of the loop of [read_deviceinfo] for a line with three
    semicolons; [None]: go on with the next line. *)
Definition device_line (realms : gmap string realm_data) (device curline : string)
  : M log (option (option device_credentials)) :=
  match Py.split_char ";" curline with
  | [curdevice; ipaddr; community; port] =>
      community <- (if Store.is_realm_ref community then
                      my_realm <- lift_option (KeyError community)
                                    (realms !! community) ;;
                      ret (r_community my_realm)
                    else if Py.nonempty community
                         then decrypt_password community
                         else ret community) ;;
      port <- (if Store.is_realm_ref port then
                 my_realm <- lift_option (KeyError port) (realms !! port) ;;
                 ret (r_port my_realm)
               else ret port) ;;
      if String.eqb curdevice device then
        if Store.is_empty community then raise (NameError "username")
        else if negb (isnumeric port) then ret (Some None)
        else ret (Some (Some {| hostname := curdevice; ipaddr := ipaddr;
                                community := community; port := port |}))
      else ret None
  | _ => raise ValueError
  end.

Fixpoint device_lines (realms : gmap string realm_data) (device : string)
    (lines : list string) : M log (option device_credentials) :=
  match lines with
  | [] => ret None
  | line :: rest =>
      let curline := Store.curline_of line in
      if Store.is_data_line curline then
        if negb (Py.count_char ";" curline =? 3)%nat
        then device_lines realms device rest
        else
          r <- device_line realms device curline ;;
          match r with
          | Some result => ret result
          | None => device_lines realms device rest
          end
      else device_lines realms device rest
  end.

Definition read_deviceinfo (file : option (list string))
    (realms : gmap string realm_data) (device : string)
  : M log (option device_credentials) :=
  match file with
  | None => ret None
  | Some lines => device_lines realms device lines
  end.

End WithCipher.
End SNMP_pwdecrypt.

(** ** Vocabulary for the statements about the credential store *)

Module StoreSpec.
Import Store.

(** A secret field that is an encrypted literal: not empty and not a realm
    reference. *)
Definition is_literal (x : string) : bool :=
  Py.nonempty x && negb (Py.startswith "*" x).

(** The encrypted literals among the password and secret fields of a
    device line, in field order. *)
Definition literals (curline : string) : list string :=
  match Py.split_char ";" curline with
  | _ :: _ :: _ :: _ :: password :: secret :: _ =>
      (if is_literal password then [password] else [])
      ++ (if is_literal secret then [secret] else [])
  | _ => []
  end.

(** A line of the device file that is neither blank nor a comment and has
    five or six semicolons. *)
Definition valid_line (line : string) : bool :=
  is_data_line (curline_of line) && device_syntax (curline_of line).

(** The device id of a line: its first field. *)
Definition device_id (line : string) : string :=
  match Py.split_char ";" (curline_of line) with
  | d :: _ => d
  | [] => ""
  end.

(** The literals of all valid lines of a run of lines, in file order. *)
Fixpoint decrypted_by (lines : list string) : list string :=
  match lines with
  | [] => []
  | line :: rest =>
      (if valid_line line then literals (curline_of line) else [])
      ++ decrypted_by rest
  end.

(** The exceptions a device line can raise by itself: a rejected or
    undecodable token, or a port that is not a number. *)
Definition line_error (e : exn) : Prop :=
  e = InvalidToken \/ e = UnicodeDecodeError \/ e = ValueError.

End StoreSpec.

Module ScanSpec.
Import Store StoreSpec.

Section Scan.
Context {F : Fernet}.
Variable realm_field :
  gmap string realm_data -> string -> (realm_data -> string) -> M Cipher.log string.

(** The fields of the line were resolved without raising, its literals
    having been passed to [decrypt_password]. *)
Definition resolved (realms : gmap string realm_data) (line : string) : Prop :=
  exists calls l,
    resolve_line realm_field realms (curline_of line) calls
    = (Return l, calls ++ literals (curline_of line)).

(** No valid line among [lines] is a line of [device]. *)
Definition none_of (device : string) (lines : list string) : Prop :=
  Forall (fun line => valid_line line = true -> device_id line <> device) lines.

(** What a returning run of the loop of [read_deviceinfo] has done: it has
    scanned a prefix of the file, resolved every valid line of it, passed
    their literals to [decrypt_password] in file order, and has either
    found no line of [device] in the whole file, or stopped at the first
    one. *)
Definition scan (realms : gmap string realm_data) (device : string)
    (lines : list string) (calls : Cipher.log) (r : found) (calls' : Cipher.log)
  : Prop :=
  exists scanned rest,
    lines = scanned ++ rest
    /\ calls' = calls ++ decrypted_by scanned
    /\ Forall (fun line => valid_line line = true -> resolved realms line) scanned
    /\ ((r = NoDevice /\ rest = [] /\ none_of device scanned)
        \/ (r <> NoDevice
            /\ exists earlier line,
                 scanned = earlier ++ [line]
                 /\ valid_line line = true
                 /\ device_id line = device
                 /\ none_of device earlier)).

End Scan.
End ScanSpec.

(** ** Console lines and console automation ([do-oob-device.py]) *)

Module DoOobDevice.

Definition LF : string := String "010" EmptyString.

(** *** The [show line] table *)

Definition offset : Z := 2000.

(** [while '  ' in txtline: txtline = txtline.replace('  ', ' ')], with
    one unit of [fuel] per turn of the loop. *)
Fixpoint collapse_spaces (fuel : nat) (txtline : string) : string :=
  match fuel with
  | O => txtline
  | S fuel' =>
      if Py.contains "  " txtline
      then collapse_spaces fuel' (Py.replace "  " " " txtline)
      else txtline
  end.

(** The columns [data] of a row: left-stripped, the in-use marker taken
    out, blanks collapsed, split at white space. *)
Definition row_columns (txtline : string) : list string :=
  let txtline := Py.lstrip txtline in
  let txtline := if Py.startswith "*" txtline
                 then Py.replace "*" "" txtline else txtline in
  let txtline := collapse_spaces (String.length txtline) txtline in
  Py.split_ws txtline.

Local Open Scope py_scope.

(** The body of [for txtline in output.splitlines()]. *)
Definition line_row (lines : gmap string string) (txtline : string)
  : M unit (gmap string string) :=
  if Py.contains "TTY" txtline then
    let data := row_columns txtline in
    let n_cols := Z.of_nat (length data) in
    let col_roty := n_cols - 7 in
    tty <- lift_option IndexError (Py.index data 0) ;;
    let interface := "As" +:+ tty in
    line <- lift_option IndexError (Py.index data 1) ;;
    roty <- lift_option IndexError (Py.index data col_roty) ;;
    let roty := if String.eqb roty "-" then line else roty in
    rotynum <- lift_option ValueError (Py.int roty) ;;
    let line := Py.str (offset + rotynum) in
    if Py.contains "/" interface
    then ret (<[line := interface]> lines)
    else ret lines
  else ret lines.

(** The loop over the rows [output.splitlines()]. *)
Fixpoint line_rows (rows : list string) (lines : gmap string string)
  : M unit (gmap string string) :=
  match rows with
  | [] => ret lines
  | txtline :: rest =>
      lines' <- line_row lines txtline ;; line_rows rest lines'
  end.

(** The dict [lines] of [do_oob_device], from the rows of the output of
    [show line]. *)
Definition console_lines (rows : list string) : M unit (gmap string string) :=
  line_rows rows ∅.

(** *** The console channel *)

(** The channel of one console line: what the coming polls will find
    ([None]: [recv_ready()] is false; [Some b]: it is true and [recv]
    returns [b]; past the end nothing is ready) and what was sent so far.
    Sleeping and printing leave it unchanged and are left out. *)
Record channel : Type := {
  pending : list (option (list Byte.byte));
  sent : list string
}.

Definition send (s : string) : M channel unit :=
  fun ch => (Return tt, {| pending := pending ch; sent := sent ch ++ [s] |}).

(** [if channel.recv_ready(): buffer = channel.recv(9999)]. *)
Definition poll : M channel (option (list Byte.byte)) :=
  fun ch =>
    match pending ch with
    | [] => (Return None, ch)
    | p :: rest => (Return p, {| pending := rest; sent := sent ch |})
    end.

(** [str(buffer.decode('utf-8'))]. *)
Definition decode (buffer : list Byte.byte) : M channel string :=
  lift_option UnicodeDecodeError (Utf8.decode buffer).

Definition placeholder : string := "!!! error non-Unicode character in output".

(** The [return] statement by which [receive] ends, under the names the
    specification gives to the outcomes. *)
Inductive closed : Type :=
  | Inactive   (* return(buffer), 'Connection' seen *)
  | NoBanner   (* return('') *)
  | Success    (* return(output), 'ogin:' seen *)
  | Timeout.   (* return(output) after the loop *)

(** The first loop of [receive], [n] polls to go: [inl buffer] is the
    early [return(buffer)], [inr banner] the banner at the end. *)
Fixpoint banner_polls (n : nat) (password banner : string)
  : M channel (string + string) :=
  match n with
  | O => ret (inr banner)
  | S n' =>
      p <- poll ;;
      match p with
      | None => banner_polls n' password banner
      | Some buffer =>
          buffer <- decode buffer ;;
          if Py.contains "Connection" buffer then ret (inl buffer)
          else
            let banner := banner +:+ buffer in
            if Py.contains "assword:" buffer then
              send (password +:+ LF) ;;
              p <- poll ;;
              match p with
              | None => banner_polls n' password banner
              | Some buffer =>
                  buffer <- decode buffer ;;
                  banner_polls n' password (banner +:+ buffer)
              end
            else banner_polls n' password banner
      end
  end.

(** [for i in range(3)] inside the retry loop, [n] polls to go: [inl] is
    the [return(output)] on ['ogin:'], [inr] the output at the end. *)
Fixpoint retry_polls (n : nat) (output : string) : M channel (string + string) :=
  match n with
  | O => ret (inr output)
  | S n' =>
      p <- poll ;;
      output <- match p with
                | None => ret output
                | Some buffer =>
                    buffer <- try_except (decode buffer) (ret placeholder) ;;
                    if Store.is_empty output then ret buffer
                    else ret (output +:+ buffer)
                end ;;
      if Py.contains "ogin:" output then ret (inl output)
      else retry_polls n' output
  end.

(** [while tries < 6 and output == '']; [left] is [6 - tries]. *)
Fixpoint retry_loop (left : nat) (output : string) : M channel (closed * string) :=
  match left with
  | O => ret (Timeout, output)
  | S left' =>
      if Store.is_empty output then
        send LF ;;
        r <- retry_polls 3 output ;;
        match r with
        | inl output => ret (Success, output)
        | inr output => retry_loop left' output
        end
      else ret (Timeout, output)
  end.

(** [receive(channel, command, password)]: the text it returns, and the
    [return] statement taken. *)
Definition receive (command password : string) : M channel (closed * string) :=
  send (command +:+ LF) ;;
  r <- banner_polls 3 password "" ;;
  match r with
  | inl buffer => ret (Inactive, buffer)
  | inr banner =>
      if Store.is_empty banner then ret (NoBanner, "")
      else retry_loop 6 ""
  end.

(** [for i in range(2)] of [connect]. *)
Fixpoint confirm_polls (n : nat) (prompt : string) : M channel string :=
  match n with
  | O => ret prompt
  | S n' =>
      p <- poll ;;
      match p with
      | None => confirm_polls n' prompt
      | Some buffer =>
          buffer <- decode buffer ;;
          confirm_polls n' (prompt +:+ buffer)
      end
  end.

(** [Ctrl-^ x]: ['\036x']. *)
Definition escape : string := String "030" "x".

(** [connect(hostname, username, password, line)] on the freshly invoked
    shell of the session. *)
Definition connect (hostname username password line : string) : M channel string :=
  let command := "ssh -p " +:+ line +:+ " " +:+ hostname in
  r <- receive command password ;;
  let output := snd r in
  (if Store.is_empty output then ret tt
   else if negb (Py.contains "Connection" output) then
     send escape ;;
     send ("disco 1" +:+ LF) ;;
     prompt <- confirm_polls 2 "" ;;
     if Py.contains "[confirm]" prompt then
       send LF ;;
       p <- poll ;;
       match p with
       | None => ret tt
       | Some buffer => _ <- decode buffer ;; ret tt
       end
     else ret tt
   else ret tt) ;;
  ret output.

(** A channel that will find the given polls. *)
Definition fresh (polls : list (option (list Byte.byte))) : channel :=
  {| pending := polls; sent := [] |}.

(** A received chunk holding the bytes of a text. *)
Definition chunk (s : string) : option (list Byte.byte) :=
  Some (list_byte_of_string s).

End DoOobDevice.

(** ** Vocabulary for the statements about the console engine *)

Module ConsoleSpec.
Import DoOobDevice.

(** The text the retry loop adds to its output for a received chunk: the
    decoded chunk, or the placeholder when the chunk is not UTF-8. *)
Definition text_of (buffer : list Byte.byte) : string :=
  match Utf8.decode buffer with
  | Some t => t
  | None => placeholder
  end.

(** The texts of the chunks that a run of polls finds, joined in arrival
    order. *)
Fixpoint transcript (polls : list (option (list Byte.byte))) : string :=
  match polls with
  | [] => ""
  | None :: rest => transcript rest
  | Some buffer :: rest => text_of buffer +:+ transcript rest
  end.

(** The chunks of a run of polls, as bytes, joined in arrival order. *)
Fixpoint received (polls : list (option (list Byte.byte))) : list Byte.byte :=
  match polls with
  | [] => []
  | None :: rest => received rest
  | Some buffer :: rest => buffer ++ received rest
  end.

(** [connection_chunk n polls]: one of the next [n] banner polls finds a
    chunk that itself contains ["Connection"].  A chunk with a password
    prompt uses up one more poll, for the read after the password. *)
Inductive connection_chunk : nat -> list (option (list Byte.byte)) -> Prop :=
  | cc_here n b t rest :
      Utf8.decode b = Some t ->
      Py.contains "Connection" t = true ->
      connection_chunk (S n) (Some b :: rest)
  | cc_silent n rest :
      connection_chunk n rest ->
      connection_chunk (S n) (None :: rest)
  | cc_text n b t rest :
      Utf8.decode b = Some t ->
      Py.contains "Connection" t = false ->
      Py.contains "assword:" t = false ->
      connection_chunk n rest ->
      connection_chunk (S n) (Some b :: rest)
  | cc_password_silent n b t rest :
      Utf8.decode b = Some t ->
      Py.contains "Connection" t = false ->
      Py.contains "assword:" t = true ->
      connection_chunk n rest ->
      connection_chunk (S n) (Some b :: None :: rest)
  | cc_password_reply n b t b' t' rest :
      Utf8.decode b = Some t ->
      Py.contains "Connection" t = false ->
      Py.contains "assword:" t = true ->
      Utf8.decode b' = Some t' ->
      connection_chunk n rest ->
      connection_chunk (S n) (Some b :: Some b' :: rest).

(** The output carried by either result of a round of polls. *)
Definition text_of_result (r : string + string) : string :=
  match r with inl o => o | inr o => o end.

End ConsoleSpec.

(** ** Tables of the scenarios *)

Module Scenario.
Import Store.

(** The realm line [*NET1;admin;ENC;*] for a literal [enc]. *)
Definition realm_line_of (enc : string) : string :=
  "*NET1;admin;" +:+ enc +:+ ";*" +:+ DoOobDevice.LF.

(** The device line [r1;;ios;*NET1;*NET1;*NET1]. *)
Definition device_line_r1 : string :=
  "r1;;ios;*NET1;*NET1;*NET1" +:+ DoOobDevice.LF.

(** The store of the scenario, for a literal [enc], in directory [dir]. *)
Definition store_of (dir enc : string) : environ :=
  {| DO_DEVICE := Some dir;
     DO_DEVICE_isdir := true;
     credentials_txt := Some [realm_line_of enc];
     deviceinfo_txt := Some [device_line_r1] |}.

(** The credentials of [r1] for the password [pw]. *)
Definition r1_credentials (pw : string) : device_credentials :=
  {| ip := "r1"; global_delay_factor := 3; device_type := "ios";
     username := "admin"; password := pw; secret := pw |}.

(** The scenario as the specification words it: realm [NET1], a device
    line with an empty password field and [*] for the secret. *)
Definition store_as_stated : environ :=
  {| DO_DEVICE := Some "/etc/do-device";
     DO_DEVICE_isdir := true;
     credentials_txt := Some ["NET1;admin;enc:s3cret;*" +:+ DoOobDevice.LF];
     deviceinfo_txt := Some ["r1;;ios;*NET1;;*" +:+ DoOobDevice.LF] |}.

(** A store whose realm file holds no realm, and a device that needs
    none. *)
Definition store_without_realm : environ :=
  {| DO_DEVICE := Some "/etc/do-device";
     DO_DEVICE_isdir := true;
     credentials_txt := Some ["# no realm yet" +:+ DoOobDevice.LF];
     deviceinfo_txt :=
       Some ["r1;10.0.0.1;ios;admin;enc:pw;enc:en" +:+ DoOobDevice.LF] |}.

Definition realms_net1 : gmap string realm_data :=
  {[ "*NET1" := {| r_username := "admin"; r_password := "s3cret";
                   r_secret := "s3cret" |} ]}.

Definition realms_lab : gmap string realm_data :=
  {[ "*LAB" := {| r_username := "lab"; r_password := "pw";
                  r_secret := "en" |} ]}.

(** A device file with the line of another device before that of [r1]. *)
Definition two_devices : list string :=
  ["r0;10.0.0.9;ios;bob;enc:pw0;enc:en0;2222" +:+ DoOobDevice.LF;
   "r1;;ios;*NET1;*NET1;enc:en1" +:+ DoOobDevice.LF].

(** The same, the password of the other device not being a token. *)
Definition two_devices_broken : list string :=
  ["r0;10.0.0.9;ios;bob;not-a-token;enc:en0;2222" +:+ DoOobDevice.LF;
   "r1;;ios;*NET1;*NET1;enc:en1" +:+ DoOobDevice.LF].

(** Console runs. *)
Definition polls_connection_refused : list (option (list Byte.byte)) :=
  [None; DoOobDevice.chunk "Password: "; None;
   DoOobDevice.chunk "% Connection refused"; DoOobDevice.chunk "login:"].

Definition polls_connection_split : list (option (list Byte.byte)) :=
  [DoOobDevice.chunk "% Conn"; DoOobDevice.chunk "ection refused"; None;
   DoOobDevice.chunk "x"].

Definition polls_connection_after_password : list (option (list Byte.byte)) :=
  [DoOobDevice.chunk "Password: "; DoOobDevice.chunk "% Connection refused";
   None; None; DoOobDevice.chunk "x"].

End Scenario.

(** ** Further vocabulary for the credential store *)

Module StoreMore.
Import Store StoreSpec.

(** A realm with its three fields filled. *)
Definition complete_realm (r : realm_data) : Prop :=
  r_username r <> "" /\ r_password r <> "" /\ r_secret r <> "".

Definition complete_credentials (c : device_credentials) : Prop :=
  username c <> "" /\ password c <> "" /\ secret c <> "".

(** A line of the realm file that is neither blank nor a comment and has
    three semicolons. *)
Definition realm_syntax (line : string) : bool :=
  is_data_line (curline_of line)
  && (Py.count_char ";" (curline_of line) =? 3)%nat.

(** The last of the fields of a line. *)
Definition last_field (curline : string) : string :=
  List.last (Py.split_char ";" curline) "".

(** The port a valid device line stands for: 22 with five semicolons, the
    number in its seventh field with six. *)
Definition line_port (curline : string) : option Z :=
  if (Py.count_char ";" curline =? 5)%nat then Some 22
  else Py.int (last_field curline).

(** No line of [lines] is a valid device line. *)
Definition no_valid_line (lines : list string) : Prop :=
  Forall (fun line => valid_line line = false) lines.

(** [line] is the last valid device line of [lines]. *)
Definition last_valid_line (lines : list string) (line : string) : Prop :=
  exists earlier later,
    lines = earlier ++ line :: later
    /\ valid_line line = true /\ no_valid_line later.

(** The exceptions of [decrypt_password]. *)
Definition decrypt_error (e : exn) : Prop :=
  e = InvalidToken \/ e = UnicodeDecodeError.

Section Raised.
Context {F : Fernet}.

(** Where an exception of [read_deviceinfo] comes from: a valid line of
    the file whose seventh field is not a number, one with an encrypted
    literal that [decrypt_password] rejects, or one with a reference to a
    realm that the table does not hold. *)
Inductive raised_by (realms : gmap string realm_data) (lines : list string)
  : exn -> Prop :=
  | bad_port line :
      In line lines -> valid_line line = true ->
      line_port (curline_of line) = None ->
      raised_by realms lines ValueError
  | bad_token line tok e :
      In line lines -> valid_line line = true ->
      In tok (literals (curline_of line)) ->
      Cipher.decrypt_password tok [] = (Raise e, [tok]) ->
      raised_by realms lines e
  | unknown_realm line key :
      In line lines -> valid_line line = true ->
      In key (Py.split_char ";" (curline_of line)) ->
      is_realm_ref key = true -> realms !! key = None ->
      raised_by realms lines (KeyError key).

End Raised.

(** [env_ssh] is the store as [SSH_pwdecrypt.py] finds it, [env] the store
    as [pwdecrypt.py] finds it, in one directory: [SSH-credentials.txt]
    and [SSH-deviceinfo.txt] hold the lines of [credentials.txt] and
    [deviceinfo.txt]. *)
Definition same_lines (env env_ssh : environ) : Prop :=
  DO_DEVICE env_ssh = DO_DEVICE env
  /\ DO_DEVICE_isdir env_ssh = DO_DEVICE_isdir env
  /\ credentials_txt env_ssh = credentials_txt env
  /\ deviceinfo_txt env_ssh = deviceinfo_txt env.

(** The store cannot be reached: [DO_DEVICE] is not set or names no
    directory. *)
Definition store_missing (env : environ) : Prop :=
  DO_DEVICE env = None \/ DO_DEVICE_isdir env = false.

End StoreMore.

(** ** Further vocabulary for the console engine *)

Module ConsoleMore.
Import DoOobDevice.

(** [ch'] is [ch] after [j] polls and the sends [msgs]. *)
Definition trace (ch ch' : channel) (j : nat) (msgs : list string) : Prop :=
  pending ch' = drop j (pending ch) /\ sent ch' = sent ch ++ msgs.

(** Every chunk that the polls find is valid UTF-8. *)
Definition utf8_clean (polls : list (option (list Byte.byte))) : Prop :=
  Forall (fun p => match p with
                   | Some b => Utf8.valid b = true
                   | None => True
                   end) polls.

(** One of the polls finds a chunk with a password prompt. *)
Definition prompted (polls : list (option (list Byte.byte))) : Prop :=
  Exists (fun p => exists b t, p = Some b /\ Utf8.decode b = Some t
                               /\ Py.contains "assword:" t = true) polls.

(** None of the polls finds a chunk. *)
Definition silent (polls : list (option (list Byte.byte))) : Prop :=
  Forall (fun p => p = None) polls.

(** The command that [connect] sends first. *)
Definition ssh_command (hostname line : string) : string :=
  "ssh -p " +:+ line +:+ " " +:+ hostname +:+ LF.

(** The ways [connect] leaves a line: not at all, escape and disconnect,
    or these and the confirmation. *)
Definition leave (msgs : list string) : Prop :=
  msgs = []
  \/ msgs = [escape; "disco 1" +:+ LF]
  \/ msgs = [escape; "disco 1" +:+ LF; LF].

(** What the [return] statements of [receive] say about the text they
    return. *)
Definition closed_with (c : closed) (output : string) : Prop :=
  match c with
  | Inactive => Py.contains "Connection" output = true
  | NoBanner => output = ""
  | Success => Py.contains "ogin:" output = true
  | Timeout => Py.contains "ogin:" output = false
  end.

End ConsoleMore.

(** ** Further built-ins: [find], slices, [join], ['%02X' % n] *)

Module PyText.

(** [s.find(c)] for a one-character argument: the index of the first
    occurrence, [-1] when there is none. *)
Fixpoint find_char (c : ascii) (s : string) : Z :=
  match s with
  | EmptyString => -1
  | String a s' =>
      if Ascii.eqb a c then 0
      else let i := find_char c s' in if i <? 0 then -1 else i + 1
  end.

Fixpoint drop_chars (n : nat) (s : string) : string :=
  match n, s with
  | O, _ => s
  | S n', String _ s' => drop_chars n' s'
  | S _, EmptyString => EmptyString
  end.

Fixpoint take_chars (n : nat) (s : string) : string :=
  match n, s with
  | O, _ => EmptyString
  | S n', String a s' => String a (take_chars n' s')
  | S _, EmptyString => EmptyString
  end.

(** [s[i:]], with Python's negative indices. *)
Definition slice_from (s : string) (i : Z) : string :=
  let n := Z.of_nat (String.length s) in
  let i := if i <? 0 then Z.max 0 (n + i) else i in
  drop_chars (Z.to_nat i) s.

(** [s[:i]]. *)
Definition slice_to (s : string) (i : Z) : string :=
  let n := Z.of_nat (String.length s) in
  let i := if i <? 0 then Z.max 0 (n + i) else i in
  take_chars (Z.to_nat i) s.

(** [sep.join(l)]. *)
Fixpoint join (sep : string) (l : list string) : string :=
  match l with
  | [] => EmptyString
  | [x] => x
  | x :: rest => x +:+ sep +:+ join sep rest
  end.

Definition hex_char (d : Z) : ascii :=
  if d <? 10 then ascii_of_N (Z.to_N (48 + d)) else ascii_of_N (Z.to_N (55 + d)).

Fixpoint hex_pos (fuel : nat) (n : Z) (acc : string) : string :=
  match fuel with
  | O => acc
  | S f =>
      let acc' := String (hex_char (n mod 16)) acc in
      if n <? 16 then acc' else hex_pos f (n / 16) acc'
  end.

(** The hexadecimal numeral of [n >= 0], in capitals. *)
Definition hex (n : Z) : string :=
  hex_pos (S (Z.to_nat (Z.log2 n))) n EmptyString.

(** ['%02X' % n]: two characters at least, zeros put before the digits,
    a minus sign counting as a character. *)
Definition format_02X (n : Z) : string :=
  if n <? 0 then String "-" (hex (- n))
  else if n <? 16 then String "0" (hex n)
  else hex n.

End PyText.

(** ** The SNMP scripts ([get-snmp-mac.py], [get-snmp-arp.py]) *)

Module SnmpScripts.
Local Open Scope py_scope.

(** [OID['ifName']]. *)
Definition OID_ifName : string := "iso.3.6.1.2.1.31.1.1.1.1".

(** The body of the loop of [read_int2vlan]. *)
Definition int2vlan_line (int2vlan : gmap string string) (line : string)
  : M unit (gmap string string) :=
  let curline := Py.rstrip line in
  if negb (Py.startswith "#" curline) && (Py.count_char ";" curline =? 2)%nat
  then
    match Py.split_char ";" curline with
    | [hostname; interface; vlan] =>
        let key := hostname +:+ ";" +:+ interface in
        ret (<[key := vlan]> int2vlan)
    | _ => raise ValueError
    end
  else ret int2vlan.

Fixpoint int2vlan_lines (lines : list string) (int2vlan : gmap string string)
  : M unit (gmap string string) :=
  match lines with
  | [] => ret int2vlan
  | line :: rest =>
      int2vlan' <- int2vlan_line int2vlan line ;; int2vlan_lines rest int2vlan'
  end.

(** [read_int2vlan], the same text in both scripts; [None]: the name is
    not that of a file.  A file that is there is taken to be readable. *)
Definition read_int2vlan (file : option (list string))
  : M unit (gmap string string) :=
  match file with
  | None => ret ∅
  | Some lines => int2vlan_lines lines ∅
  end.

(** [re.compile('\.\d+').match(ifName)]: a dot and a digit at the start. *)
Definition dot_num_match (ifName : string) : bool :=
  match ifName with
  | String "." (String d _) => Py.isdigit d
  | _ => false
  end.

Section Walk.

(** [short_ifName] of the script at hand. *)
Variable short_ifName : string -> string.

(** The body of the loop of [SNMP_walk_ifName] for one variable of the
    walk, given as its [oid] and [value]. *)
Definition walk_ifName_step (hostname : string) (int2vlan : gmap string string)
    (ifNames : gmap string string) (data : string * string)
  : M unit (gmap string string) :=
  let ifIndex := Py.replace (OID_ifName +:+ ".") "" (fst data) in
  let ifName := short_ifName (snd data) in
  let vlan :=
    if dot_num_match ifName then
      let dot := PyText.find_char "." ifName in
      if 0 <? dot then PyText.slice_from ifName (dot + 1) else ""
    else "" in
  let key := hostname +:+ ";" +:+ ifName in
  match int2vlan !! key with
  | Some vlan => ret (<[ifIndex := vlan]> ifNames)
  | None =>
      if Py.nonempty vlan then
        n <- lift_option ValueError (Py.int vlan) ;;
        if 0 <? n then
          n' <- lift_option ValueError (Py.int vlan) ;;
          if n' <? 4096 then
            let ifNames := <[ifIndex := vlan]> ifNames in
            match int2vlan !! (hostname +:+ ";" +:+ ifName) with
            | Some v => ret (<[ifIndex := v]> ifNames)
            | None => ret (<[ifIndex := vlan]> ifNames)
            end
          else ret ifNames
        else ret ifNames
      else ret (<[ifIndex := ifName]> ifNames)
  end.

Fixpoint walk_ifName_loop (hostname : string) (int2vlan : gmap string string)
    (result : list (string * string)) (ifNames : gmap string string)
  : M unit (gmap string string) :=
  match result with
  | [] => ret ifNames
  | data :: rest =>
      ifNames' <- walk_ifName_step hostname int2vlan ifNames data ;;
      walk_ifName_loop hostname int2vlan rest ifNames'
  end.

(** [SNMP_walk_ifName]; [result] is what [session.walk] returns, [None]
    when it raises. *)
Definition SNMP_walk_ifName (result : option (list (string * string)))
    (hostname : string) (int2vlan : gmap string string)
  : M unit (gmap string string) :=
  match result with
  | None => ret ∅
  | Some result => walk_ifName_loop hostname int2vlan result ∅
  end.

End Walk.

(** [dotted2ieee] of [get-snmp-mac.py]: the loop, [i] octets done. *)
Fixpoint dotted2ieee_loop (i : nat) (octets : list string) (ieee : string)
  : M unit string :=
  match octets with
  | [] => ret ieee
  | octet :: rest =>
      let ieee := if (0 <? i)%nat then ieee +:+ "-" else ieee in
      n <- lift_option ValueError (Py.int octet) ;;
      dotted2ieee_loop (S i) rest (ieee +:+ PyText.format_02X n)
  end.

Definition dotted2ieee (mac : string) : M unit string :=
  let octets := Py.split_char "." mac in
  if negb (length octets =? 6)%nat then ret ""
  else dotted2ieee_loop 0 octets "".

(** [bin2ieee] of [get-snmp-arp.py].  The argument is the value of an
    SNMP variable, a text of arbitrary characters: it is given as the
    list of their code points, [ord(mac[i])]. *)
Fixpoint bin2ieee_loop (i : nat) (mac : list Z) (ieee : string) : string :=
  match mac with
  | [] => ieee
  | octet :: rest =>
      let ieee := if (0 <? i)%nat then ieee +:+ "-" else ieee in
      bin2ieee_loop (S i) rest (ieee +:+ PyText.format_02X octet)
  end.

Definition bin2ieee (mac : list Z) : string :=
  if negb (length mac =? 6)%nat then "" else bin2ieee_loop 0 mac "".

(** [map_ipaddr2interface] of [get-snmp-arp.py]. *)
Definition map_ipaddr2interface (ipaddr : string)
    (ifNames ipaddr2ifIndex : gmap string string) : string :=
  match ipaddr2ifIndex !! ipaddr with
  | Some ifIndex =>
      match ifNames !! ifIndex with
      | Some ifName => ifName
      | None => ""
      end
  | None => ""
  end.

End SnmpScripts.

(** ** Vocabulary for the statements about the SNMP scripts *)

Module SnmpSpec.

(** A MAC address: six octets. *)
Definition is_mac (octets : list Z) : Prop :=
  length octets = 6%nat /\ Forall (fun o => 0 <= o < 256) octets.

(** The dotted decimal form of a list of numbers, as it ends an OID. *)
Definition dotted (octets : list Z) : string :=
  PyText.join "." (map Py.str octets).

(** The value of a hexadecimal digit in capitals. *)
Definition hex_value (c : ascii) : option Z :=
  let n := Z.of_N (N_of_ascii c) in
  if Py.isdigit c then Some (n - 48)
  else if Py.ascii_in 65 70 c then Some (n - 55)
  else None.

(** The octet that two hexadecimal digits stand for. *)
Definition octet_of (group : string) : option Z :=
  match group with
  | String h (String l EmptyString) =>
      match hex_value h, hex_value l with
      | Some a, Some b => Some (16 * a + b)
      | _, _ => None
      end
  | _ => None
  end.

(** The octets of an address in the form [XX-XX-XX-XX-XX-XX]. *)
Definition ieee_octets (ieee : string) : option (list Z) :=
  mapM octet_of (Py.split_char "-" ieee).

(** Two capitals for an octet, read back by [octet_of]. *)
Definition octet_ok (n : Z) : bool :=
  match PyText.format_02X n with
  | String h (String l EmptyString) =>
      negb (Ascii.eqb h "-") && negb (Ascii.eqb l "-")
      && match octet_of (String h (String l EmptyString)) with
         | Some m => m =? n
         | None => false
         end
  | _ => false
  end.

(** What [SNMP_walk_ifName] stores for a variable of the walk: the vlan
    that [int2vlan] gives for the interface of the host, and the short
    interface name otherwise. *)
Definition ifName_entry (short_ifName : string -> string) (hostname : string)
    (int2vlan : gmap string string) (value : string) : string :=
  let ifName := short_ifName value in
  match int2vlan !! (hostname +:+ ";" +:+ ifName) with
  | Some vlan => vlan
  | None => ifName
  end.

Definition ifName_table (short_ifName : string -> string) (hostname : string)
    (int2vlan : gmap string string) (result : list (string * string))
  : gmap string string :=
  fold_left
    (fun ifNames data =>
       <[Py.replace (SnmpScripts.OID_ifName +:+ ".") "" (fst data)
         := ifName_entry short_ifName hostname int2vlan (snd data)]> ifNames)
    result ∅.

End SnmpSpec.

(** ** Vocabulary for the statements about interface names *)

Module IfNameSpec.

(** The characters of a port position: digits and the slash. *)
Definition port_char (c : ascii) : bool := Py.isdigit c || Ascii.eqb c "/".

Fixpoint is_port (s : string) : bool :=
  match s with
  | EmptyString => true
  | String c s' => port_char c && is_port s'
  end.

(** The long interface names of Cisco devices and the short ones that
    [short_ifName] writes for them. *)
Definition cisco_forms : list (string * string) :=
  [("TenGigabitEthernet", "Te"); ("GigabitEthernet", "Gi");
   ("FastEthernet", "Fa"); ("Ethernet", "Et"); ("Management", "Ma");
   ("Port-channel", "Po"); ("port-channel", "Po"); ("switch", "Et")].

(** The forms of a vlan interface that [short_ifName] reduces to the
    number of the vlan. *)
Definition vlan_forms : list string := ["Vlan"; "Vl"; "VLAN- "; "br-vlan"].

End IfNameSpec.

(** ** Running a script on a device ([do-device.py]) *)

Module DoDevice.
Import Store.

Definition ERR_NONE : Z := 0.
Definition ERR_NOSCRIPT : Z := 2.
Definition ERR_LOGFILE : Z := 3.
Definition ERR_LOGCREATE : Z := 4.
Definition ERR_CREDENTIALS : Z := 11.
Definition ERR_CONNECT : Z := 12.
Definition ERR_SEND_COMMAND : Z := 42.

(** What [do_device] does to the log file and to the connection, in
    order. *)
Inductive event : Type :=
  | LogCreated                          (* open(logfile, 'w') *)
  | Connected (c : device_credentials) (port : option Z)
                                        (* ConnectHandler, with port=... unless the port is 22 *)
  | Disabled                            (* ssh_conn.disable() *)
  | ConfigMode                          (* ssh_conn.config_mode() *)
  | ExitConfigMode                      (* ssh_conn.exit_config_mode() *)
  | Slept (arg : string)                (* time.sleep(float(arg)) *)
  | Sent (cmd : string) (output : option string)
                                        (* send_command(cmd); None: it raised *)
  | Echoed (text : string).             (* print(curcmd) *)

(** What the program finds outside itself.  The answers of the device may
    depend on all that was done before. *)
Record world : Type := {
  logfile_exists : bool;                  (* os.path.isfile(logfile) *)
  script_lines : option (list string);    (* readlines of the script; None: open raised *)
  store : environ;
  logfile_creatable : bool;               (* open(logfile, 'w') does not raise *)
  connects : device_credentials -> option Z -> bool;
                                          (* ConnectHandler does not raise *)
  send_command : list event -> string -> option string;
  method_ok : list event -> event -> bool;
                                          (* the method of ssh_conn does not raise *)
  sleep_ok : string -> bool               (* float and time.sleep do not raise *)
}.

(** Exceptions that [do_device] does not catch. *)
Inductive failure : Type :=
  | StoreError (e : exn)                  (* raised by get_credentials *)
  | EnableUnbound                         (* NameError: name 'enable' is not defined *)
  | MethodError (m : event)               (* raised by a method of ssh_conn *)
  | SleepError (arg : string).            (* raised by float or time.sleep *)

Inductive ending : Type :=
  | Exit (rc : Z)
  | Uncaught (f : failure).

(** [curcmd = cmd.lstrip(); curcmd = curcmd.rstrip('\n')]. *)
Definition curcmd_of (cmd : string) : string :=
  Py.rstrip_char "010" (Py.lstrip cmd).

Section Run.
Variable w : world.

(** A method of [ssh_conn] without arguments, then the rest of the run. *)
Definition call_method (m : event) (trace : list event)
    (rest : list event -> ending * list event) : ending * list event :=
  if method_ok w trace m then rest (trace ++ [m])
  else (Uncaught (MethodError m), trace).

(** The loop [for cmd in lines]. *)
Fixpoint script_loop (lines : list string) (trace : list event)
  : ending * list event :=
  match lines with
  | [] => (Exit ERR_NONE, trace)
  | cmd :: rest =>
      let curcmd := curcmd_of cmd in
      if String.eqb curcmd "!!enable" then (Uncaught EnableUnbound, trace)
      else if String.eqb curcmd "!!disable"
      then call_method Disabled trace (script_loop rest)
      else if String.eqb curcmd "!!config_mode"
      then call_method ConfigMode trace (script_loop rest)
      else if String.eqb curcmd "!!exit_config_mode"
      then call_method ExitConfigMode trace (script_loop rest)
      else if Py.nonempty curcmd && Py.startswith "!!sleep " curcmd then
        let arg := Py.replace "!!sleep " "" curcmd in
        if sleep_ok w arg then script_loop rest (trace ++ [Slept arg])
        else (Uncaught (SleepError arg), trace)
      else if Py.nonempty curcmd && negb (Py.startswith "!" curcmd) then
        (* rc = exec_cmd(ssh_conn, curcmd) *)
        match send_command w trace curcmd with
        | None => (Exit ERR_SEND_COMMAND, trace ++ [Sent curcmd None])
        | Some output => script_loop rest (trace ++ [Sent curcmd (Some output)])
        end
      else script_loop rest (trace ++ [Echoed curcmd])
  end.

Context {F : Fernet}.

(** [do_device(device, script, logfile)], with [get_credentials] of
    [pwdecrypt.py]. *)
Definition do_device (device : string) : ending * list event :=
  if logfile_exists w then (Exit ERR_LOGFILE, [])
  else
    match script_lines w with
    | None => (Exit ERR_NOSCRIPT, [])
    | Some lines =>
        match fst (Pwdecrypt.get_credentials (store w) device []) with
        | Raise e => (Uncaught (StoreError e), [])
        | Return (NoDevice, _) => (Exit ERR_CREDENTIALS, [])
        | Return (credentials, ssh_port) =>
            if negb (logfile_creatable w) then (Exit ERR_LOGCREATE, [])
            else
              match credentials with
              | Credentials c =>
                  let port := if ssh_port =? 22 then None else Some ssh_port in
                  if connects w c port
                  then script_loop lines [LogCreated; Connected c port]
                  else (Exit ERR_CONNECT, [LogCreated])
              | _ =>
                  (* the empty string is no mapping to unpack for ConnectHandler:
                     TypeError, caught like every exception of the connect *)
                  (Exit ERR_CONNECT, [LogCreated])
              end
        end
    end.

End Run.
End DoDevice.

(** ** Vocabulary for the statements about [do_device] *)

Module DoDeviceSpec.
Import DoDevice.

(** A line of the script that is a command for the device: not empty and
    not starting with an exclamation mark, leading white space and the
    final newlines apart. *)
Definition is_command (cmd : string) : bool :=
  Py.nonempty (curcmd_of cmd) && negb (Py.startswith "!" (curcmd_of cmd)).

(** The commands of a script, in order. *)
Definition commands (lines : list string) : list string :=
  map curcmd_of (List.filter is_command lines).

(** The commands that a run has passed to [send_command], in order. *)
Fixpoint attempted (trace : list event) : list string :=
  match trace with
  | [] => []
  | Sent cmd _ :: rest => cmd :: attempted rest
  | _ :: rest => attempted rest
  end.

(** The commands that [send_command] has answered. *)
Fixpoint answered (trace : list event) : list string :=
  match trace with
  | [] => []
  | Sent cmd (Some _) :: rest => cmd :: answered rest
  | _ :: rest => answered rest
  end.

End DoDeviceSpec.

(** ** The console line with its session ([connect] and [receive] of
       [do-oob-device.py], the calls of paramiko that can fail included) *)

Module DoOobLine.
Import DoOobDevice.

(** What a poll of the channel finds. *)
Inductive reading : Type :=
  | NotReady                        (* recv_ready() is false *)
  | Chunk (b : list Byte.byte)      (* recv_ready() is true, recv(9999) returns b *)
  | Broken.                         (* recv_ready() or recv(9999) raises *)

(** The session of one console line, as paramiko presents it. *)
Record session : Type := {
  shell_ok : bool;
    (* SSHClient(), set_missing_host_key_policy, connect and invoke_shell
       do not raise *)
  send_ok : list string -> string -> bool;
    (* channel.send(s), after the sends so far, does not raise *)
  close_ok : bool
    (* ssh.close() does not raise *)
}.

(** The channel: what the coming polls will find (past the end nothing is
    ready) and what was sent so far. *)
Record wire : Type := {
  readings : list reading;
  wsent : list string
}.

(** The exceptions of a run: that of [bytes.decode], and those of
    paramiko and of the socket under it. *)
Inductive failure : Type :=
  | DecodeError                     (* UnicodeDecodeError *)
  | TransportError.

(** A computation on the channel: it returns or fails, and leaves a
    channel behind in both cases. *)
Definition W (A : Type) : Type := wire -> (A + failure) * wire.

Definition wret {A} (a : A) : W A := fun w => (inl a, w).

Definition wfail {A} (f : failure) : W A := fun w => (inr f, w).

Definition wbind {A B} (m : W A) (k : A -> W B) : W B :=
  fun w =>
    match m w with
    | (inl a, w') => k a w'
    | (inr f, w') => (inr f, w')
    end.

(** [try: m except: h]. *)
Definition wtry {A} (m : W A) (h : W A) : W A :=
  fun w =>
    match m w with
    | (inl a, w') => (inl a, w')
    | (inr _, w') => h w'
    end.

Declare Scope line_scope.
Delimit Scope line_scope with line.
Notation "x <- m ;; k" := (wbind m (fun x => k))
  (at level 100, m at next level, right associativity) : line_scope.
Notation "m ;; k" := (wbind m (fun _ => k))
  (at level 100, right associativity) : line_scope.

Section Session.
Variable s : session.
Local Open Scope line_scope.

(** [channel.send(msg)]. *)
Definition send (msg : string) : W unit :=
  fun w =>
    if send_ok s (wsent w) msg
    then (inl tt, {| readings := readings w; wsent := wsent w ++ [msg] |})
    else (inr TransportError, w).

(** [if channel.recv_ready(): buffer = channel.recv(9999)]. *)
Definition poll : W (option (list Byte.byte)) :=
  fun w =>
    match readings w with
    | [] => (inl None, w)
    | r :: rest =>
        let w' := {| readings := rest; wsent := wsent w |} in
        match r with
        | NotReady => (inl None, w')
        | Chunk b => (inl (Some b), w')
        | Broken => (inr TransportError, w')
        end
    end.

(** [str(buffer.decode('utf-8'))]. *)
Definition decode (buffer : list Byte.byte) : W string :=
  match Utf8.decode buffer with
  | Some t => wret t
  | None => wfail DecodeError
  end.

(** The first loop of [receive], [n] polls to go. *)
Fixpoint banner_polls (n : nat) (password banner : string)
  : W (string + string) :=
  match n with
  | O => wret (inr banner)
  | S n' =>
      p <- poll ;;
      match p with
      | None => banner_polls n' password banner
      | Some buffer =>
          buffer <- decode buffer ;;
          if Py.contains "Connection" buffer then wret (inl buffer)
          else
            let banner := banner +:+ buffer in
            if Py.contains "assword:" buffer then
              send (password +:+ LF) ;;
              p <- poll ;;
              match p with
              | None => banner_polls n' password banner
              | Some buffer =>
                  buffer <- decode buffer ;;
                  banner_polls n' password (banner +:+ buffer)
              end
            else banner_polls n' password banner
      end
  end.

(** [for i in range(3)] inside the retry loop. *)
Fixpoint retry_polls (n : nat) (output : string) : W (string + string) :=
  match n with
  | O => wret (inr output)
  | S n' =>
      p <- poll ;;
      output <- match p with
                | None => wret output
                | Some buffer =>
                    buffer <- wtry (decode buffer) (wret placeholder) ;;
                    if Store.is_empty output then wret buffer
                    else wret (output +:+ buffer)
                end ;;
      if Py.contains "ogin:" output then wret (inl output)
      else retry_polls n' output
  end.

(** [while tries < 6 and output == '']. *)
Fixpoint retry_loop (left : nat) (output : string) : W (closed * string) :=
  match left with
  | O => wret (Timeout, output)
  | S left' =>
      if Store.is_empty output then
        send LF ;;
        r <- retry_polls 3 output ;;
        match r with
        | inl output => wret (Success, output)
        | inr output => retry_loop left' output
        end
      else wret (Timeout, output)
  end.

(** [receive(channel, command, password)]. *)
Definition receive (command password : string) : W (closed * string) :=
  send (command +:+ LF) ;;
  r <- banner_polls 3 password "" ;;
  match r with
  | inl buffer => wret (Inactive, buffer)
  | inr banner =>
      if Store.is_empty banner then wret (NoBanner, "")
      else retry_loop 6 ""
  end.

(** [for i in range(2)] of [connect]. *)
Fixpoint confirm_polls (n : nat) (prompt : string) : W string :=
  match n with
  | O => wret prompt
  | S n' =>
      p <- poll ;;
      match p with
      | None => confirm_polls n' prompt
      | Some buffer =>
          buffer <- decode buffer ;;
          confirm_polls n' (prompt +:+ buffer)
      end
  end.

(** [connect(hostname, username, password, line)], from the set-up of
    the session to [ssh.close()]. *)
Definition connect (hostname username password line : string) : W string :=
  if negb (shell_ok s) then wfail TransportError
  else
    let command := "ssh -p " +:+ line +:+ " " +:+ hostname in
    r <- receive command password ;;
    let output := snd r in
    (if Store.is_empty output then wret tt
     else if negb (Py.contains "Connection" output) then
       send escape ;;
       send ("disco 1" +:+ LF) ;;
       prompt <- confirm_polls 2 "" ;;
       if Py.contains "[confirm]" prompt then
         send LF ;;
         p <- poll ;;
         match p with
         | None => wret tt
         | Some buffer => _ <- decode buffer ;; wret tt
         end
       else wret tt
     else wret tt) ;;
    (if close_ok s then wret tt else wfail TransportError) ;;
    wret output.

End Session.
End DoOobLine.

(** ** Vocabulary for the statements about the session of a line *)

Module LineSpec.
Import DoOobDevice DoOobLine.

(** No call of paramiko fails in the session. *)
Definition sound (s : session) : Prop :=
  shell_ok s = true /\ close_ok s = true
  /\ forall sent msg, send_ok s sent msg = true.

(** No poll fails. *)
Definition intact (w : wire) : Prop :=
  Forall (fun r => r <> Broken) (readings w).

(** Every chunk that the polls find is valid UTF-8. *)
Definition utf8_readings (w : wire) : Prop :=
  Forall (fun r => match r with
                   | Chunk b => Utf8.valid b = true
                   | _ => True
                   end) (readings w).

(** What the polls find, as the channel without its session has it. *)
Definition found (r : reading) : option (list Byte.byte) :=
  match r with Chunk b => Some b | _ => None end.

Definition channel_of (w : wire) : channel :=
  {| pending := map found (readings w); sent := wsent w |}.

(** The result of a run on the channel without its session, as a result
    of a run with it. *)
Definition result_of {A} (o : outcome A) : A + failure :=
  match o with
  | Return a => inl a
  | Raise _ => inr DecodeError
  end.

(** [m'] is [m] on a session in which no call of paramiko fails. *)
Definition agrees {A} (m : W A) (m' : M channel A) : Prop :=
  forall w, intact w ->
    fst (m w) = result_of (fst (m' (channel_of w)))
    /\ channel_of (snd (m w)) = snd (m' (channel_of w))
    /\ intact (snd (m w)).

End LineSpec.

(** ** Facts about the string built-ins *)

Section StringFacts.

Lemma startswith_app_l (a b s : string) :
  Py.startswith (a +:+ b) s = true -> Py.startswith a s = true.
Proof.
  revert s. induction a as [|c a IH]; intros s H; [reflexivity|].
  destruct s as [|d s]; simpl in *; [discriminate|].
  apply andb_true_iff in H as [Hc Hs].
  rewrite Hc. simpl. now apply IH.
Qed.

Lemma contains_cons (p : string) (c : ascii) (s : string) :
  Py.contains p (String c s) = Py.startswith p (String c s) || Py.contains p s.
Proof. reflexivity. Qed.

Lemma startswith_contains (p s : string) :
  Py.startswith p s = true -> Py.contains p s = true.
Proof. intros H. destruct s; simpl in *; rewrite H; reflexivity. Qed.

Lemma contains_tail (p : string) (c : ascii) (s : string) :
  Py.contains p s = true -> Py.contains p (String c s) = true.
Proof. intros H. rewrite contains_cons, H. apply orb_true_r. Qed.

Lemma startswith_app_r (a b s : string) :
  Py.startswith (a +:+ b) s = true -> Py.contains b s = true.
Proof.
  revert s. induction a as [|c a IH]; intros s H.
  - now apply startswith_contains.
  - destruct s as [|d s]; simpl in H; [discriminate|].
    apply andb_true_iff in H as [_ Hs].
    apply contains_tail. now apply IH.
Qed.

(** A text that lacks a fragment lacks every longer string around it. *)
Lemma contains_app_r (a b s : string) :
  Py.contains b s = false -> Py.contains (a +:+ b) s = false.
Proof.
  intros Hb. destruct (Py.contains (a +:+ b) s) eqn:E; [|reflexivity].
  rewrite <- Hb. clear Hb.
  induction s as [|c s IH].
  - simpl in E. rewrite orb_false_r in E. now apply startswith_app_r in E.
  - rewrite contains_cons in E. apply orb_true_iff in E as [E|E].
    + now apply startswith_app_r in E.
    + symmetry. apply contains_tail. symmetry. now apply IH.
Qed.

Lemma replace_aux_absent (old new s : string) :
  Py.contains old s = false -> Py.replace_aux old new O s = s.
Proof.
  induction s as [|c s IH]; intros H; [reflexivity|].
  rewrite contains_cons in H. apply orb_false_iff in H as [H1 H2].
  cbn [Py.replace_aux]. rewrite H1. f_equal. now apply IH.
Qed.

(** Replacing a fragment that does not occur changes nothing. *)
Lemma replace_absent (old new s : string) :
  Py.nonempty old = true ->
  Py.contains old s = false -> Py.replace old new s = s.
Proof.
  intros Hn H. destruct old; [discriminate|].
  unfold Py.replace. now apply replace_aux_absent.
Qed.

End StringFacts.

(** ** Interface names in short form *)

Lemma short_common_fixed (s : string) :
  ShortForm.short_form s = true -> IfName.short_common s = s.
Proof.
  unfold ShortForm.short_form, ShortForm.long_forms. cbn [forallb].
  rewrite !andb_true_iff, !negb_true_iff.
  intros [[[[(He & Hm & HP & Hp & Hs & _) H0] H3] Hvl] Hbr].
  unfold IfName.short_common.
  rewrite (replace_absent "TenGigabitEthernet" "Te" s eq_refl
             (contains_app_r "TenGigabit" "Ethernet" s He)).
  rewrite (replace_absent "GigabitEthernet" "Gi" s eq_refl
             (contains_app_r "Gigabit" "Ethernet" s He)).
  rewrite (replace_absent "FastEthernet" "Fa" s eq_refl
             (contains_app_r "Fast" "Ethernet" s He)).
  rewrite (replace_absent "Ethernet" "Et" s eq_refl He).
  rewrite (replace_absent "Management" "Ma" s eq_refl Hm).
  rewrite (replace_absent "Port-channel" "Po" s eq_refl HP).
  rewrite (replace_absent "port-channel" "Po" s eq_refl Hp).
  rewrite (replace_absent "switch" "Et" s eq_refl Hs).
  rewrite H0, H3, Hvl, Hbr. reflexivity.
Qed.
Lemma arp_not_ignored (x : string) :
  GetSnmpArp.ignore_ifName (GetSnmpArp.short_ifName x) = false.
Proof.
  unfold GetSnmpArp.short_ifName.
  destruct (GetSnmpArp.ignore_ifName (IfName.short_common x)) eqn:E;
    [reflexivity | exact E].
Qed.

(** C8, as the code has it: a name in short form is returned unchanged by
    [short_ifName] of [get-snmp-mac.py]; [short_ifName] of
    [get-snmp-arp.py] returns it unchanged too, unless it starts with a
    name of the ignore list, when it returns the empty name.  So
    [short_ifName], in both scripts, is idempotent on every input whose
    normalised name is in short form. *)
Theorem short_ifName_idempotent_on_short_form (x : string) :
  (ShortForm.short_form x = true ->
   GetSnmpMac.short_ifName x = x
   /\ GetSnmpArp.short_ifName x
      = if GetSnmpArp.ignore_ifName x then "" else x)
  /\
  (ShortForm.short_form (GetSnmpMac.short_ifName x) = true ->
   GetSnmpMac.short_ifName (GetSnmpMac.short_ifName x) = GetSnmpMac.short_ifName x)
  /\
  (ShortForm.short_form (GetSnmpArp.short_ifName x) = true ->
   GetSnmpArp.short_ifName (GetSnmpArp.short_ifName x) = GetSnmpArp.short_ifName x).
Proof.
  split; [|split]; intros H.
  - unfold GetSnmpMac.short_ifName, GetSnmpArp.short_ifName.
    now rewrite (short_common_fixed x H).
  - unfold GetSnmpMac.short_ifName in *. now apply short_common_fixed.
  - pose proof (arp_not_ignored x) as Hi.
    set (y := GetSnmpArp.short_ifName x) in *.
    unfold GetSnmpArp.short_ifName at 1.
    rewrite (short_common_fixed y H), Hi. reflexivity.
Qed.

Lemma short_ifName_idempotent_on_short_form_witness :
  (GetSnmpMac.short_ifName "lo0" = "lo0"
   /\ GetSnmpArp.short_ifName "lo0"
      = if GetSnmpArp.ignore_ifName "lo0" then "" else "lo0")
  /\ GetSnmpMac.short_ifName (GetSnmpMac.short_ifName "GigabitEthernet1/0/2")
    = GetSnmpMac.short_ifName "GigabitEthernet1/0/2"
  /\ GetSnmpArp.short_ifName (GetSnmpArp.short_ifName "Port-channel12")
    = GetSnmpArp.short_ifName "Port-channel12".
Proof.
  split; [|split].
  - destruct (short_ifName_idempotent_on_short_form "lo0") as [H _].
    apply H. vm_compute. reflexivity.
  - destruct (short_ifName_idempotent_on_short_form "GigabitEthernet1/0/2")
      as (_ & H & _).
    apply H. vm_compute. reflexivity.
  - destruct (short_ifName_idempotent_on_short_form "Port-channel12")
      as (_ & _ & H).
    apply H. vm_compute. reflexivity.
Defined.

(** A name in short form that is on the ignore list of
    [get-snmp-arp.py]: that script returns the empty name for it. *)
Example short_form_ignored :
  ShortForm.short_form "lo0" = true
  /\ GetSnmpMac.short_ifName "lo0" = "lo0"
  /\ GetSnmpArp.short_ifName "lo0" = "".
Proof. vm_compute. repeat split; reflexivity. Qed.

(** C8 as stated fails: ["Vl0/5"] is normalised to ["0/5"], which the
    Ubiquiti rule then turns into ["Et0/5"]. *)
Lemma short_ifName_not_idempotent :
  GetSnmpMac.short_ifName "Vl0/5" = "0/5"
  /\ GetSnmpMac.short_ifName (GetSnmpMac.short_ifName "Vl0/5") = "Et0/5"
  /\ GetSnmpArp.short_ifName "Vl0/5" = "0/5"
  /\ GetSnmpArp.short_ifName (GetSnmpArp.short_ifName "Vl0/5") = "Et0/5".
Proof. vm_compute. repeat split; reflexivity. Qed.

(** ** The console engine *)

Section ConsoleFacts.
Import DoOobDevice ConsoleSpec.

Lemma append_cons (x : ascii) (a b : string) :
  String x a +:+ b = String x (a +:+ b).
Proof. reflexivity. Qed.

Lemma append_nil_l (b : string) : "" +:+ b = b.
Proof. reflexivity. Qed.

Lemma append_assoc (a b c : string) : (a +:+ b) +:+ c = a +:+ (b +:+ c).
Proof.
  induction a as [|x a IH]; [reflexivity|].
  rewrite !append_cons. now f_equal.
Qed.

Lemma append_nil_r (a : string) : a +:+ "" = a.
Proof.
  induction a as [|x a IH]; [reflexivity|].
  rewrite append_cons. now f_equal.
Qed.

Lemma is_empty_true (s : string) : Store.is_empty s = true <-> s = "".
Proof. destruct s; cbv; split; congruence. Qed.

Lemma is_empty_false (s : string) : Store.is_empty s = false <-> s <> "".
Proof. destruct s; cbv; split; congruence. Qed.

Lemma channel_eta (ch : channel) :
  {| pending := pending ch; sent := sent ch |} = ch.
Proof. now destruct ch. Qed.

Lemma transcript_app (a b : list (option (list Byte.byte))) :
  transcript (a ++ b) = transcript a +:+ transcript b.
Proof.
  induction a as [|[x|] a IH]; cbn [transcript app];
    [reflexivity | | exact IH].
  now rewrite IH, append_assoc.
Qed.

(** The [try] around the decoding of the retry loop never lets it fail. *)
Lemma decode_guarded (buffer : list Byte.byte) (ch : channel) :
  try_except (decode buffer) (ret placeholder) ch = (Return (text_of buffer), ch).
Proof.
  unfold try_except, decode, text_of, lift_option.
  now destruct (Utf8.decode buffer).
Qed.

(** One round of polls of the retry loop: it uses up [j] of the coming
    polls, sends nothing, and has appended what they found. *)
Lemma retry_polls_spec (n : nat) (output : string) (ch : channel) :
  exists j r,
    (j <= n)%nat
    /\ retry_polls n output ch
       = (Return r, {| pending := drop j (pending ch); sent := sent ch |})
    /\ text_of_result r = output +:+ transcript (take j (pending ch))
    /\ match r with
       | inl o => Py.contains "ogin:" o = true
       | inr o => (n = O /\ o = output) \/ Py.contains "ogin:" o = false
       end.
Proof.
  revert output ch. induction n as [|n IH]; intros output ch.
  - exists O, (inr output). cbn [retry_polls ret].
    rewrite drop_0, take_0, channel_eta. cbn [transcript].
    rewrite append_nil_r. repeat split; auto.
  - cbn [retry_polls]. unfold bind at 1. unfold poll at 1.
    destruct (pending ch) as [|p rest] eqn:Hp.
    + (* nothing is ready any more *)
      unfold bind at 1. cbn [ret].
      destruct (Py.contains "ogin:" output) eqn:Hc.
      * exists O, (inl output). cbn [text_of_result ret].
        rewrite drop_0, take_0. cbn [transcript].
        rewrite <- Hp, channel_eta, append_nil_r. repeat split; auto. lia.
      * destruct (IH output ch) as (j & r & Hj & Hrun & Htxt & Hr).
        exists j, r. rewrite Hp in Hrun, Htxt.
        rewrite drop_nil in *. rewrite take_nil in *.
        repeat split; auto.
        destruct r as [o|o]; [exact Hr|].
        right. destruct Hr as [[_ ->]|Hr]; [exact Hc | exact Hr].
    + set (ch1 := {| pending := rest; sent := sent ch |}).
      set (output' := output +:+ transcript [p]).
      assert (Hstep :
        (match p with
         | None => ret output
         | Some buffer =>
             bind (try_except (decode buffer) (ret placeholder))
               (fun buffer => if Store.is_empty output then ret buffer
                              else ret (output +:+ buffer))
         end) ch1 = (Return output', ch1)).
      { subst output'. destruct p as [b|]; cbn [transcript].
        - unfold bind. rewrite decode_guarded, append_nil_r.
          destruct output; reflexivity.
        - now rewrite append_nil_r. }
      unfold bind at 1. rewrite Hstep.
      destruct (Py.contains "ogin:" output') eqn:Hc.
      * exists 1%nat, (inl output'). cbn [ret text_of_result firstn skipn].
        repeat split; auto. lia.
      * destruct (IH output' ch1) as (j & r & Hj & Hrun & Htxt & Hr).
        exists (S j), r. cbn [firstn skipn]. cbn [pending sent ch1] in Hrun, Htxt.
        repeat split; auto; [lia | |].
        -- rewrite Htxt. subst output'.
           rewrite append_assoc. f_equal.
           change (p :: take j rest) with ([p] ++ take j rest).
           now rewrite transcript_app.
        -- destruct r as [o|o]; [exact Hr|].
           right. destruct Hr as [[_ ->]|Hr]; [exact Hc | exact Hr].
Qed.

Lemma retry_loop_nonempty (left : nat) (output : string) (ch : channel) :
  output <> "" -> retry_loop left output ch = (Return (Timeout, output), ch).
Proof.
  intros H. apply is_empty_false in H.
  destruct left; cbn [retry_loop]; [reflexivity | now rewrite H].
Qed.

Lemma repeat_snoc_cons {A} (x : A) (k : nat) (l : list A) :
  (l ++ [x]) ++ repeat x k = l ++ repeat x (S k).
Proof. now rewrite <- app_assoc. Qed.

(** The retry loop, started with an empty output and [left] turns to go:
    [k] turns, [j] polls, of which the [j0] polls of the turns before the
    last found no text. *)
Lemma retry_loop_spec (left : nat) (ch : channel) :
  exists k j j0 ex out,
    retry_loop left "" ch
    = (Return (ex, out),
       {| pending := drop j (pending ch); sent := sent ch ++ repeat LF k |})
    /\ (k <= left)%nat /\ (left <> O -> 1 <= k)%nat
    /\ (j <= 3 * k /\ j0 <= 3 * (k - 1) /\ j0 <= j <= j0 + 3)%nat
    /\ transcript (take j0 (pending ch)) = ""
    /\ out = transcript (take j (pending ch))
    /\ ((ex = Success /\ Py.contains "ogin:" out = true)
        \/ (ex = Timeout /\ Py.contains "ogin:" out = false
            /\ (out = "" -> k = left))).
Proof.
  revert ch. induction left as [|left IH]; intros ch.
  - exists O, O, O, Timeout, "". cbn [retry_loop repeat]. unfold ret.
    rewrite app_nil_r, drop_0, take_0, channel_eta. cbn [transcript].
    repeat split; auto; try lia.
  - cbn [retry_loop]. change (Store.is_empty "") with true. cbv iota.
    unfold bind at 1. unfold send at 1.
    set (ch0 := {| pending := pending ch; sent := sent ch ++ [LF] |}).
    destruct (retry_polls_spec 3 "" ch0) as (j1 & r & Hj1 & Hrun & Htxt & Hr).
    unfold bind at 1. rewrite Hrun. cbn [pending sent ch0] in *.
    rewrite append_nil_l in Htxt.
    destruct r as [o|o]; cbn [text_of_result] in Htxt.
    + exists 1%nat, j1, O, Success, o. cbn [ret repeat]. rewrite take_0.
      repeat split; auto; try lia.
    + destruct Hr as [[Hn _]|Hr]; [discriminate|].
      destruct (String.string_dec o "") as [He|Hne].
      * subst o.
        set (ch1 := {| pending := drop j1 (pending ch); sent := sent ch ++ [LF] |}).
        destruct (IH ch1)
          as (k & j & j0 & ex & out & Hloop & Hk & Hk1 & Hj & Hquiet & Hout & Hex).
        cbn [pending sent ch1] in *.
        exists (S k), (j1 + j)%nat, (match k with O => O | S _ => j1 + j0 end)%nat,
          ex, out.
        rewrite He, Hloop, drop_drop, repeat_snoc_cons.
        split; [reflexivity|]. split; [lia|]. split; [lia|].
        split; [destruct k; lia|].
        split; [destruct k;
                [now rewrite take_0
                |now rewrite <- take_take_drop, transcript_app, He, Hquiet]|].
        split; [rewrite <- take_take_drop, transcript_app, He, append_nil_l;
                exact Hout|].
        destruct Hex as [Hex|(Hex & Hc & Hl)]; [left; exact Hex|].
        right. repeat split; auto.
      * exists 1%nat, j1, O, Timeout, o.
        rewrite retry_loop_nonempty by exact Hne. cbn [repeat]. rewrite take_0.
        repeat split; auto; try lia.
        right. repeat split; auto. intros E. contradiction.
Qed.

(** When every chunk is UTF-8 the transcript is the received bytes. *)
Lemma string_of_list_byte_app (a b : list Byte.byte) :
  string_of_list_byte (a ++ b) = string_of_list_byte a +:+ string_of_list_byte b.
Proof.
  induction a as [|x a IH]; [reflexivity|].
  cbn [app]. unfold string_of_list_byte in *. cbn [map string_of_list_ascii].
  rewrite append_cons. now f_equal.
Qed.

Lemma transcript_utf8 (polls : list (option (list Byte.byte))) :
  Forall (fun p => match p with
                   | Some b => Utf8.valid b = true
                   | None => True
                   end) polls ->
  transcript polls = string_of_list_byte (received polls).
Proof.
  induction 1 as [|[b|] polls Hb _ IH]; cbn [transcript received];
    [reflexivity | | exact IH].
  rewrite string_of_list_byte_app, IH. f_equal.
  unfold text_of, Utf8.decode. now rewrite Hb.
Qed.

End ConsoleFacts.



Section BannerFacts.
Import DoOobDevice ConsoleSpec.

Lemma connection_nonempty (buffer : string) :
  Py.contains "Connection" buffer = true -> Store.is_empty buffer = false.
Proof. destruct buffer; [discriminate | reflexivity]. Qed.

(** A chunk with ["Connection"] at a banner poll ends the banner loop by
    its early [return]; up to there only password lines were sent. *)
Lemma banner_polls_connection (n : nat) (polls : list (option (list Byte.byte))) :
  connection_chunk n polls ->
  forall (password banner : string) (sent0 : list string),
  exists buffer m rest,
    banner_polls n password banner {| pending := polls; sent := sent0 |}
    = (Return (inl buffer),
       {| pending := rest; sent := sent0 ++ repeat (password +:+ LF) m |})
    /\ Py.contains "Connection" buffer = true
    /\ (m < n)%nat.
Proof.
  induction 1 as [n b t rest Hd Hc
                 |n rest _ IH
                 |n b t rest Hd Hc Hp _ IH
                 |n b t rest Hd Hc Hp _ IH
                 |n b t b' t' rest Hd Hc Hp Hd' _ IH];
    intros password banner sent0; cbn [banner_polls];
    unfold bind at 1; unfold poll at 1; cbn [pending sent].
  - unfold bind at 1. unfold decode. rewrite Hd. cbn [lift_option]. unfold ret at 1.
    rewrite Hc. exists t, O, rest. cbn [repeat]. rewrite app_nil_r.
    repeat split; auto. lia.
  - destruct (IH password banner sent0) as (buffer & m & rest' & Hrun & Hb & Hm).
    exists buffer, m, rest'. repeat split; auto.
  - unfold bind at 1. unfold decode. rewrite Hd. cbn [lift_option]. unfold ret at 1.
    rewrite Hc, Hp.
    destruct (IH password (banner +:+ t) sent0) as (buffer & m & rest' & Hrun & Hb & Hm).
    exists buffer, m, rest'. repeat split; auto.
  - unfold bind at 1. unfold decode. rewrite Hd. cbn [lift_option]. unfold ret at 1.
    rewrite Hc, Hp.
    unfold bind at 1. unfold send at 1. cbn [pending sent].
    unfold bind at 1. unfold poll at 1. cbn [pending sent].
    destruct (IH password (banner +:+ t) (sent0 ++ [password +:+ LF]))
      as (buffer & m & rest' & Hrun & Hb & Hm).
    exists buffer, (S m), rest'. rewrite Hrun, repeat_snoc_cons.
    repeat split; auto. lia.
  - unfold bind at 1. unfold decode at 1. rewrite Hd. cbn [lift_option]. unfold ret at 1.
    rewrite Hc, Hp.
    unfold bind at 1. unfold send at 1. cbn [pending sent].
    unfold bind at 1. unfold poll at 1. cbn [pending sent].
    unfold bind at 1. unfold decode. rewrite Hd'. cbn [lift_option]. unfold ret at 1.
    destruct (IH password ((banner +:+ t) +:+ t') (sent0 ++ [password +:+ LF]))
      as (buffer & m & rest' & Hrun & Hb & Hm).
    exists buffer, (S m), rest'. rewrite Hrun, repeat_snoc_cons.
    repeat split; auto. lia.
Qed.

End BannerFacts.



(** The same run, evaluated. *)
Example connection_refused_run :
  DoOobDevice.connect "r1" "admin" "pw" "2005"
    (DoOobDevice.fresh Scenario.polls_connection_refused)
  = (Return "% Connection refused",
     {| DoOobDevice.pending := [DoOobDevice.chunk "login:"];
        DoOobDevice.sent := ["ssh -p 2005 r1" +:+ DoOobDevice.LF;
                             "pw" +:+ DoOobDevice.LF] |}).
Proof. vm_compute. reflexivity. Qed.


(** C6: only the retry loop guards its decoding.  A chunk that is not
    UTF-8 raises [UnicodeDecodeError] out of [connect] when it arrives at
    a banner poll, at the read after the password, or at a poll for the
    disconnect confirmation; in the retry loop it becomes the
    placeholder. *)
Theorem decode_error_aborts_line :
  DoOobDevice.connect "r1" "admin" "pw" "2005"
    (DoOobDevice.fresh [Some [Byte.xff]])
  = (Raise UnicodeDecodeError,
     {| DoOobDevice.pending := [];
        DoOobDevice.sent := ["ssh -p 2005 r1" +:+ DoOobDevice.LF] |})
  /\ DoOobDevice.connect "r1" "admin" "pw" "2005"
       (DoOobDevice.fresh [DoOobDevice.chunk "Password: "; Some [Byte.xff]])
     = (Raise UnicodeDecodeError,
        {| DoOobDevice.pending := [];
           DoOobDevice.sent := ["ssh -p 2005 r1" +:+ DoOobDevice.LF;
                                "pw" +:+ DoOobDevice.LF] |})
  /\ DoOobDevice.connect "r1" "admin" "pw" "2005"
       (DoOobDevice.fresh [DoOobDevice.chunk "banner"; None; None;
                           DoOobDevice.chunk "login:"; Some [Byte.xff]])
     = (Raise UnicodeDecodeError,
        {| DoOobDevice.pending := [];
           DoOobDevice.sent := ["ssh -p 2005 r1" +:+ DoOobDevice.LF;
                                DoOobDevice.LF;
                                DoOobDevice.escape;
                                "disco 1" +:+ DoOobDevice.LF] |})
  /\ DoOobDevice.connect "r1" "admin" "pw" "2005"
       (DoOobDevice.fresh [DoOobDevice.chunk "banner"; None; None;
                           Some [Byte.xff]])
     = (Return DoOobDevice.placeholder,
        {| DoOobDevice.pending := [];
           DoOobDevice.sent := ["ssh -p 2005 r1" +:+ DoOobDevice.LF;
                                DoOobDevice.LF;
                                DoOobDevice.escape;
                                "disco 1" +:+ DoOobDevice.LF] |}).
Proof. vm_compute. repeat split; reflexivity. Qed.

(** ** The credential store *)

Section StoreFacts.
Import Store Cipher.
Context {F : Fernet}.

Lemma read_credentials_none (lines : list string) (calls calls' : log) :
  realm_lines lines ∅ calls = (Return ∅, calls') ->
  read_credentials (Some lines) calls = (Return None, calls').
Proof.
  intros H. unfold read_credentials, bind. rewrite H.
  destruct (decide (∅ = ∅)) as [_|E]; [reflexivity | now destruct E].
Qed.

Lemma pwdecrypt_unknown_realm
    (realms : gmap string realm_data) (ref : string)
    (get : realm_data -> string) (calls : log) :
  realms !! ref = None ->
  Pwdecrypt.realm_field realms ref get calls = (Raise (KeyError ref), calls).
Proof. intros H. unfold Pwdecrypt.realm_field, bind. now rewrite H. Qed.

Lemma ssh_unknown_realm
    (realms : gmap string realm_data) (ref : string)
    (get : realm_data -> string) (calls : log) :
  realms !! ref = None ->
  SSH_pwdecrypt.realm_field realms ref get calls = (Return "", calls).
Proof. intros H. unfold SSH_pwdecrypt.realm_field. now rewrite H. Qed.

End StoreFacts.

(** C4, as the code has it: a realm file from which no realm is parsed
    gives no realm table ([read_credentials] returns [None]), and
    [get_credentials] then returns no credentials for any device: the
    device file is not read. *)
Theorem no_realm_no_credentials {F : Fernet}
    (env : Store.environ) (lines : list string) (device : string)
    (calls calls' : Cipher.log) :
  Store.credentials_txt env = Some lines ->
  Store.realm_lines lines ∅ calls = (Return ∅, calls') ->
  Store.read_credentials (Store.credentials_txt env) calls = (Return None, calls')
  /\ fst (SSH_pwdecrypt.get_credentials env device calls)
     = Return (Store.NoDevice, 22)
  /\ forall c port,
       fst (Pwdecrypt.get_credentials env device calls)
       <> Return (Store.Credentials c, port).
Proof.
  intros Hfile Hrealms.
  pose proof (read_credentials_none lines calls calls' Hrealms) as Hnone.
  rewrite Hfile. split; [exact Hnone|]. split.
  - unfold SSH_pwdecrypt.get_credentials, SSH_pwdecrypt.read_credentials.
    destruct (Store.DO_DEVICE env); [|reflexivity].
    destruct (Store.DO_DEVICE_isdir env); [|reflexivity].
    cbn [negb]. unfold bind. rewrite Hfile, Hnone. reflexivity.
  - intros c port.
    unfold Pwdecrypt.get_credentials, Pwdecrypt.read_credentials.
    destruct (Store.DO_DEVICE env); [|discriminate].
    destruct (Store.DO_DEVICE_isdir env); [|discriminate].
    cbn [negb]. unfold bind. rewrite Hfile, Hnone. discriminate.
Qed.

Lemma no_realm_no_credentials_witness :
  @Store.read_credentials Cipher.example_cipher
    (Store.credentials_txt Scenario.store_without_realm) []
    = (Return None, [])
  /\ fst (@SSH_pwdecrypt.get_credentials Cipher.example_cipher
            Scenario.store_without_realm "r1" [])
     = Return (Store.NoDevice, 22)
  /\ forall c port,
       fst (@Pwdecrypt.get_credentials Cipher.example_cipher
              Scenario.store_without_realm "r1" [])
       <> Return (Store.Credentials c, port).
Proof.
  apply (@no_realm_no_credentials Cipher.example_cipher
           Scenario.store_without_realm
           ["# no realm yet" +:+ DoOobDevice.LF] "r1" [] []);
    reflexivity.
Defined.

(** C4 as stated fails: with a realm file that holds no realm there is no
    realm table, and the device [r1], whose line uses no realm reference
    and resolves against an empty realm table, gets no credentials. *)
Lemma no_realm_is_fatal :
  @Store.read_credentials Cipher.example_cipher
    (Store.credentials_txt Scenario.store_without_realm) []
    = (Return None, [])
  /\ @SSH_pwdecrypt.get_credentials Cipher.example_cipher
       Scenario.store_without_realm "r1" []
     = (Return (Store.NoDevice, 22), [])
  /\ @Pwdecrypt.get_credentials Cipher.example_cipher
       Scenario.store_without_realm "r1" []
     = (Raise (UnboundLocalError "ssh_port"), [])
  /\ @SSH_pwdecrypt.read_deviceinfo Cipher.example_cipher
       (Store.deviceinfo_txt Scenario.store_without_realm) ∅ "r1" []
     = (Return (Store.Credentials
                  {| Store.ip := "10.0.0.1"; Store.global_delay_factor := 3;
                     Store.device_type := "ios"; Store.username := "admin";
                     Store.password := "pw"; Store.secret := "en" |}, 22),
        ["enc:pw"; "enc:en"]).
Proof. vm_compute. repeat split; reflexivity. Qed.

(** C5: a reference to a realm that the realm table does not hold.  In
    [SSH_pwdecrypt.py] the field becomes empty and the device is answered
    with the empty credentials; in [pwdecrypt.py] and [SNMP_pwdecrypt.py]
    the lookup raises [KeyError] out of [read_deviceinfo]. *)
Theorem unknown_realm_reference :
  @SSH_pwdecrypt.read_deviceinfo Cipher.example_cipher
    (Some ["r1;;ios;*NET1;enc:a;enc:b" +:+ DoOobDevice.LF])
    Scenario.realms_lab "r1" []
    = (Return (Store.EmptyCredentials, 22), ["enc:a"; "enc:b"])
  /\ @Pwdecrypt.read_deviceinfo Cipher.example_cipher
       (Some ["r1;;ios;*NET1;enc:a;enc:b" +:+ DoOobDevice.LF])
       Scenario.realms_lab "r1" []
     = (Raise (KeyError "*NET1"), [])
  /\ @SNMP_pwdecrypt.read_deviceinfo Cipher.example_cipher
       (Some ["r1;10.0.0.1;*NET1;161" +:+ DoOobDevice.LF])
       {[ "*LAB" := {| SNMP_pwdecrypt.r_community := "public";
                       SNMP_pwdecrypt.r_port := "161" |} ]} "r1" []
     = (Raise (KeyError "*NET1"), []).
Proof. vm_compute. repeat split; reflexivity. Qed.

Section ScenarioFacts.
Import Store Cipher Scenario.
Context {F : Fernet}.

Lemma count_char_app (c : ascii) (a b : string) :
  Py.count_char c (a +:+ b) = (Py.count_char c a + Py.count_char c b)%nat.
Proof.
  induction a as [|x a IH]; [reflexivity|].
  rewrite append_cons. cbn [Py.count_char]. rewrite IH. lia.
Qed.

Lemma split_char_whole (c : ascii) (a : string) :
  Py.count_char c a = O -> Py.split_char c a = [a].
Proof.
  induction a as [|x a IH]; [reflexivity|].
  cbn [Py.count_char Py.split_char].
  destruct (Ascii.eqb x c); [discriminate|].
  intros H. now rewrite IH.
Qed.

(** Splitting at the first separator. *)
Lemma split_char_app (c : ascii) (a b : string) :
  Py.count_char c a = O ->
  Py.split_char c (a +:+ String c b) = a :: Py.split_char c b.
Proof.
  induction a as [|x a IH]; intros H.
  - rewrite append_nil_l. cbn [Py.split_char]. now rewrite Ascii.eqb_refl.
  - rewrite append_cons. cbn [Py.count_char Py.split_char] in *.
    destruct (Ascii.eqb x c); [discriminate|].
    now rewrite IH.
Qed.

(** Trailing characters are stripped from the last part only. *)
Lemma rstrip_char_app (c : ascii) (a b : string) (y : ascii) (r : string) :
  Py.rstrip_char c b = String y r ->
  Py.rstrip_char c (a +:+ b) = a +:+ String y r.
Proof.
  intros H. induction a as [|x a IH].
  - now rewrite !append_nil_l.
  - rewrite !append_cons. cbn [Py.rstrip_char]. rewrite IH.
    destruct a; reflexivity.
Qed.

Lemma decrypt_password_ok (crypted decrypted : string) (b : list Byte.byte)
    (calls : log) :
  fernet_decrypt (Utf8.encode crypted) = Some b ->
  Utf8.decode b = Some decrypted ->
  decrypt_password crypted calls = (Return decrypted, calls ++ [crypted]).
Proof. intros H1 H2. unfold decrypt_password. now rewrite H1, H2. Qed.

Lemma curline_of_realm_line (enc : string) :
  curline_of (realm_line_of enc) = "*NET1;admin;" +:+ enc +:+ ";*".
Proof.
  unfold curline_of, realm_line_of.
  change (Py.lstrip ("*NET1;admin;" +:+ enc +:+ ";*" +:+ DoOobDevice.LF))
    with ("*NET1;admin;" +:+ (enc +:+ ";*" +:+ DoOobDevice.LF)).
  rewrite <- (append_assoc "*NET1;admin;" enc).
  rewrite (rstrip_char_app "010" (("*NET1;admin;" +:+ enc)) (";*" +:+ DoOobDevice.LF) ";" "*")
    by reflexivity.
  now rewrite append_assoc.
Qed.

Lemma realm_line_fields (enc : string) :
  Py.count_char ";" enc = O ->
  Py.count_char ";" ("*NET1;admin;" +:+ enc +:+ ";*") = 3%nat
  /\ Py.split_char ";" ("*NET1;admin;" +:+ enc +:+ ";*")
     = ["*NET1"; "admin"; enc; "*"].
Proof.
  intros H. split.
  - rewrite !count_char_app, H. reflexivity.
  - change ("*NET1;admin;" +:+ enc +:+ ";*")
      with ("*NET1" +:+ String ";" ("admin" +:+ String ";" (enc +:+ String ";" "*"))).
    rewrite !split_char_app by (reflexivity || exact H). reflexivity.
Qed.

Lemma scenario_realms (enc pw : string) (b : list Byte.byte) (calls : log) :
  fernet_decrypt (Utf8.encode enc) = Some b ->
  Utf8.decode b = Some pw ->
  pw <> "" ->
  Py.count_char ";" enc = O ->
  read_credentials (Some [realm_line_of enc]) calls
  = (Return (Some {[ "*NET1" := {| r_username := "admin"; r_password := pw;
                                   r_secret := pw |} ]}),
     calls ++ [enc]).
Proof.
  intros Hf Hd Hpw Hc.
  unfold read_credentials. cbn [realm_lines].
  rewrite curline_of_realm_line.
  destruct (realm_line_fields enc Hc) as [Hcount Hsplit].
  change (is_data_line ("*NET1;admin;" +:+ enc +:+ ";*")) with true. cbv iota.
  unfold realm_line. rewrite Hcount, Hsplit. cbn [Nat.eqb].
  unfold bind. rewrite (decrypt_password_ok enc pw b calls Hf Hd).
  cbn [String.eqb Ascii.eqb Bool.eqb ret].
  apply is_empty_false in Hpw. rewrite Hpw. cbn [is_empty Py.nonempty negb orb].
  unfold ret. cbv beta iota.
  destruct (decide (_ = ∅)) as [E|_]; [|reflexivity].
  exfalso. revert E. apply insert_non_empty.
Qed.

End ScenarioFacts.

Section ScenarioDevice.
Import Store Cipher Scenario.
Context {F : Fernet}.

Lemma bind_return {St A B} (m : M St A) (k : A -> M St B) st a st' :
  m st = (Return a, st') -> bind m k st = k a st'.
Proof. intros H. unfold bind. now rewrite H. Qed.

Lemma bind_raise {St A B} (m : M St A) (k : A -> M St B) st e st' :
  m st = (Raise e, st') -> bind m k st = (Raise e, st').
Proof. intros H. unfold bind. now rewrite H. Qed.

Lemma unpack_r1 (calls : log) :
  unpack_line (curline_of device_line_r1) calls
  = (Return {| l_curdevice := "r1"; l_ip := ""; l_device_type := "ios";
               l_username := "*NET1"; l_password := "*NET1";
               l_secret := "*NET1"; l_ssh_port := 22 |}, calls).
Proof. reflexivity. Qed.

Lemma scenario_device
    (rf : gmap string realm_data -> string -> (realm_data -> string) -> M log string)
    (realms : gmap string realm_data) (r : realm_data) (calls : log) :
  (forall get c, rf realms "*NET1" get c = (Return (get r), c)) ->
  r_username r <> "" -> r_password r <> "" -> r_secret r <> "" ->
  read_deviceinfo_with rf (Some [device_line_r1]) realms "r1" calls
  = (Return (Credentials {| ip := "r1"; global_delay_factor := 3;
                            device_type := "ios";
                            username := r_username r;
                            password := r_password r;
                            secret := r_secret r |}, 22), calls).
Proof.
  intros Hrf Hu Hp Hs.
  apply is_empty_false in Hu, Hp, Hs.
  unfold read_deviceinfo_with. cbn [device_lines].
  change (is_data_line (curline_of device_line_r1)) with true.
  change (device_syntax (curline_of device_line_r1)) with true.
  cbv iota. cbn [negb].
  assert (Hres : resolve_line rf realms (curline_of device_line_r1) calls
    = (Return {| l_curdevice := "r1"; l_ip := "r1"; l_device_type := "ios";
                 l_username := r_username r; l_password := r_password r;
                 l_secret := r_secret r; l_ssh_port := 22 |}, calls)).
  { unfold resolve_line.
    rewrite (bind_return _ _ _ _ _ (unpack_r1 calls)).
    cbn [l_curdevice l_ip l_device_type l_username l_password l_secret l_ssh_port].
    change (is_realm_ref "*NET1") with true. cbv iota.
    rewrite (bind_return _ _ _ _ _ (Hrf r_username calls)).
    rewrite (bind_return _ _ _ _ _ (Hrf r_password calls)).
    rewrite (bind_return _ _ _ _ _ (Hrf r_secret calls)).
    reflexivity. }
  rewrite (bind_return _ _ _ _ _ Hres).
  cbn [l_curdevice]. change (String.eqb "r1" "r1") with true. cbv iota.
  unfold matched.
  cbn [l_curdevice l_ip l_device_type l_username l_password l_secret l_ssh_port].
  rewrite Hu, Hp, Hs. reflexivity.
Qed.

End ScenarioDevice.

(** C3, as the code has it.  A realm is looked up under the whole
    reference, asterisk included; the [*] of the enable-secret is a
    convention of the realm file only; and a device line must give a
    password.  So: with the realm file [*NET1;admin;ENC;*] ([ENC] an
    encrypted literal of a non-empty text) and the device file
    [r1;;ios;*NET1;*NET1;*NET1], resolving [r1] succeeds with address [r1]
    (the empty address field defaults to the device id), username [admin]
    (from the realm), the decrypted password, and an enable-secret equal
    to the decrypted password. *)
Theorem scenario_realm_reference {F : Fernet}
    (enc pw dir : string) (b : list Byte.byte) (calls : Cipher.log) :
  fernet_decrypt (Utf8.encode enc) = Some b ->
  Utf8.decode b = Some pw ->
  pw <> "" ->
  Py.count_char ";" enc = O ->
  Pwdecrypt.get_credentials (Scenario.store_of dir enc) "r1" calls
    = (Return (Store.Credentials (Scenario.r1_credentials pw), 22),
       calls ++ [enc])
  /\ SSH_pwdecrypt.get_credentials (Scenario.store_of dir enc) "r1" calls
    = (Return (Store.Credentials (Scenario.r1_credentials pw), 22),
       calls ++ [enc]).
Proof.
  intros Hf Hd Hpw Hc.
  pose proof (scenario_realms enc pw b calls Hf Hd Hpw Hc) as Hrealms.
  set (r := {| Store.r_username := "admin"; Store.r_password := pw;
               Store.r_secret := pw |}) in *.
  unfold Scenario.store_of, Scenario.r1_credentials.
  split.
  - unfold Pwdecrypt.get_credentials, Pwdecrypt.read_credentials.
    cbn [Store.DO_DEVICE Store.DO_DEVICE_isdir negb
         Store.credentials_txt Store.deviceinfo_txt].
    rewrite (bind_return _ _ _ _ _ Hrealms).
    unfold Pwdecrypt.read_deviceinfo.
    apply (scenario_device Pwdecrypt.realm_field _ r);
      [intros get c; unfold Pwdecrypt.realm_field;
       now rewrite lookup_singleton_eq
      | discriminate | exact Hpw | exact Hpw].
  - unfold SSH_pwdecrypt.get_credentials, SSH_pwdecrypt.read_credentials.
    cbn [Store.DO_DEVICE Store.DO_DEVICE_isdir negb
         Store.credentials_txt Store.deviceinfo_txt].
    rewrite (bind_return _ _ _ _ _ Hrealms).
    unfold SSH_pwdecrypt.read_deviceinfo.
    apply (scenario_device SSH_pwdecrypt.realm_field _ r);
      [intros get c; unfold SSH_pwdecrypt.realm_field;
       now rewrite lookup_singleton_eq
      | discriminate | exact Hpw | exact Hpw].
Qed.

Lemma scenario_realm_reference_witness :
  @Pwdecrypt.get_credentials Cipher.example_cipher
    (Scenario.store_of "/etc/do-device" "enc:s3cret") "r1" []
    = (Return (Store.Credentials (Scenario.r1_credentials "s3cret"), 22),
       [] ++ ["enc:s3cret"])
  /\ @SSH_pwdecrypt.get_credentials Cipher.example_cipher
       (Scenario.store_of "/etc/do-device" "enc:s3cret") "r1" []
    = (Return (Store.Credentials (Scenario.r1_credentials "s3cret"), 22),
       [] ++ ["enc:s3cret"]).
Proof.
  apply (@scenario_realm_reference Cipher.example_cipher
           "enc:s3cret" "s3cret" "/etc/do-device"
           (list_byte_of_string "s3cret") []);
    [reflexivity | reflexivity | discriminate | reflexivity].
Defined.

(** C3 as stated fails.  With the realm [NET1;admin;ENC;*] and the device
    [r1;;ios;*NET1;;*], the reference [*NET1] is looked up under that very
    text and is not found: [pwdecrypt.py] raises [KeyError], and
    [SSH_pwdecrypt.py] answers with the empty credentials. *)
Lemma scenario_as_stated_unresolved :
  @Pwdecrypt.get_credentials Cipher.example_cipher
    Scenario.store_as_stated "r1" []
  = (Raise (KeyError "*NET1"), ["enc:s3cret"])
  /\ @SSH_pwdecrypt.get_credentials Cipher.example_cipher
       Scenario.store_as_stated "r1" []
  = (Return (Store.EmptyCredentials, 22), ["enc:s3cret"]).
Proof. vm_compute. split; reflexivity. Qed.

Section ScanFacts.
Import Store StoreSpec ScanSpec Cipher.
Context {F : Fernet}.

Lemma bind_inv {St A B} (m : M St A) (k : A -> M St B) st b st' :
  bind m k st = (Return b, st') ->
  exists a st1, m st = (Return a, st1) /\ k a st1 = (Return b, st').
Proof.
  unfold bind. destruct (m st) as [[a|e] st1]; [|discriminate].
  intros H. now exists a, st1.
Qed.

Lemma decrypt_password_log (x : string) (calls : log) o calls' :
  decrypt_password x calls = (o, calls') -> calls' = calls ++ [x].
Proof.
  unfold decrypt_password.
  destruct (fernet_decrypt _) as [d|]; [destruct (Utf8.decode d)|];
    intros H; now inversion H.
Qed.

Lemma unpack_line_inv (curline : string) (calls calls' : log) (l : device_line) :
  unpack_line curline calls = (Return l, calls') ->
  calls' = calls
  /\ exists tail,
       Py.split_char ";" curline
       = l_curdevice l :: l_ip l :: l_device_type l :: l_username l
           :: l_password l :: l_secret l :: tail.
Proof.
  unfold unpack_line.
  destruct (Py.count_char ";" curline =? 5)%nat;
    destruct (Py.split_char ";" curline)
      as [|f1 [|f2 [|f3 [|f4 [|f5 [|f6 [|f7 [|f8 t]]]]]]]];
    try discriminate;
    unfold ret, raise.
  - intros H. inversion H. subst. split; [reflexivity|]. now exists [].
  - unfold bind, lift_option. destruct (Py.int f7); [|discriminate].
    unfold ret. intros H. inversion H. subst. split; [reflexivity|].
    now exists [f7].
Qed.

Variable realm_field :
  gmap string realm_data -> string -> (realm_data -> string) -> M log string.
Hypothesis realm_field_log :
  forall realms ref get calls o calls',
    realm_field realms ref get calls = (o, calls') -> calls' = calls.

Lemma username_step_log realms (x : string) get (calls calls' : log) o :
  (if is_realm_ref x then realm_field realms x get else ret x) calls = (o, calls') ->
  calls' = calls.
Proof.
  destruct (is_realm_ref x); [apply realm_field_log|].
  unfold ret. intros H. now inversion H.
Qed.

Lemma secret_step_log realms (x : string) get (calls calls' : log) o :
  (if is_realm_ref x then realm_field realms x get
   else if Py.nonempty x then decrypt_password x else ret x) calls = (o, calls') ->
  calls' = calls ++ (if is_literal x then [x] else []).
Proof.
  unfold is_realm_ref, is_literal.
  destruct (Py.nonempty x); cbn [andb]; [|unfold ret; intros H; inversion H;
                                          now rewrite app_nil_r].
  destruct (Py.startswith "*" x); cbn [negb].
  - intros H. apply realm_field_log in H. now rewrite app_nil_r.
  - apply decrypt_password_log.
Qed.

(** A line that resolves has passed exactly its literals to
    [decrypt_password], and keeps its first field as device id. *)
Lemma resolve_line_inv realms (curline : string) (calls calls' : log)
    (l : device_line) :
  resolve_line realm_field realms curline calls = (Return l, calls') ->
  calls' = calls ++ literals curline
  /\ exists tail, Py.split_char ";" curline = l_curdevice l :: tail.
Proof.
  unfold resolve_line. intros H.
  apply bind_inv in H as (l0 & c0 & Hu & H).
  apply unpack_line_inv in Hu as [-> (tail & Hsplit)].
  apply bind_inv in H as (u & c1 & Hus & H).
  apply username_step_log in Hus as ->.
  apply bind_inv in H as (p & c2 & Hps & H).
  apply secret_step_log in Hps as ->.
  apply bind_inv in H as (s & c3 & Hss & H).
  apply secret_step_log in Hss as ->.
  unfold ret in H. inversion H. subst. cbn [l_curdevice].
  split; [|eauto].
  unfold literals. rewrite Hsplit. now rewrite <- app_assoc.
Qed.

Lemma matched_found (l : device_line) : fst (matched l) <> NoDevice.
Proof.
  unfold matched.
  destruct (is_empty (l_username l) || is_empty (l_password l)
            || is_empty (l_secret l)); discriminate.
Qed.

Lemma device_lines_scan realms (device : string) (lines : list string) :
  forall (ssh_port : Z) (calls : log) (r : found) (port : Z) (calls' : log),
  device_lines realm_field realms device lines ssh_port calls
  = (Return (r, port), calls') ->
  scan realm_field realms device lines calls r calls'.
Proof.
  induction lines as [|line rest IH]; intros ssh_port calls r port calls' H.
  - cbn [device_lines] in H. unfold ret in H. inversion H. subst.
    exists [], []. cbn [decrypted_by].
    split; [reflexivity|]. split; [now rewrite app_nil_r|].
    split; [constructor|].
    left. split; [reflexivity|]. split; [reflexivity | constructor].
  - cbn [device_lines] in H.
    assert (Hskip :
      valid_line line = false ->
      device_lines realm_field realms device rest ssh_port calls
      = (Return (r, port), calls') ->
      scan realm_field realms device (line :: rest) calls r calls').
    { intros Hv Hrest.
      destruct (IH _ _ _ _ _ Hrest)
        as (scanned & rest' & -> & -> & Hall & Hend).
      exists (line :: scanned), rest'. cbn [decrypted_by]. rewrite Hv.
      split; [reflexivity|]. split; [reflexivity|].
      split; [constructor; [congruence | exact Hall]|].
      destruct Hend as [(-> & -> & Hnone)
                       |(Hr & earlier & l' & -> & Hv' & Hid & Hnone)].
      - left. split; [reflexivity|]. split; [reflexivity|].
        constructor; [congruence | exact Hnone].
      - right. split; [exact Hr|].
        exists (line :: earlier), l'.
        split; [reflexivity|]. split; [exact Hv'|]. split; [exact Hid|].
        constructor; [congruence | exact Hnone]. }
    destruct (is_data_line (curline_of line)) eqn:Hdata;
      [|apply Hskip; [unfold valid_line; now rewrite Hdata | exact H]].
    destruct (device_syntax (curline_of line)) eqn:Hsyn; cbn [negb] in H;
      [|apply Hskip; [unfold valid_line; now rewrite Hdata, Hsyn | exact H]].
    clear Hskip.
    assert (Hv : valid_line line = true)
      by (unfold valid_line; now rewrite Hdata, Hsyn).
    apply bind_inv in H as (l & c1 & Hres & H).
    pose proof Hres as Hres'.
    apply resolve_line_inv in Hres' as [-> (tail & Hsplit)].
    assert (Hid : device_id line = l_curdevice l)
      by (unfold device_id; now rewrite Hsplit).
    assert (Hresolved : resolved realm_field realms line)
      by (now exists calls, l).
    destruct (String.eqb (l_curdevice l) device) eqn:Heq.
    + apply String.eqb_eq in Heq.
      unfold ret in H. inversion H as [[Hm Hc]].
      exists [line], rest. cbn [decrypted_by]. rewrite Hv.
      split; [reflexivity|]. split; [now rewrite app_nil_r|].
      split; [constructor; [intros _; exact Hresolved | constructor]|].
      right. split.
      * pose proof (matched_found l) as Hf. rewrite Hm in Hf. exact Hf.
      * exists [], line.
        split; [reflexivity|]. split; [exact Hv|].
        split; [congruence | constructor].
    + apply String.eqb_neq in Heq.
      destruct (IH _ _ _ _ _ H) as (scanned & rest' & -> & -> & Hall & Hend).
      exists (line :: scanned), rest'. cbn [decrypted_by]. rewrite Hv.
      split; [reflexivity|]. split; [now rewrite <- app_assoc|].
      split; [constructor; [intros _; exact Hresolved | exact Hall]|].
      destruct Hend as [(-> & -> & Hnone)
                       |(Hr & earlier & l' & -> & Hv' & Hid' & Hnone)].
      * left. split; [reflexivity|]. split; [reflexivity|].
        constructor; [congruence | exact Hnone].
      * right. split; [exact Hr|].
        exists (line :: earlier), l'.
        split; [reflexivity|]. split; [exact Hv'|]. split; [exact Hid'|].
        constructor; [congruence | exact Hnone].
Qed.

End ScanFacts.



(** The literals of [r0] are decrypted on the way to [r1]; when one of
    them is not a token, [r1] is not resolved. *)
Example earlier_literal_decides :
  @Pwdecrypt.read_deviceinfo Cipher.example_cipher
    (Some Scenario.two_devices) Scenario.realms_net1 "r1" []
  = (Return (Store.Credentials
               {| Store.ip := "r1"; Store.global_delay_factor := 3;
                  Store.device_type := "ios"; Store.username := "admin";
                  Store.password := "s3cret"; Store.secret := "en1" |}, 22),
     ["enc:pw0"; "enc:en0"; "enc:en1"])
  /\ @Pwdecrypt.read_deviceinfo Cipher.example_cipher
       (Some Scenario.two_devices_broken) Scenario.realms_net1 "r1" []
     = (Raise InvalidToken, ["not-a-token"])
  /\ @SSH_pwdecrypt.read_deviceinfo Cipher.example_cipher
       (Some Scenario.two_devices_broken) Scenario.realms_net1 "r1" []
     = (Raise InvalidToken, ["not-a-token"]).
Proof. vm_compute. repeat split; reflexivity. Qed.

(** ** The [show line] table *)

Section LineTable.
Import DoOobDevice.

Lemma length_append (a b : string) :
  String.length (a +:+ b) = (String.length a + String.length b)%nat.
Proof. induction a as [|c a IH]; simpl; [reflexivity | now rewrite IH]. Qed.

(** Taking a double blank out makes the text shorter; [replace_aux] with
    [skip = 1] drops the second blank of a pair. *)
Lemma replace_blank_length (s : string) :
  (String.length (Py.replace_aux "  " " " 0 s) <= String.length s)%nat
  /\ (Py.contains "  " s = true ->
      String.length (Py.replace_aux "  " " " 0 s) < String.length s)%nat.
Proof.
  remember (String.length s) as n eqn:Hn.
  revert s Hn. induction n as [n IH] using lt_wf_ind. intros s Hn.
  destruct s as [|c s]; [simpl in *; subst; split; [lia | discriminate]|].
  rewrite contains_cons. cbn [Py.replace_aux].
  destruct (Py.startswith "  " (String c s)) eqn:E.
  - destruct s as [|d s]; [simpl in E; now rewrite andb_false_r in E|].
    cbn [Py.replace_aux String.length Nat.sub String.append] in *.
    destruct (IH (String.length s) ltac:(lia) s eq_refl) as [Hle _].
    rewrite length_append. cbn [String.length]. split; intros; lia.
  - cbn [String.length] in *.
    destruct (IH (String.length s) ltac:(lia) s eq_refl) as [Hle Hlt].
    split; [lia|]. intros H. simpl in H. specialize (Hlt H). lia.
Qed.

(** The fuel [collapse_spaces] is given is enough: the loop ends because
    its condition fails. *)
Lemma collapse_spaces_done (fuel : nat) (s : string) :
  (String.length s <= fuel)%nat ->
  Py.contains "  " (collapse_spaces fuel s) = false.
Proof.
  revert s. induction fuel as [|fuel IH]; intros s Hlen.
  - destruct s; [reflexivity | simpl in Hlen; lia].
  - cbn [collapse_spaces].
    destruct (Py.contains "  " s) eqn:E; [|exact E].
    apply IH. unfold Py.replace.
    pose proof (proj2 (replace_blank_length s) E). lia.
Qed.

Lemma row_columns_collapsed (txtline : string) :
  exists t, row_columns txtline = Py.split_ws t /\ Py.contains "  " t = false.
Proof.
  unfold row_columns. eexists. split; [reflexivity|].
  now apply collapse_spaces_done.
Qed.

End LineTable.


(** ** Numerals: [int] reads back what [str] writes *)

Section Numerals.

Lemma digit_char_spec (d : Z) :
  0 <= d < 10 ->
  Py.isdigit (Py.digit_char d) = true
  /\ Z.of_N (N_of_ascii (Py.digit_char d)) - 48 = d.
Proof.
  intros H.
  assert (d = 0 \/ d = 1 \/ d = 2 \/ d = 3 \/ d = 4 \/ d = 5 \/ d = 6
          \/ d = 7 \/ d = 8 \/ d = 9) as Hd by lia.
  repeat (destruct Hd as [-> | Hd]); try subst d; split; reflexivity.
Qed.

Lemma int_digits_digit (a0 : Z) (pd : bool) (d : Z) (acc : string) :
  0 <= d < 10 ->
  Py.int_digits a0 pd (String (Py.digit_char d) acc)
  = Py.int_digits (10 * a0 + d) true acc.
Proof.
  intros H. destruct (digit_char_spec d H) as [H1 H2].
  cbn [Py.int_digits]. now rewrite H1, H2.
Qed.

(** With fuel for its digits, [str_pos] writes [n] in front of [acc]. *)
Lemma str_pos_parse (fuel : nat) :
  forall (n : Z) (acc : string),
  0 <= n < 2 ^ Z.of_nat (S fuel) ->
  exists k, 0 <= k /\ forall a0 pd,
    Py.int_digits a0 pd (Py.str_pos (S fuel) n acc)
    = Py.int_digits (a0 * 10 ^ k + n) true acc.
Proof.
  induction fuel as [|fuel IH]; intros n acc Hn.
  - exists 1. split; [lia|]. intros a0 pd.
    cbn [Py.str_pos]. change (2 ^ Z.of_nat 1) with 2 in Hn.
    assert (Hlt : (n <? 10) = true) by (apply Z.ltb_lt; lia).
    rewrite Hlt. rewrite Z.mod_small by lia.
    rewrite int_digits_digit by lia. f_equal. lia.
  - remember (S fuel) as f eqn:Hf.
    cbn [Py.str_pos].
    destruct (n <? 10) eqn:Hlt.
    + apply Z.ltb_lt in Hlt. exists 1. split; [lia|]. intros a0 pd.
      rewrite Z.mod_small by lia.
      rewrite int_digits_digit by lia. f_equal. lia.
    + apply Z.ltb_ge in Hlt. subst f.
      assert (Hdiv : 0 <= n / 10 < 2 ^ Z.of_nat (S fuel)).
      { split; [apply Z.div_pos; lia|].
        apply Z.div_lt_upper_bound; [lia|].
        replace (Z.of_nat (S (S fuel))) with (Z.succ (Z.of_nat (S fuel))) in Hn by lia.
        rewrite Z.pow_succ_r in Hn by lia. lia. }
      destruct (IH (n / 10) (String (Py.digit_char (n mod 10)) acc) Hdiv)
        as (k & Hk & Hparse).
      exists (k + 1). split; [lia|]. intros a0 pd.
      rewrite Hparse.
      rewrite int_digits_digit by (apply Z.mod_pos_bound; lia).
      f_equal. rewrite Z.pow_add_r by lia.
      pose proof (Z.div_mod n 10 ltac:(lia)). lia.
Qed.

Lemma str_pos_digits (fuel : nat) :
  forall (n : Z) (acc : string),
  IfName.all_digits acc = true ->
  IfName.all_digits (Py.str_pos fuel n acc) = true.
Proof.
  induction fuel as [|fuel IH]; intros n acc Hacc; [exact Hacc|].
  cbn [Py.str_pos].
  assert (Hd : IfName.all_digits (String (Py.digit_char (n mod 10)) acc) = true).
  { cbn [IfName.all_digits]. rewrite Hacc.
    destruct (digit_char_spec (n mod 10)) as [-> _];
      [apply Z.mod_pos_bound; lia | reflexivity]. }
  destruct (n <? 10); [exact Hd | now apply IH].
Qed.

Lemma str_pos_nonempty (fuel : nat) (n : Z) (acc : string) :
  Py.nonempty (Py.str_pos (S fuel) n acc) = true.
Proof.
  revert n acc. induction fuel as [|fuel IH]; intros n acc.
  - cbn [Py.str_pos]. now destruct (n <? 10).
  - remember (S fuel) as f. cbn [Py.str_pos]. subst f.
    destruct (n <? 10); [reflexivity | apply IH].
Qed.

Lemma isdigit_not_space (c : ascii) : Py.isdigit c = true -> Py.isspace c = false.
Proof.
  destruct c as [[] [] [] [] [] [] [] []]; try discriminate; reflexivity.
Qed.

Lemma rstrip_digits (s : string) : IfName.all_digits s = true -> Py.rstrip s = s.
Proof.
  induction s as [|c s IH]; [reflexivity|].
  cbn [IfName.all_digits Py.rstrip]. intros H.
  apply andb_true_iff in H as [Hc Hs]. rewrite (IH Hs).
  destruct s; [now rewrite (isdigit_not_space c Hc) | reflexivity].
Qed.

Lemma strip_digits (s : string) : IfName.all_digits s = true -> Py.strip s = s.
Proof.
  intros H. unfold Py.strip.
  assert (Hl : Py.lstrip s = s).
  { destruct s as [|c s]; [reflexivity|]. cbn [IfName.all_digits] in H.
    apply andb_true_iff in H as [Hc _]. cbn [Py.lstrip].
    now rewrite (isdigit_not_space c Hc). }
  rewrite Hl. now apply rstrip_digits.
Qed.

Lemma int_unsigned (s : string) :
  IfName.all_digits s = true -> Py.int s = Py.int_digits 0 false s.
Proof.
  intros H. unfold Py.int. rewrite (strip_digits s H).
  destruct s as [|c s]; [reflexivity|].
  cbn [IfName.all_digits] in H. apply andb_true_iff in H as [Hc _].
  destruct c as [[] [] [] [] [] [] [] []]; try discriminate; reflexivity.
Qed.

Lemma int_negative (s : string) :
  IfName.all_digits s = true -> Py.nonempty s = true ->
  Py.int (String "-" s) = Z.opp <$> Py.int_digits 0 false s.
Proof.
  intros H Hn. unfold Py.int, Py.strip.
  change (Py.lstrip (String "-" s)) with (String "-" s).
  cbn [Py.rstrip]. rewrite (rstrip_digits s H).
  destruct s; [discriminate | reflexivity].
Qed.

Lemma log2_fuel (n : Z) : 0 <= n -> n < 2 ^ Z.of_nat (S (Z.to_nat (Z.log2 n))).
Proof.
  intros H.
  replace (Z.of_nat (S (Z.to_nat (Z.log2 n)))) with (Z.succ (Z.log2 n))
    by (pose proof (Z.log2_nonneg n); lia).
  destruct (Z.eq_dec n 0) as [->|Hne]; [reflexivity|].
  apply Z.log2_spec. lia.
Qed.

(** [int(str(z)) == z]. *)
Lemma int_str (z : Z) : Py.int (Py.str z) = Some z.
Proof.
  unfold Py.str. destruct (z <? 0) eqn:Hz.
  - apply Z.ltb_lt in Hz.
    rewrite int_negative
      by (apply str_pos_digits || apply str_pos_nonempty; reflexivity).
    destruct (str_pos_parse (Z.to_nat (Z.log2 (- z))) (- z) "")
      as (k & _ & Hparse); [split; [lia | apply log2_fuel; lia]|].
    rewrite Hparse. cbn [Py.int_digits fmap option_fmap option_map].
    f_equal; lia.
  - apply Z.ltb_ge in Hz.
    rewrite int_unsigned by (now apply str_pos_digits).
    destruct (str_pos_parse (Z.to_nat (Z.log2 z)) z "")
      as (k & _ & Hparse); [split; [lia | apply log2_fuel; lia]|].
    rewrite Hparse. cbn [Py.int_digits]. f_equal; lia.
Qed.

End Numerals.

(** ** Columns of a row *)

Section Columns.
Import DoOobDevice.

Lemma split_ws_lstrip (s : string) : Py.split_ws (Py.lstrip s) = Py.split_ws s.
Proof.
  unfold Py.split_ws. induction s as [|c s IH]; [reflexivity|].
  cbn [Py.lstrip]. destruct (Py.isspace c) eqn:E.
  - rewrite IH. cbn [Py.split_ws_aux]. now rewrite E.
  - reflexivity.
Qed.

Lemma startswith_two_blanks (c : ascii) (s : string) :
  Py.startswith "  " (String c s) = true ->
  c = " "%char /\ exists s', s = String " " s'.
Proof.
  cbn [Py.startswith]. intros H.
  apply andb_true_iff in H as [Hc H].
  apply Ascii.eqb_eq in Hc. split; [now symmetry|].
  destruct s as [|d s]; [discriminate|].
  apply andb_true_iff in H as [Hd _].
  apply Ascii.eqb_eq in Hd. subst d. now exists s.
Qed.

(** Halving the runs of blanks does not change the columns. *)
Lemma split_ws_replace_blanks (n : nat) :
  forall (s : string) (cur : option string),
  (String.length s <= n)%nat ->
  Py.split_ws_aux cur (Py.replace_aux "  " " " 0 s) = Py.split_ws_aux cur s.
Proof.
  induction n as [|n IH]; intros s cur Hlen.
  - destruct s; [reflexivity | cbn [String.length] in Hlen; lia].
  - destruct s as [|c s]; [reflexivity|].
    cbn [String.length] in Hlen. cbn [Py.replace_aux].
    destruct (Py.startswith "  " (String c s)) eqn:E.
    + apply startswith_two_blanks in E as [-> (s' & ->)].
      cbn [String.length Nat.sub Py.replace_aux] in *.
      rewrite append_cons, append_nil_l.
      cbn [Py.split_ws_aux].
      change (Py.isspace " ") with true. cbv iota.
      rewrite (IH s' None) by lia.
      now destruct cur.
    + cbn [Py.split_ws_aux].
      destruct (Py.isspace c); [destruct cur|]; now rewrite IH by lia.
Qed.

Lemma split_ws_collapse_spaces (fuel : nat) (s : string) :
  Py.split_ws (collapse_spaces fuel s) = Py.split_ws s.
Proof.
  revert s. induction fuel as [|fuel IH]; intros s; [reflexivity|].
  cbn [collapse_spaces]. destruct (Py.contains "  " s); [|reflexivity].
  rewrite IH. unfold Py.replace, Py.split_ws.
  now apply (split_ws_replace_blanks (String.length s)).
Qed.

(** The columns of a row are its words; the in-use marker, when the row
    starts with one, is taken out first. *)
Lemma row_columns_words (txtline : string) :
  row_columns txtline
  = if Py.startswith "*" (Py.lstrip txtline)
    then Py.split_ws (Py.replace "*" "" (Py.lstrip txtline))
    else Py.split_ws txtline.
Proof.
  unfold row_columns. rewrite split_ws_collapse_spaces.
  destruct (Py.startswith "*" (Py.lstrip txtline)); [reflexivity|].
  apply split_ws_lstrip.
Qed.

End Columns.

(** The table after a row, from the columns of the row. *)
Lemma line_row_of_columns
    (lines : gmap string string) (txtline tty line roty : string) (n : Z) :
  Py.contains "TTY" txtline = true ->
  Py.index (DoOobDevice.row_columns txtline) 0 = Some tty ->
  Py.index (DoOobDevice.row_columns txtline) 1 = Some line ->
  Py.index (DoOobDevice.row_columns txtline)
    (Z.of_nat (length (DoOobDevice.row_columns txtline)) - 7) = Some roty ->
  Py.int (if String.eqb roty "-" then line else roty) = Some n ->
  DoOobDevice.line_row lines txtline tt =
    (Return (if Py.contains "/" ("As" +:+ tty)
             then <[Py.str (2000 + n) := "As" +:+ tty]> lines
             else lines), tt).
Proof.
  intros Htty H0 H1 Hr Hn.
  unfold DoOobDevice.line_row. rewrite Htty.
  unfold bind. rewrite H0. cbn [lift_option ret].
  rewrite H1. cbn [lift_option ret].
  rewrite Hr. cbn [lift_option ret].
  rewrite Hn. cbn [lift_option ret].
  unfold DoOobDevice.offset.
  destruct (Py.contains "/" ("As" +:+ tty)); reflexivity.
Qed.

(** Every row with line number 5 and [-] in the rotary column gets the
    line id 2005. *)
Lemma line_id_2005
    (lines : gmap string string) (txtline tty : string) :
  Py.contains "TTY" txtline = true ->
  Py.index (DoOobDevice.row_columns txtline) 0 = Some tty ->
  Py.index (DoOobDevice.row_columns txtline) 1 = Some "5" ->
  Py.index (DoOobDevice.row_columns txtline)
    (Z.of_nat (length (DoOobDevice.row_columns txtline)) - 7) = Some "-" ->
  DoOobDevice.line_row lines txtline tt =
    (Return (if Py.contains "/" ("As" +:+ tty)
             then <["2005" := "As" +:+ tty]> lines
             else lines), tt).
Proof.
  intros Htty H0 H1 Hr.
  apply (line_row_of_columns lines txtline tty "5" "-" 5); auto.
Qed.

(** C7: for a row of the [show line] table (one that contains [TTY]) whose
    columns are [tty], [line], ... and whose rotary column -- the seventh
    from the end -- is [roty], the line id is [str (2000 + n)], the
    numeral of 2000 plus [n], where [n] is the number in the rotary column
    or, when that column shows [-], the number in the line column; the row
    enters the result when its interface name [As<tty>] has a [/] and is
    left out otherwise. *)
Theorem line_id_offset_plus_rotary
    (lines : gmap string string) (txtline tty line roty : string) (n : Z) :
  Py.contains "TTY" txtline = true ->
  Py.index (DoOobDevice.row_columns txtline) 0 = Some tty ->
  Py.index (DoOobDevice.row_columns txtline) 1 = Some line ->
  Py.index (DoOobDevice.row_columns txtline)
    (Z.of_nat (length (DoOobDevice.row_columns txtline)) - 7) = Some roty ->
  Py.int (if String.eqb roty "-" then line else roty) = Some n ->
  DoOobDevice.line_row lines txtline tt =
    (Return (if Py.contains "/" ("As" +:+ tty)
             then <[Py.str (2000 + n) := "As" +:+ tty]> lines
             else lines), tt)
  /\ Py.int (Py.str (2000 + n)) = Some (2000 + n).
Proof.
  intros Htty H0 H1 Hr Hn.
  split; [now apply (line_row_of_columns lines txtline tty line roty) |].
  apply int_str.
Qed.

(** A row with rotary column [-] and line number 5 gets the id 2005. *)
Lemma line_id_offset_plus_rotary_witness :
  DoOobDevice.line_row ∅
    "   0/0/0    5 TTY   9600/9600  -    -      -    -    -     0      0    0/0      -"
    tt
  = (Return {[ "2005" := "As0/0/0" ]}, tt)
  /\ Py.int "2005" = Some 2005.
Proof.
  apply (line_id_offset_plus_rotary ∅ _ "0/0/0" "5" "-" 5);
    vm_compute; reflexivity.
Defined.

(** A row that is parsed has its tty, line and rotary columns. *)
Lemma line_row_inversion
    (lines lines' : gmap string string) (txtline : string) :
  Py.contains "TTY" txtline = true ->
  DoOobDevice.line_row lines txtline tt = (Return lines', tt) ->
  exists tty line roty n,
    Py.index (DoOobDevice.row_columns txtline) 0 = Some tty
    /\ Py.index (DoOobDevice.row_columns txtline) 1 = Some line
    /\ Py.index (DoOobDevice.row_columns txtline)
         (Z.of_nat (length (DoOobDevice.row_columns txtline)) - 7) = Some roty
    /\ Py.int (if String.eqb roty "-" then line else roty) = Some n.
Proof.
  intros Htty. unfold DoOobDevice.line_row. rewrite Htty. unfold bind.
  destruct (Py.index _ 0) as [tty|]; [|discriminate]. cbn [lift_option ret].
  destruct (Py.index _ 1) as [line|]; [|discriminate]. cbn [lift_option ret].
  destruct (Py.index _ (_ - 7)) as [roty|]; [|discriminate]. cbn [lift_option ret].
  destruct (Py.int _) as [n|] eqn:En; [|discriminate].
  intros _. now exists tty, line, roty, n.
Qed.

(** A row without [TTY] leaves the table as it is. *)
Lemma line_row_other (lines : gmap string string) (txtline : string) :
  Py.contains "TTY" txtline = false ->
  DoOobDevice.line_row lines txtline tt = (Return lines, tt).
Proof. intros H. unfold DoOobDevice.line_row. now rewrite H. Qed.

(** ** No [KeyError] in [SSH_pwdecrypt.py] *)

Section NoKeyError.
Import Store StoreSpec Cipher.
Context {F : Fernet}.

Lemma bind_raise_inv {St A B} (m : M St A) (k : A -> M St B) st e st' :
  bind m k st = (Raise e, st') ->
  m st = (Raise e, st')
  \/ exists a st1, m st = (Return a, st1) /\ k a st1 = (Raise e, st').
Proof.
  unfold bind. destruct (m st) as [[a|e0] st1]; intros H.
  - right. now exists a, st1.
  - left. now inversion H.
Qed.

Lemma decrypt_password_error (x : string) (calls calls' : log) (e : exn) :
  decrypt_password x calls = (Raise e, calls') -> line_error e.
Proof.
  unfold decrypt_password, line_error.
  destruct (fernet_decrypt _) as [d|]; [destruct (Utf8.decode d)|];
    intros H; inversion H; auto.
Qed.

Lemma unpack_line_error (curline : string) (calls calls' : log) (e : exn) :
  unpack_line curline calls = (Raise e, calls') -> line_error e.
Proof.
  unfold unpack_line, line_error.
  destruct (Py.count_char ";" curline =? 5)%nat;
    destruct (Py.split_char ";" curline)
      as [|f1 [|f2 [|f3 [|f4 [|f5 [|f6 [|f7 [|f8 t]]]]]]]];
    unfold ret, raise; intros H; try (inversion H; auto; fail).
  unfold bind, lift_option in H. destruct (Py.int f7); inversion H; auto.
Qed.

Lemma ssh_realm_field_returns realms (ref : string) get (calls calls' : log) e :
  SSH_pwdecrypt.realm_field realms ref get calls <> (Raise e, calls').
Proof. unfold SSH_pwdecrypt.realm_field. now destruct (realms !! ref). Qed.

Lemma ssh_secret_step_error realms (x : string) get (calls calls' : log) e :
  (if is_realm_ref x then SSH_pwdecrypt.realm_field realms x get
   else if Py.nonempty x then decrypt_password x else ret x) calls
  = (Raise e, calls') ->
  line_error e.
Proof.
  destruct (is_realm_ref x).
  - intros H. now apply ssh_realm_field_returns in H.
  - destruct (Py.nonempty x); [apply decrypt_password_error|discriminate].
Qed.

Lemma ssh_resolve_line_error realms (curline : string) (calls calls' : log) e :
  resolve_line SSH_pwdecrypt.realm_field realms curline calls = (Raise e, calls') ->
  line_error e.
Proof.
  unfold resolve_line. intros H.
  apply bind_raise_inv in H as [H|(l & c0 & _ & H)];
    [now apply unpack_line_error in H|].
  apply bind_raise_inv in H as [H|(u & c1 & _ & H)].
  { destruct (is_realm_ref (l_username l));
      [now apply ssh_realm_field_returns in H | discriminate]. }
  apply bind_raise_inv in H as [H|(p & c2 & _ & H)];
    [now apply ssh_secret_step_error in H|].
  apply bind_raise_inv in H as [H|(s & c3 & _ & H)];
    [now apply ssh_secret_step_error in H | discriminate].
Qed.

(** In [SSH_pwdecrypt.py] no realm reference, known or not, makes
    [read_deviceinfo] raise [KeyError]. *)
Lemma ssh_read_deviceinfo_no_key_error
    (file : option (list string)) realms (device : string)
    (calls calls' : log) (key : string) :
  SSH_pwdecrypt.read_deviceinfo file realms device calls
  <> (Raise (KeyError key), calls').
Proof.
  unfold SSH_pwdecrypt.read_deviceinfo, read_deviceinfo_with.
  destruct file as [lines|]; [|discriminate].
  generalize 22. revert calls.
  induction lines as [|line rest IH]; intros calls ssh_port;
    [discriminate|].
  cbn [device_lines].
  destruct (is_data_line (curline_of line)); [|apply IH].
  destruct (device_syntax (curline_of line)); cbn [negb]; [|apply IH].
  intros H. apply bind_raise_inv in H as [H|(l & c1 & _ & H)].
  - apply ssh_resolve_line_error in H as [H|[H|H]]; discriminate.
  - destruct (String.eqb (l_curdevice l) device); [discriminate|].
    now apply IH in H.
Qed.

End NoKeyError.

(** ** Decoding outside the retry loop *)

Section Decoding.
Import DoOobDevice.

(** A first banner chunk that is not UTF-8 ends [receive] with
    [UnicodeDecodeError], whatever follows. *)
Lemma banner_decode_error (b : list Byte.byte)
    (rest : list (option (list Byte.byte))) (command password : string) :
  Utf8.decode b = None ->
  receive command password (fresh (Some b :: rest))
  = (Raise UnicodeDecodeError,
     {| pending := rest; sent := [command +:+ LF] |}).
Proof.
  intros H. unfold receive, bind, send, fresh. cbn [pending sent app].
  cbn [banner_polls]. unfold bind, poll, decode. cbn [pending sent].
  now rewrite H.
Qed.

(** With a banner that is neither empty nor a refusal, [receive] is the
    retry loop. *)
Lemma receive_retry_loop (command password banner : string) (ch ch1 : channel) :
  banner_polls 3 password ""
    {| pending := pending ch; sent := sent ch ++ [command +:+ LF] |}
  = (Return (inr banner), ch1) ->
  banner <> "" ->
  receive command password ch = retry_loop 6 "" ch1.
Proof.
  intros Hb Hne. apply is_empty_false in Hne.
  unfold receive. unfold bind at 1. unfold send at 1.
  unfold bind at 1. rewrite Hb. now rewrite Hne.
Qed.

End Decoding.

(** ** More on the credential store *)

Section RealmTable.
Import Store StoreSpec StoreMore Cipher.
Context {F : Fernet}.

Lemma realm_line_complete (realms realms' : gmap string realm_data)
    (curline : string) (calls calls' : log) :
  map_Forall (fun _ r => complete_realm r) realms ->
  realm_line realms curline calls = (Return realms', calls') ->
  map_Forall (fun _ r => complete_realm r) realms'.
Proof.
  intros Hall. unfold realm_line.
  destruct (Py.count_char ";" curline =? 3)%nat;
    [|unfold ret; intros H; inversion H; now subst].
  destruct (Py.split_char ";" curline) as [|f1 [|f2 [|f3 [|f4 [|f5 t]]]]];
    try discriminate.
  intros H.
  apply bind_inv in H as (p & c1 & _ & H).
  apply bind_inv in H as (s & c2 & _ & H).
  destruct (is_empty f2) eqn:E2; cbn [orb] in H;
    [unfold ret in H; inversion H; now subst|].
  destruct (is_empty p) eqn:Ep; cbn [orb] in H;
    [unfold ret in H; inversion H; now subst|].
  destruct (is_empty s) eqn:Es;
    unfold ret in H; inversion H; subst; [exact Hall|].
  apply map_Forall_insert_2; [|exact Hall].
  apply is_empty_false in E2, Ep, Es. now repeat split.
Qed.

Lemma realm_lines_complete (lines : list string) :
  forall (realms realms' : gmap string realm_data) (calls calls' : log),
  map_Forall (fun _ r => complete_realm r) realms ->
  realm_lines lines realms calls = (Return realms', calls') ->
  map_Forall (fun _ r => complete_realm r) realms'.
Proof.
  induction lines as [|line rest IH]; intros realms realms' calls calls' Hall H.
  - cbn [realm_lines] in H. unfold ret in H. inversion H. now subst.
  - cbn [realm_lines] in H.
    destruct (is_data_line (curline_of line)); [|now apply (IH _ _ _ _ Hall H)].
    apply bind_inv in H as (realms1 & c1 & Hline & H).
    eapply IH; [|exact H].
    eapply realm_line_complete; eauto.
Qed.

End RealmTable.

(** X1: [read_credentials] keeps no partial realm: in the table it
    returns, every realm has a non-empty username, password and enable
    secret, and the table is not empty. *)
Theorem read_credentials_complete_realms {F : Fernet}
    (file : option (list string)) (realms : gmap string Store.realm_data)
    (calls calls' : Cipher.log) :
  Store.read_credentials file calls = (Return (Some realms), calls') ->
  realms <> ∅
  /\ forall name r, realms !! name = Some r -> StoreMore.complete_realm r.
Proof.
  unfold Store.read_credentials. destruct file as [lines|]; [|discriminate].
  intros H. apply bind_inv in H as (rs & c1 & Hlines & H).
  destruct (decide (rs = ∅)) as [E|E]; unfold ret in H; inversion H; subst.
  split; [exact E|].
  intros name r Hr.
  pose proof (realm_lines_complete lines ∅ realms calls calls'
                (map_Forall_empty _) Hlines) as Hall.
  exact (Hall name r Hr).
Qed.

Lemma read_credentials_complete_realms_witness :
  Scenario.realms_net1 <> ∅
  /\ forall name r,
       Scenario.realms_net1 !! name = Some r -> StoreMore.complete_realm r.
Proof.
  apply (@read_credentials_complete_realms Cipher.example_cipher
           (Some [Scenario.realm_line_of "enc:s3cret";
                  "*EMPTY;;enc:pw;*" +:+ DoOobDevice.LF])
           Scenario.realms_net1 [] ["enc:s3cret"; "enc:pw"]).
  vm_compute. reflexivity.
Defined.

Section DeviceTable.
Import Store StoreSpec StoreMore Cipher.
Context {F : Fernet}.
Variable realm_field :
  gmap string realm_data -> string -> (realm_data -> string) -> M log string.

Lemma matched_complete (l : device_line) (c : device_credentials) (port : Z) :
  matched l = (Credentials c, port) ->
  complete_credentials c
  /\ ip c = l_ip l /\ global_delay_factor c = 3
  /\ device_type c = l_device_type l /\ port = l_ssh_port l.
Proof.
  unfold matched, complete_credentials.
  destruct (is_empty (l_username l)) eqn:Eu; cbn [orb]; [discriminate|].
  destruct (is_empty (l_password l)) eqn:Ep; cbn [orb]; [discriminate|].
  destruct (is_empty (l_secret l)) eqn:Es; [discriminate|].
  intros H. inversion H. subst. cbn.
  apply is_empty_false in Eu, Ep, Es. auto 10.
Qed.

Lemma resolve_line_ip realms (curline : string) (calls calls' : log)
    (l : device_line) :
  resolve_line realm_field realms curline calls = (Return l, calls') ->
  l_curdevice l <> "" -> l_ip l <> "".
Proof.
  unfold resolve_line. intros H Hdev.
  apply bind_inv in H as (l0 & c0 & _ & H).
  apply bind_inv in H as (u & c1 & _ & H).
  apply bind_inv in H as (p & c2 & _ & H).
  apply bind_inv in H as (s & c3 & _ & H).
  unfold ret in H. inversion H. subst. cbn [l_ip l_curdevice] in *.
  destruct (is_empty (l_ip l0)) eqn:E; [exact Hdev|].
  now apply is_empty_false.
Qed.

Lemma device_lines_complete realms (device : string) (lines : list string) :
  forall (ssh_port : Z) (calls calls' : log) (c : device_credentials) (port : Z),
  device_lines realm_field realms device lines ssh_port calls
  = (Return (Credentials c, port), calls') ->
  complete_credentials c /\ global_delay_factor c = 3
  /\ (device <> "" -> ip c <> "").
Proof.
  induction lines as [|line rest IH]; intros ssh_port calls calls' c port H;
    cbn [device_lines] in H; [discriminate|].
  destruct (is_data_line (curline_of line)); [|now apply IH in H].
  destruct (device_syntax (curline_of line)); cbn [negb] in H;
    [|now apply IH in H].
  apply bind_inv in H as (l & c1 & Hres & H).
  destruct (String.eqb (l_curdevice l) device) eqn:Heq; [|now apply IH in H].
  apply String.eqb_eq in Heq. unfold ret in H. inversion H as [[Hm Hc]].
  apply matched_complete in Hm as (Hcomplete & Hip & Hgdf & _ & _).
  split; [exact Hcomplete|]. split; [exact Hgdf|].
  intros Hdev. rewrite Hip.
  apply (resolve_line_ip _ _ _ _ _ Hres). now rewrite Heq.
Qed.

(** Once a line of the device has been reached, what follows it in the
    file is not looked at. *)
Lemma device_lines_first_match realms (device : string) (lines more : list string) :
  forall (ssh_port : Z) (calls calls' : log) (r : found) (port : Z),
  device_lines realm_field realms device lines ssh_port calls
  = (Return (r, port), calls') ->
  r <> NoDevice ->
  device_lines realm_field realms device (lines ++ more) ssh_port calls
  = (Return (r, port), calls').
Proof.
  induction lines as [|line rest IH]; intros ssh_port calls calls' r port H Hr;
    cbn [device_lines] in H.
  - unfold ret in H. inversion H. congruence.
  - cbn [app device_lines].
    destruct (is_data_line (curline_of line)); [|now apply IH].
    destruct (device_syntax (curline_of line)); cbn [negb] in *; [|now apply IH].
    apply bind_inv in H as (l & c1 & Hres & H).
    rewrite (bind_return _ _ _ _ _ Hres).
    destruct (String.eqb (l_curdevice l) device); [exact H | now apply IH].
Qed.

(** Lines that are blank, comments, or without five or six semicolons do
    not count. *)
Lemma device_lines_valid_only realms (device : string) (lines : list string) :
  forall (ssh_port : Z) (calls : log),
  device_lines realm_field realms device lines ssh_port calls
  = device_lines realm_field realms device (List.filter valid_line lines)
      ssh_port calls.
Proof.
  induction lines as [|line rest IH]; intros ssh_port calls; [reflexivity|].
  cbn [List.filter]. unfold valid_line at 1.
  cbn [device_lines].
  destruct (is_data_line (curline_of line)) eqn:Hd; cbn [andb]; [|apply IH].
  destruct (device_syntax (curline_of line)) eqn:Hs; cbn [negb]; [|apply IH].
  cbn [device_lines]. rewrite Hd, Hs. cbn [negb].
  unfold bind.
  destruct (resolve_line realm_field realms (curline_of line) calls)
    as [[l|e] c1]; [|reflexivity].
  destruct (String.eqb (l_curdevice l) device); [reflexivity | apply IH].
Qed.

End DeviceTable.

(** X2: [read_deviceinfo] never returns partial credentials: the dict it
    returns has a non-empty username, password and enable secret and the
    delay factor 3, and, for a device id that is not empty, a non-empty
    address. *)
Theorem read_deviceinfo_complete_credentials {F : Fernet}
    (file : option (list string)) (realms : gmap string Store.realm_data)
    (device : string) (calls calls' : Cipher.log)
    (c : Store.device_credentials) (port : Z) :
  Pwdecrypt.read_deviceinfo file realms device calls
    = (Return (Store.Credentials c, port), calls')
  \/ SSH_pwdecrypt.read_deviceinfo file realms device calls
    = (Return (Store.Credentials c, port), calls') ->
  StoreMore.complete_credentials c
  /\ Store.global_delay_factor c = 3
  /\ (device <> "" -> Store.ip c <> "").
Proof.
  unfold Pwdecrypt.read_deviceinfo, SSH_pwdecrypt.read_deviceinfo,
    Store.read_deviceinfo_with.
  destruct file as [lines|]; [|intros [H|H]; discriminate].
  intros [H|H]; eapply device_lines_complete; exact H.
Qed.

Lemma read_deviceinfo_complete_credentials_witness :
  StoreMore.complete_credentials (Scenario.r1_credentials "s3cret")
  /\ Store.global_delay_factor (Scenario.r1_credentials "s3cret") = 3
  /\ ("r1" <> "" -> Store.ip (Scenario.r1_credentials "s3cret") <> "").
Proof.
  apply (@read_deviceinfo_complete_credentials Cipher.example_cipher
           (Some [Scenario.device_line_r1]) Scenario.realms_net1 "r1" [] []
           (Scenario.r1_credentials "s3cret") 22).
  left. vm_compute. reflexivity.
Defined.

(** X3: the first line of the device decides: when [read_deviceinfo] has
    answered for a device from some lines, with credentials or with the
    empty string, it gives the same answer whatever lines are appended
    to the file. *)
Theorem read_deviceinfo_first_match {F : Fernet}
    (lines more : list string) (realms : gmap string Store.realm_data)
    (device : string) (calls calls' : Cipher.log) (r : Store.found) (port : Z) :
  r <> Store.NoDevice ->
  (Pwdecrypt.read_deviceinfo (Some lines) realms device calls
     = (Return (r, port), calls') ->
   Pwdecrypt.read_deviceinfo (Some (lines ++ more)) realms device calls
     = (Return (r, port), calls'))
  /\
  (SSH_pwdecrypt.read_deviceinfo (Some lines) realms device calls
     = (Return (r, port), calls') ->
   SSH_pwdecrypt.read_deviceinfo (Some (lines ++ more)) realms device calls
     = (Return (r, port), calls')).
Proof.
  intros Hr. split; intros H; now apply device_lines_first_match.
Qed.

Lemma read_deviceinfo_first_match_witness :
  @Pwdecrypt.read_deviceinfo Cipher.example_cipher
    (Some ([Scenario.device_line_r1] ++ Scenario.two_devices_broken))
    Scenario.realms_net1 "r1" []
  = (Return (Store.Credentials (Scenario.r1_credentials "s3cret"), 22), [])
  /\ @SSH_pwdecrypt.read_deviceinfo Cipher.example_cipher
    (Some ([Scenario.device_line_r1] ++ Scenario.two_devices_broken))
    Scenario.realms_net1 "r1" []
  = (Return (Store.Credentials (Scenario.r1_credentials "s3cret"), 22), []).
Proof.
  destruct (@read_deviceinfo_first_match Cipher.example_cipher
              [Scenario.device_line_r1] Scenario.two_devices_broken
              Scenario.realms_net1 "r1" [] []
              (Store.Credentials (Scenario.r1_credentials "s3cret")) 22)
    as [H1 H2]; [discriminate|].
  split; [apply H1 | apply H2]; vm_compute; reflexivity.
Defined.

(** X4: blank lines, comment lines and lines without five or six
    semicolons play no part: [read_deviceinfo] gives on a file what it
    gives on the file without them, result, port, exception and calls of
    [decrypt_password] alike. *)
Theorem read_deviceinfo_valid_lines_only {F : Fernet}
    (lines : list string) (realms : gmap string Store.realm_data)
    (device : string) (calls : Cipher.log) :
  Pwdecrypt.read_deviceinfo (Some lines) realms device calls
  = Pwdecrypt.read_deviceinfo
      (Some (List.filter StoreSpec.valid_line lines)) realms device calls
  /\ SSH_pwdecrypt.read_deviceinfo (Some lines) realms device calls
  = SSH_pwdecrypt.read_deviceinfo
      (Some (List.filter StoreSpec.valid_line lines)) realms device calls.
Proof. split; apply device_lines_valid_only. Qed.

(** ** Unpacking and exceptions of the store *)

Section Unpacking.
Import Store StoreSpec StoreMore Cipher.
Context {F : Fernet}.

Lemma split_char_length (c : ascii) (s : string) :
  length (Py.split_char c s) = S (Py.count_char c s).
Proof.
  induction s as [|a s IH]; [reflexivity|].
  cbn [Py.split_char Py.count_char].
  destruct (Ascii.eqb a c); cbn [length]; [now rewrite IH|].
  destruct (Py.split_char c s) as [|f fs]; [discriminate|].
  cbn [length] in *. lia.
Qed.

Lemma decrypt_password_raises (x : string) (calls calls' : log) (e : exn) :
  decrypt_password x calls = (Raise e, calls') ->
  decrypt_error e /\ calls' = calls ++ [x]
  /\ decrypt_password x [] = (Raise e, [x]).
Proof.
  unfold decrypt_password, decrypt_error.
  destruct (fernet_decrypt _) as [d|]; [destruct (Utf8.decode d)|];
    intros H; inversion H; subst; auto.
Qed.

Lemma realm_line_log realms (curline : string) (calls calls' : log) o :
  realm_line realms curline calls = (o, calls') ->
  exists more, calls' = calls ++ more.
Proof.
  unfold realm_line.
  destruct (Py.count_char ";" curline =? 3)%nat;
    [|intros H; inversion H; exists []; now rewrite app_nil_r].
  destruct (Py.split_char ";" curline) as [|f1 [|f2 [|f3 [|f4 [|f5 t]]]]];
    try (intros H; inversion H; exists []; now rewrite app_nil_r).
  unfold bind.
  destruct (decrypt_password f3 calls) as [[p|e] c1] eqn:E1;
    apply decrypt_password_log in E1; subst c1;
    [|intros H; inversion H; now exists [f3]].
  destruct (String.eqb f4 "*").
  - unfold ret.
    destruct (is_empty f2 || is_empty p || is_empty p);
      intros H; inversion H; now exists [f3].
  - destruct (decrypt_password f4 (calls ++ [f3])) as [[s|e] c2] eqn:E2;
      apply decrypt_password_log in E2; subst c2;
      [|intros H; inversion H; exists [f3; f4]; now rewrite <- app_assoc].
    unfold ret.
    destruct (is_empty f2 || is_empty p || is_empty s);
      intros H; inversion H; exists [f3; f4]; now rewrite <- app_assoc.
Qed.

Lemma realm_line_raises realms (curline : string) (calls calls' : log) (e : exn) :
  realm_line realms curline calls = (Raise e, calls') ->
  decrypt_error e
  /\ exists earlier tok,
       calls' = calls ++ earlier ++ [tok]
       /\ decrypt_password tok [] = (Raise e, [tok]).
Proof.
  unfold realm_line.
  destruct (Py.count_char ";" curline =? 3)%nat eqn:Hn; [|discriminate].
  apply Nat.eqb_eq in Hn.
  pose proof (split_char_length ";" curline) as Hlen. rewrite Hn in Hlen.
  destruct (Py.split_char ";" curline) as [|f1 [|f2 [|f3 [|f4 [|f5 t]]]]];
    try discriminate.
  intros H. apply bind_raise_inv in H as [H|(p & c1 & Hp & H)].
  - apply decrypt_password_raises in H as (He & Hc & Hd).
    split; [exact He|]. exists [], f3. now split.
  - apply decrypt_password_log in Hp. subst c1.
    apply bind_raise_inv in H as [H|(s & c2 & _ & H)].
    + destruct (String.eqb f4 "*"); [discriminate|].
      apply decrypt_password_raises in H as (He & Hc & Hd).
      split; [exact He|]. exists [f3], f4.
      split; [now rewrite Hc, <- app_assoc | exact Hd].
    + unfold ret in H.
      destruct (is_empty f2 || is_empty p || is_empty s); discriminate.
Qed.

Lemma realm_lines_raises (lines : list string) :
  forall realms (calls calls' : log) (e : exn),
  realm_lines lines realms calls = (Raise e, calls') ->
  decrypt_error e
  /\ exists earlier tok,
       calls' = calls ++ earlier ++ [tok]
       /\ decrypt_password tok [] = (Raise e, [tok]).
Proof.
  induction lines as [|line rest IH]; intros realms calls calls' e H;
    cbn [realm_lines] in H; [discriminate|].
  destruct (is_data_line (curline_of line)); [|now apply IH in H].
  apply bind_raise_inv in H as [H|(realms' & c1 & Hline & H)].
  - now apply realm_line_raises in H.
  - apply realm_line_log in Hline as [more ->].
    apply IH in H as (He & earlier & tok & Hc & Hd).
    split; [exact He|]. exists (more ++ earlier), tok.
    split; [now rewrite Hc, <- !app_assoc | exact Hd].
Qed.

Lemma read_credentials_raises (file : option (list string))
    (calls calls' : log) (e : exn) :
  read_credentials file calls = (Raise e, calls') ->
  decrypt_error e
  /\ exists earlier tok,
       calls' = calls ++ earlier ++ [tok]
       /\ decrypt_password tok [] = (Raise e, [tok]).
Proof.
  unfold read_credentials. destruct file as [lines|]; [|discriminate].
  intros H. apply bind_raise_inv in H as [H|(realms & c1 & _ & H)].
  - now apply realm_lines_raises in H.
  - destruct (decide (realms = ∅)); discriminate.
Qed.

(** Lines that are blank, comments, or without three semicolons do not
    count in the realm file. *)
Lemma realm_lines_syntax_only (lines : list string) :
  forall realms (calls : log),
  realm_lines lines realms calls
  = realm_lines (List.filter realm_syntax lines) realms calls.
Proof.
  induction lines as [|line rest IH]; intros realms calls; [reflexivity|].
  cbn [List.filter realm_lines]. unfold realm_syntax at 1.
  destruct (is_data_line (curline_of line)) eqn:Hd; cbn [andb]; [|apply IH].
  destruct (Py.count_char ";" (curline_of line) =? 3)%nat eqn:Hs.
  - cbn [realm_lines]. rewrite Hd. unfold bind.
    destruct (realm_line realms (curline_of line) calls) as [[r|e] c1];
      [apply IH | reflexivity].
  - unfold bind at 1. unfold realm_line at 1. rewrite Hs. apply IH.
Qed.

End Unpacking.



(** X6: blank lines, comment lines and lines without exactly three
    semicolons play no part in the realm file: [read_credentials] gives
    on a file what it gives on the file without them. *)
Theorem read_credentials_syntax_lines_only {F : Fernet}
    (lines : list string) (calls : Cipher.log) :
  Store.read_credentials (Some lines) calls
  = Store.read_credentials
      (Some (List.filter StoreMore.realm_syntax lines)) calls.
Proof.
  unfold Store.read_credentials, bind.
  now rewrite realm_lines_syntax_only.
Qed.

Section Raising.
Import Store StoreSpec StoreMore Cipher.
Context {F : Fernet}.

Lemma unpack_line_raises (curline : string) (calls calls' : log) (e : exn) :
  device_syntax curline = true ->
  unpack_line curline calls = (Raise e, calls') ->
  e = ValueError /\ line_port curline = None.
Proof.
  unfold device_syntax, unpack_line, line_port, last_field.
  pose proof (split_char_length ";" curline) as Hlen.
  destruct (Py.count_char ";" curline =? 5)%nat eqn:H5.
  - apply Nat.eqb_eq in H5. rewrite H5 in Hlen. intros _.
    destruct (Py.split_char ";" curline)
      as [|f1 [|f2 [|f3 [|f4 [|f5 [|f6 [|f7 t]]]]]]]; discriminate.
  - cbn [orb]. intros H6. apply Nat.eqb_eq in H6. rewrite H6 in Hlen.
    destruct (Py.split_char ";" curline)
      as [|f1 [|f2 [|f3 [|f4 [|f5 [|f6 [|f7 [|f8 t]]]]]]]]; try discriminate.
    cbn [List.last]. unfold bind, lift_option.
    destruct (Py.int f7); [discriminate|].
    unfold raise. intros H. now inversion H.
Qed.

Lemma not_ref_literal (x : string) :
  is_realm_ref x = false -> Py.nonempty x = true -> is_literal x = true.
Proof.
  unfold is_realm_ref, is_literal. intros H Hn. rewrite Hn in *.
  cbn [andb] in *. now rewrite H.
Qed.

Variable realm_field :
  gmap string realm_data -> string -> (realm_data -> string) -> M log string.
Hypothesis realm_field_raises :
  forall realms ref get calls e calls',
    realm_field realms ref get calls = (Raise e, calls') ->
    e = KeyError ref /\ realms !! ref = None.

Lemma secret_step_raises realms (x : string) get (calls calls' : log) (e : exn) :
  (if is_realm_ref x then realm_field realms x get
   else if Py.nonempty x then decrypt_password x else ret x) calls
  = (Raise e, calls') ->
  (is_literal x = true /\ decrypt_password x [] = (Raise e, [x]))
  \/ (e = KeyError x /\ is_realm_ref x = true /\ realms !! x = None).
Proof.
  destruct (is_realm_ref x) eqn:Hr.
  - intros H. apply realm_field_raises in H as [-> Hk]. now right.
  - destruct (Py.nonempty x) eqn:Hn; [|discriminate].
    intros H. apply decrypt_password_raises in H as (_ & _ & H).
    left. split; [now apply not_ref_literal | exact H].
Qed.

Lemma resolve_line_raises realms (curline : string) (calls calls' : log)
    (e : exn) :
  device_syntax curline = true ->
  resolve_line realm_field realms curline calls = (Raise e, calls') ->
  (e = ValueError /\ line_port curline = None)
  \/ (exists tok, In tok (literals curline)
                  /\ decrypt_password tok [] = (Raise e, [tok]))
  \/ (exists key, e = KeyError key /\ In key (Py.split_char ";" curline)
                  /\ is_realm_ref key = true /\ realms !! key = None).
Proof.
  intros Hsyn H. unfold resolve_line in H.
  apply bind_raise_inv in H as [H|(l & c0 & Hu & H)];
    [left; now apply (unpack_line_raises _ _ _ _ Hsyn H)|].
  apply unpack_line_inv in Hu as [-> (tail & Hsplit)].
  right.
  apply bind_raise_inv in H as [H|(u & c1 & _ & H)].
  { destruct (is_realm_ref (l_username l)) eqn:Hr; [|discriminate].
    apply realm_field_raises in H as [-> Hk].
    right. exists (l_username l). rewrite Hsplit. cbn [In]. auto 10. }
  apply bind_raise_inv in H as [H|(p & c2 & _ & H)].
  { apply secret_step_raises in H as [[Hl Hd]|(-> & Hr & Hk)].
    - left. exists (l_password l). split; [|exact Hd].
      unfold literals. rewrite Hsplit, Hl. cbn [app In]. now left.
    - right. exists (l_password l). rewrite Hsplit. cbn [In]. auto 10. }
  apply bind_raise_inv in H as [H|(s & c3 & _ & H)]; [|discriminate].
  apply secret_step_raises in H as [[Hl Hd]|(-> & Hr & Hk)].
  - left. exists (l_secret l). split; [|exact Hd].
    unfold literals. rewrite Hsplit, Hl. apply in_or_app. right. now left.
  - right. exists (l_secret l). rewrite Hsplit. cbn [In]. auto 10.
Qed.

Lemma raised_by_cons realms (line : string) (lines : list string) (e : exn) :
  raised_by realms lines e -> raised_by realms (line :: lines) e.
Proof.
  intros [l Hin Hv Hp | l tok e' Hin Hv Ht Hd | l key Hin Hv Hk Hr Hn].
  - apply (bad_port _ _ l); auto using in_cons.
  - apply (bad_token _ _ l tok); auto using in_cons.
  - apply (unknown_realm _ _ l key); auto using in_cons.
Qed.

Lemma device_lines_raises realms (device : string) (lines : list string) :
  forall (ssh_port : Z) (calls calls' : log) (e : exn),
  device_lines realm_field realms device lines ssh_port calls
  = (Raise e, calls') ->
  raised_by realms lines e.
Proof.
  induction lines as [|line rest IH]; intros ssh_port calls calls' e H;
    cbn [device_lines] in H; [discriminate|].
  destruct (is_data_line (curline_of line)) eqn:Hd;
    [|apply raised_by_cons; now apply IH in H].
  destruct (device_syntax (curline_of line)) eqn:Hs; cbn [negb] in H;
    [|apply raised_by_cons; now apply IH in H].
  assert (Hv : valid_line line = true) by (unfold valid_line; now rewrite Hd, Hs).
  apply bind_raise_inv in H as [H|(l & c1 & _ & H)].
  - apply (resolve_line_raises _ _ _ _ _ Hs) in H
      as [[-> Hp]|[(tok & Ht & Hdec)|(key & -> & Hk & Hr & Hn)]].
    + apply (bad_port _ _ line); auto using in_eq.
    + apply (bad_token _ _ line tok); auto using in_eq.
    + apply (unknown_realm _ _ line key); auto using in_eq.
  - destruct (String.eqb (l_curdevice l) device); [discriminate|].
    apply raised_by_cons. now apply IH in H.
Qed.

End Raising.

Lemma pwdecrypt_raised_by {F : Fernet}
    (file : option (list string)) (realms : gmap string Store.realm_data)
    (device : string) (calls calls' : Cipher.log) (e : exn) :
  Pwdecrypt.read_deviceinfo file realms device calls = (Raise e, calls') ->
  exists lines, file = Some lines /\ StoreMore.raised_by realms lines e.
Proof.
  unfold Pwdecrypt.read_deviceinfo, Store.read_deviceinfo_with.
  destruct file as [lines|]; [|discriminate].
  intros H. exists lines. split; [reflexivity|].
  eapply device_lines_raises; [|exact H].
  intros rs ref get c e0 c'. unfold Pwdecrypt.realm_field, bind, lift_option.
  destruct (rs !! ref); unfold ret, raise; intros E; now inversion E.
Qed.

Lemma ssh_raised_by {F : Fernet}
    (file : option (list string)) (realms : gmap string Store.realm_data)
    (device : string) (calls calls' : Cipher.log) (e : exn) :
  SSH_pwdecrypt.read_deviceinfo file realms device calls = (Raise e, calls') ->
  StoreSpec.line_error e
  /\ exists lines, file = Some lines /\ StoreMore.raised_by realms lines e.
Proof.
  unfold SSH_pwdecrypt.read_deviceinfo, Store.read_deviceinfo_with.
  destruct file as [lines|]; [|discriminate].
  intros H.
  assert (Hr : StoreMore.raised_by realms lines e).
  { eapply device_lines_raises; [|exact H].
    intros rs ref get c e0 c' E.
    now apply ssh_realm_field_returns in E. }
  split; [|now exists lines].
  destruct Hr as [l Hin Hv Hp | l tok e' Hin Hv Ht Hd | l key Hin Hv Hk Hr Hn].
  - right. now right.
  - apply decrypt_password_error in Hd. exact Hd.
  - exfalso.
    apply (ssh_read_deviceinfo_no_key_error (Some lines) realms device
             calls calls' key H).
Qed.





(** ** The two store modules side by side *)

Section Refinement.
Import Store StoreSpec StoreMore Cipher.
Context {F : Fernet}.

Lemma realm_field_refines realms (ref : string) (get : realm_data -> string)
    (calls calls' : log) (v : string) :
  Pwdecrypt.realm_field realms ref get calls = (Return v, calls') ->
  SSH_pwdecrypt.realm_field realms ref get calls = (Return v, calls').
Proof.
  unfold Pwdecrypt.realm_field, SSH_pwdecrypt.realm_field, bind, lift_option.
  now destruct (realms !! ref).
Qed.

Lemma secret_step_refines realms (x : string) get (calls calls' : log) (v : string) :
  (if is_realm_ref x then Pwdecrypt.realm_field realms x get
   else if Py.nonempty x then decrypt_password x else ret x) calls
  = (Return v, calls') ->
  (if is_realm_ref x then SSH_pwdecrypt.realm_field realms x get
   else if Py.nonempty x then decrypt_password x else ret x) calls
  = (Return v, calls').
Proof. destruct (is_realm_ref x); [apply realm_field_refines | trivial]. Qed.

Lemma resolve_line_refines realms (curline : string) (calls calls' : log)
    (l : device_line) :
  resolve_line Pwdecrypt.realm_field realms curline calls = (Return l, calls') ->
  resolve_line SSH_pwdecrypt.realm_field realms curline calls = (Return l, calls').
Proof.
  unfold resolve_line. intros H.
  apply bind_inv in H as (l0 & c0 & Hu & H).
  rewrite (bind_return _ _ _ _ _ Hu).
  apply bind_inv in H as (u & c1 & Hus & H).
  assert (Hus' :
    (if is_realm_ref (l_username l0)
     then SSH_pwdecrypt.realm_field realms (l_username l0) r_username
     else ret (l_username l0)) c0 = (Return u, c1)).
  { destruct (is_realm_ref (l_username l0));
      [now apply realm_field_refines | exact Hus]. }
  rewrite (bind_return _ _ _ _ _ Hus').
  apply bind_inv in H as (p & c2 & Hps & H).
  rewrite (bind_return _ _ _ _ _ (secret_step_refines _ _ _ _ _ _ Hps)).
  apply bind_inv in H as (s & c3 & Hss & H).
  rewrite (bind_return _ _ _ _ _ (secret_step_refines _ _ _ _ _ _ Hss)).
  exact H.
Qed.

Lemma device_lines_refines realms (device : string) (lines : list string) :
  forall (ssh_port : Z) (calls calls' : log) (r : found * Z),
  device_lines Pwdecrypt.realm_field realms device lines ssh_port calls
  = (Return r, calls') ->
  device_lines SSH_pwdecrypt.realm_field realms device lines ssh_port calls
  = (Return r, calls').
Proof.
  induction lines as [|line rest IH]; intros ssh_port calls calls' r H;
    cbn [device_lines] in *; [exact H|].
  destruct (is_data_line (curline_of line)); [|now apply IH].
  destruct (device_syntax (curline_of line)); cbn [negb] in *; [|now apply IH].
  apply bind_inv in H as (l & c1 & Hres & H).
  rewrite (bind_return _ _ _ _ _ (resolve_line_refines _ _ _ _ _ Hres)).
  destruct (String.eqb (l_curdevice l) device); [exact H | now apply IH].
Qed.

(** The port of a line that unpacks. *)
Lemma unpack_line_port (curline : string) (calls calls' : log) (l : device_line) :
  device_syntax curline = true ->
  unpack_line curline calls = (Return l, calls') ->
  line_port curline = Some (l_ssh_port l).
Proof.
  unfold device_syntax, unpack_line, line_port, last_field.
  pose proof (split_char_length ";" curline) as Hlen.
  destruct (Py.count_char ";" curline =? 5)%nat eqn:H5.
  - intros _.
    destruct (Py.split_char ";" curline)
      as [|f1 [|f2 [|f3 [|f4 [|f5 [|f6 [|f7 t]]]]]]]; try discriminate.
    unfold ret. intros H. now inversion H.
  - cbn [orb]. intros H6. apply Nat.eqb_eq in H6. rewrite H6 in Hlen.
    destruct (Py.split_char ";" curline)
      as [|f1 [|f2 [|f3 [|f4 [|f5 [|f6 [|f7 [|f8 t]]]]]]]]; try discriminate.
    cbn [List.last]. unfold bind, lift_option.
    destruct (Py.int f7); [|discriminate].
    unfold ret. intros H. now inversion H.
Qed.

Variable realm_field :
  gmap string realm_data -> string -> (realm_data -> string) -> M log string.

Lemma resolve_line_port realms (curline : string) (calls calls' : log)
    (l : device_line) :
  device_syntax curline = true ->
  resolve_line realm_field realms curline calls = (Return l, calls') ->
  line_port curline = Some (l_ssh_port l).
Proof.
  unfold resolve_line. intros Hsyn H.
  apply bind_inv in H as (l0 & c0 & Hu & H).
  apply (unpack_line_port _ _ _ _ Hsyn) in Hu.
  apply bind_inv in H as (u & c1 & _ & H).
  apply bind_inv in H as (p & c2 & _ & H).
  apply bind_inv in H as (s & c3 & _ & H).
  unfold ret in H. inversion H. subst. exact Hu.
Qed.

Lemma last_valid_line_cons (line0 : string) (lines : list string) (line : string) :
  last_valid_line lines line -> last_valid_line (line0 :: lines) line.
Proof.
  intros (earlier & later & -> & Hv & Hl).
  now exists (line0 :: earlier), later.
Qed.

Lemma device_lines_no_device_port realms (device : string) (lines : list string) :
  forall (ssh_port : Z) (calls calls' : log) (port : Z),
  device_lines realm_field realms device lines ssh_port calls
  = (Return (NoDevice, port), calls') ->
  (no_valid_line lines /\ port = ssh_port)
  \/ exists line,
       last_valid_line lines line
       /\ line_port (curline_of line) = Some port.
Proof.
  induction lines as [|line rest IH]; intros ssh_port calls calls' port H;
    cbn [device_lines] in H.
  - unfold ret in H. inversion H. left. split; [constructor | reflexivity].
  - assert (Hskip : valid_line line = false ->
              forall c, device_lines realm_field realms device rest ssh_port c
                        = (Return (NoDevice, port), calls') ->
              (no_valid_line (line :: rest) /\ port = ssh_port)
              \/ exists line0,
                   last_valid_line (line :: rest) line0
                   /\ line_port (curline_of line0) = Some port).
    { intros Hv c Hc. apply IH in Hc as [[Hn ->]|(line0 & Hl & Hp)].
      - left. split; [now constructor | reflexivity].
      - right. exists line0. split; [now apply last_valid_line_cons | exact Hp]. }
    destruct (is_data_line (curline_of line)) eqn:Hd;
      [|apply (Hskip ltac:(unfold valid_line; now rewrite Hd) calls H)].
    destruct (device_syntax (curline_of line)) eqn:Hs; cbn [negb] in H;
      [|apply (Hskip ltac:(unfold valid_line; now rewrite Hd, Hs) calls H)].
    assert (Hv : valid_line line = true)
      by (unfold valid_line; now rewrite Hd, Hs).
    apply bind_inv in H as (l & c1 & Hres & H).
    apply (resolve_line_port _ _ _ _ _ Hs) in Hres.
    destruct (String.eqb (l_curdevice l) device).
    { unfold ret in H. inversion H as [[Hm Hc]].
      exfalso. apply (matched_found l). now rewrite Hm. }
    right. apply IH in H as [[Hn ->]|(line0 & Hl & Hp)].
    + exists line. split; [|exact Hres]. now exists [], rest.
    + exists line0. split; [now apply last_valid_line_cons | exact Hp].
Qed.

End Refinement.

(** X9: [SSH_pwdecrypt.py] extends [pwdecrypt.py] on equal files.  The
    two modules read different files of the directory: [deviceinfo.txt]
    and [credentials.txt] the one, [SSH-deviceinfo.txt] and
    [SSH-credentials.txt] the other.  When the files of
    [SSH_pwdecrypt.py] hold the same lines as those of [pwdecrypt.py],
    then whenever [read_deviceinfo] of [pwdecrypt.py] returns,
    [read_deviceinfo] of [SSH_pwdecrypt.py] returns the same result and
    port after the same calls of [decrypt_password]; and so for
    [get_credentials]. *)
Theorem ssh_refines_pwdecrypt {F : Fernet}
    (env env_ssh : Store.environ) (file file_ssh : option (list string))
    (realms : gmap string Store.realm_data) (device : string)
    (calls calls' : Cipher.log) (r : Store.found * Z) :
  (file_ssh = file ->
   Pwdecrypt.read_deviceinfo file realms device calls = (Return r, calls') ->
   SSH_pwdecrypt.read_deviceinfo file_ssh realms device calls
   = (Return r, calls'))
  /\
  (StoreMore.same_lines env env_ssh ->
   Pwdecrypt.get_credentials env device calls = (Return r, calls') ->
   SSH_pwdecrypt.get_credentials env_ssh device calls = (Return r, calls')).
Proof.
  assert (Hread : forall file realms calls calls',
    Pwdecrypt.read_deviceinfo file realms device calls = (Return r, calls') ->
    SSH_pwdecrypt.read_deviceinfo file realms device calls = (Return r, calls')).
  { intros f rs c c'.
    unfold Pwdecrypt.read_deviceinfo, SSH_pwdecrypt.read_deviceinfo,
      Store.read_deviceinfo_with.
    destruct f as [lines|]; [apply device_lines_refines | trivial]. }
  split; [intros ->; apply Hread|].
  intros (Hdir & Hisdir & Hcred & Hdev).
  unfold Pwdecrypt.get_credentials, SSH_pwdecrypt.get_credentials,
    Pwdecrypt.read_credentials, SSH_pwdecrypt.read_credentials.
  rewrite Hdir, Hisdir, Hcred, Hdev.
  destruct (Store.DO_DEVICE env); [|discriminate].
  destruct (Store.DO_DEVICE_isdir env); cbn [negb]; [|discriminate].
  intros H. apply bind_inv in H as (rs & c1 & Hrs & H).
  rewrite (bind_return _ _ _ _ _ Hrs).
  destruct rs as [rs|]; [now apply Hread | discriminate].
Qed.

Lemma ssh_refines_pwdecrypt_witness :
  @SSH_pwdecrypt.read_deviceinfo Cipher.example_cipher
    (Some Scenario.two_devices) Scenario.realms_net1 "r0" []
  = (Return (Store.Credentials
               {| Store.ip := "10.0.0.9"; Store.global_delay_factor := 3;
                  Store.device_type := "ios"; Store.username := "bob";
                  Store.password := "pw0"; Store.secret := "en0" |}, 2222),
     ["enc:pw0"; "enc:en0"])
  /\ @SSH_pwdecrypt.get_credentials Cipher.example_cipher
       (Scenario.store_of "/etc/do-device" "enc:s3cret") "r1" []
     = (Return (Store.Credentials (Scenario.r1_credentials "s3cret"), 22),
        ["enc:s3cret"]).
Proof.
  split.
  - destruct (@ssh_refines_pwdecrypt Cipher.example_cipher
                (Scenario.store_of "/etc/do-device" "enc:s3cret")
                (Scenario.store_of "/etc/do-device" "enc:s3cret")
                (Some Scenario.two_devices) (Some Scenario.two_devices)
                Scenario.realms_net1 "r0"
                [] ["enc:pw0"; "enc:en0"]
                (Store.Credentials
                   {| Store.ip := "10.0.0.9"; Store.global_delay_factor := 3;
                      Store.device_type := "ios"; Store.username := "bob";
                      Store.password := "pw0"; Store.secret := "en0" |}, 2222))
      as [H _].
    apply H; [reflexivity|]. vm_compute. reflexivity.
  - destruct (@ssh_refines_pwdecrypt Cipher.example_cipher
                (Scenario.store_of "/etc/do-device" "enc:s3cret")
                (Scenario.store_of "/etc/do-device" "enc:s3cret")
                None None Scenario.realms_net1 "r1" [] ["enc:s3cret"]
                (Store.Credentials (Scenario.r1_credentials "s3cret"), 22))
      as [_ H].
    apply H; [repeat split|]. vm_compute. reflexivity.
Defined.

(** Files that differ: [pwdecrypt.py] finds the device in its file,
    [SSH_pwdecrypt.py] finds none in an empty one. *)
Example ssh_reads_its_own_files :
  @Pwdecrypt.read_deviceinfo Cipher.example_cipher
    (Some [Scenario.device_line_r1]) Scenario.realms_net1 "r1" []
  = (Return (Store.Credentials (Scenario.r1_credentials "s3cret"), 22), [])
  /\ @SSH_pwdecrypt.read_deviceinfo Cipher.example_cipher
       (Some []) Scenario.realms_net1 "r1" []
     = (Return (Store.NoDevice, 22), []).
Proof. vm_compute. split; reflexivity. Qed.

(** X10: the port that comes with [None].  When [read_deviceinfo] finds
    no line of the device, the port it returns beside [None] is 22 when
    the file has no valid line, and otherwise the port of the last valid
    line of the file, a line of another device: the number in its
    seventh field, or 22 when it has six fields. *)
Theorem read_deviceinfo_no_device_port {F : Fernet}
    (lines : list string) (realms : gmap string Store.realm_data)
    (device : string) (calls calls' : Cipher.log) (port : Z) :
  Pwdecrypt.read_deviceinfo (Some lines) realms device calls
    = (Return (Store.NoDevice, port), calls')
  \/ SSH_pwdecrypt.read_deviceinfo (Some lines) realms device calls
    = (Return (Store.NoDevice, port), calls') ->
  (StoreMore.no_valid_line lines /\ port = 22)
  \/ exists line,
       StoreMore.last_valid_line lines line
       /\ StoreMore.line_port (Store.curline_of line) = Some port.
Proof.
  intros [H|H]; eapply device_lines_no_device_port; exact H.
Qed.

Lemma read_deviceinfo_no_device_port_witness :
  (StoreMore.no_valid_line Scenario.two_devices /\ 22 = 22)
  \/ exists line,
       StoreMore.last_valid_line Scenario.two_devices line
       /\ StoreMore.line_port (Store.curline_of line) = Some 22.
Proof.
  apply (@read_deviceinfo_no_device_port Cipher.example_cipher
           Scenario.two_devices Scenario.realms_net1 "r9" []
           ["enc:pw0"; "enc:en0"; "enc:en1"] 22).
  left. vm_compute. reflexivity.
Defined.

(** The port of another device comes back with [None]. *)
Example no_device_foreign_port :
  @SSH_pwdecrypt.read_deviceinfo Cipher.example_cipher
    (Some ["r0;10.0.0.9;ios;bob;enc:pw0;enc:en0;2222" +:+ DoOobDevice.LF])
    Scenario.realms_net1 "r1" []
  = (Return (Store.NoDevice, 2222), ["enc:pw0"; "enc:en0"]).
Proof. vm_compute. reflexivity. Qed.

(** X11: [get_credentials] of [pwdecrypt.py] cannot report a store that
    is missing or without realms: it raises [UnboundLocalError], and that
    for the name [ssh_port], exactly when [DO_DEVICE] is not set, names no
    directory, or [read_credentials] returns [None]. *)
Theorem pwdecrypt_get_credentials_unbound {F : Fernet}
    (env : Store.environ) (device : string) (calls : Cipher.log) (name : string) :
  fst (Pwdecrypt.get_credentials env device calls)
  = Raise (UnboundLocalError name)
  <-> name = "ssh_port"
      /\ (StoreMore.store_missing env
          \/ fst (Store.read_credentials (Store.credentials_txt env) calls)
             = Return None).
Proof.
  unfold Pwdecrypt.get_credentials, Pwdecrypt.read_credentials,
    StoreMore.store_missing.
  destruct (Store.DO_DEVICE env) as [dir|].
  2:{ cbn. split; [intros H; inversion H; auto | intros [-> _]; reflexivity]. }
  destruct (Store.DO_DEVICE_isdir env); cbn [negb].
  2:{ cbn. split; [intros H; inversion H; auto | intros [-> _]; reflexivity]. }
  unfold bind.
  destruct (Store.read_credentials (Store.credentials_txt env) calls)
    as [[[realms|]|e] c1] eqn:Hrc; cbn [fst].
  - split.
    + destruct (Pwdecrypt.read_deviceinfo (Store.deviceinfo_txt env) realms
                  device c1) as [o c2] eqn:Hrd.
      cbn [fst]. intros ->.
      apply pwdecrypt_raised_by in Hrd as (lines & _ & Hr).
      inversion Hr as [l Hin Hv Hp | l tok e' Hin Hv Ht Hd | l key Hin Hv Hk Hf Hn].
      apply decrypt_password_error in Hd as [Hd|[Hd|Hd]]; discriminate.
    + intros [_ [[H|H]|H]]; discriminate.
  - split; [intros H; inversion H; auto | intros [-> _]; reflexivity].
  - split.
    + intros H. inversion H. subst e.
      apply read_credentials_raises in Hrc as [[H1|H1] _]; discriminate.
    + intros [_ [[H|H]|H]]; discriminate.
Qed.

(** X12: [get_credentials] of [SSH_pwdecrypt.py] answers a missing store
    with [(None, 22)], and raises nothing but what a token that fails to
    decrypt or a port that is not a number raises: no [KeyError], no
    [UnboundLocalError]. *)
Theorem ssh_get_credentials_raises {F : Fernet}
    (env : Store.environ) (device : string) (calls : Cipher.log) :
  (StoreMore.store_missing env ->
   SSH_pwdecrypt.get_credentials env device calls
   = (Return (Store.NoDevice, 22), calls))
  /\ forall e calls',
       SSH_pwdecrypt.get_credentials env device calls = (Raise e, calls') ->
       StoreSpec.line_error e.
Proof.
  unfold SSH_pwdecrypt.get_credentials, SSH_pwdecrypt.read_credentials,
    StoreMore.store_missing.
  split.
  - intros [H|H]; rewrite H; [reflexivity|].
    now destruct (Store.DO_DEVICE env).
  - intros e calls'.
    destruct (Store.DO_DEVICE env); [|discriminate].
    destruct (Store.DO_DEVICE_isdir env); cbn [negb]; [|discriminate].
    intros H. apply bind_raise_inv in H as [H|(rs & c1 & _ & H)].
    + apply read_credentials_raises in H as [[H|H] _]; red; auto.
    + destruct rs as [rs|]; [|discriminate].
      now apply ssh_raised_by in H as [H _].
Qed.

Lemma pwdecrypt_get_credentials_unbound_witness :
  fst (@Pwdecrypt.get_credentials Cipher.example_cipher
         Scenario.store_without_realm "r1" [])
  = Raise (UnboundLocalError "ssh_port").
Proof.
  apply (proj2 (@pwdecrypt_get_credentials_unbound Cipher.example_cipher
                  Scenario.store_without_realm "r1" [] "ssh_port")).
  split; [reflexivity|]. right. vm_compute. reflexivity.
Defined.

Lemma ssh_get_credentials_raises_witness :
  @SSH_pwdecrypt.get_credentials Cipher.example_cipher
    {| Store.DO_DEVICE := None; Store.DO_DEVICE_isdir := false;
       Store.credentials_txt := None; Store.deviceinfo_txt := None |} "r1" []
  = (Return (Store.NoDevice, 22), []).
Proof.
  destruct (@ssh_get_credentials_raises Cipher.example_cipher
              {| Store.DO_DEVICE := None; Store.DO_DEVICE_isdir := false;
                 Store.credentials_txt := None; Store.deviceinfo_txt := None |}
              "r1" []) as [H _].
  apply H. left. reflexivity.
Defined.

(** ** The SNMP store *)

Section SnmpFacts.
Import SNMP_pwdecrypt Cipher.
Context {F : Fernet}.

Lemma snmp_device_line_result realms (device curline : string)
    (calls calls' : log) (c : device_credentials) :
  device_line realms device curline calls = (Return (Some (Some c)), calls') ->
  hostname c = device /\ community c <> ""
  /\ exists community0 port0,
       Py.split_char ";" curline = [hostname c; ipaddr c; community0; port0].
Proof.
  unfold device_line.
  destruct (Py.split_char ";" curline) as [|f1 [|f2 [|f3 [|f4 [|f5 t]]]]];
    try discriminate.
  intros H.
  apply bind_inv in H as (co & c1 & _ & H).
  apply bind_inv in H as (po & c2 & _ & H).
  destruct (String.eqb f1 device) eqn:Heq; [|discriminate].
  apply String.eqb_eq in Heq.
  destruct (Store.is_empty co) eqn:He; [discriminate|].
  destruct (negb (isnumeric po)); [discriminate|].
  unfold ret in H. inversion H. subst. cbn.
  apply is_empty_false in He. eauto.
Qed.

Lemma snmp_device_lines_result realms (device : string) (lines : list string) :
  forall (calls calls' : log) (c : device_credentials),
  device_lines realms device lines calls = (Return (Some c), calls') ->
  hostname c = device /\ community c <> ""
  /\ exists line community0 port0,
       In line lines
       /\ Py.split_char ";" (Store.curline_of line)
          = [hostname c; ipaddr c; community0; port0].
Proof.
  induction lines as [|line rest IH]; intros calls calls' c H;
    cbn [device_lines] in H; [discriminate|].
  assert (Hrest : forall k,
            device_lines realms device rest k = (Return (Some c), calls') ->
            hostname c = device /\ community c <> ""
            /\ exists line0 community0 port0,
                 In line0 (line :: rest)
                 /\ Py.split_char ";" (Store.curline_of line0)
                    = [hostname c; ipaddr c; community0; port0]).
  { intros k Hk. apply IH in Hk as (Hh & Hc & l0 & co & po & Hin & Hs).
    split; [exact Hh|]. split; [exact Hc|].
    exists l0, co, po. split; [now right | exact Hs]. }
  destruct (Store.is_data_line (Store.curline_of line)); [|now apply Hrest in H].
  destruct (Py.count_char ";" (Store.curline_of line) =? 3)%nat; cbn [negb] in H;
    [|now apply Hrest in H].
  apply bind_inv in H as (r & c1 & Hline & H).
  destruct r as [[c0|]|]; [| discriminate | now apply Hrest in H].
  unfold ret in H. inversion H. subst.
  apply snmp_device_line_result in Hline as (Hh & Hc & co & po & Hs).
  split; [exact Hh|]. split; [exact Hc|].
  exists line, co, po. split; [now left | exact Hs].
Qed.

Lemma snmp_device_line_raises realms (device curline : string)
    (calls calls' : log) (e : exn) :
  (Py.count_char ";" curline =? 3)%nat = true ->
  device_line realms device curline calls = (Raise e, calls') ->
  StoreMore.decrypt_error e
  \/ (exists key, e = KeyError key /\ Store.is_realm_ref key = true
                  /\ realms !! key = None)
  \/ (e = NameError "username"
      /\ exists tail, Py.split_char ";" curline = device :: tail).
Proof.
  intros Hn. apply Nat.eqb_eq in Hn.
  pose proof (split_char_length ";" curline) as Hlen. rewrite Hn in Hlen.
  unfold device_line.
  destruct (Py.split_char ";" curline) as [|f1 [|f2 [|f3 [|f4 [|f5 t]]]]];
    try discriminate.
  intros H. apply bind_raise_inv in H as [H|(co & c1 & _ & H)].
  { destruct (Store.is_realm_ref f3) eqn:Hr.
    - apply bind_raise_inv in H as [H|(r & c0 & _ & H)]; [|discriminate].
      destruct (realms !! f3) eqn:Hk; [discriminate|].
      unfold lift_option, raise in H. inversion H. subst.
      right. left. now exists f3.
    - destruct (Py.nonempty f3); [|discriminate].
      apply decrypt_password_raises in H as (He & _). now left. }
  apply bind_raise_inv in H as [H|(po & c2 & _ & H)].
  { destruct (Store.is_realm_ref f4) eqn:Hr; [|discriminate].
    apply bind_raise_inv in H as [H|(r & c0 & _ & H)]; [|discriminate].
    destruct (realms !! f4) eqn:Hk; [discriminate|].
    unfold lift_option, raise in H. inversion H. subst.
    right. left. now exists f4. }
  destruct (String.eqb f1 device) eqn:Heq; [|discriminate].
  apply String.eqb_eq in Heq. subst f1.
  destruct (Store.is_empty co).
  - unfold raise in H. inversion H. right. right. split; [reflexivity|eauto].
  - destruct (negb (isnumeric po)); discriminate.
Qed.

Lemma snmp_device_lines_raises realms (device : string) (lines : list string) :
  forall (calls calls' : log) (e : exn),
  device_lines realms device lines calls = (Raise e, calls') ->
  StoreMore.decrypt_error e
  \/ (exists key, e = KeyError key /\ Store.is_realm_ref key = true
                  /\ realms !! key = None)
  \/ (e = NameError "username"
      /\ exists line tail,
           In line lines
           /\ Py.split_char ";" (Store.curline_of line) = device :: tail).
Proof.
  induction lines as [|line rest IH]; intros calls calls' e H;
    cbn [device_lines] in H; [discriminate|].
  assert (Hrest : forall k,
            device_lines realms device rest k = (Raise e, calls') ->
            StoreMore.decrypt_error e
            \/ (exists key, e = KeyError key /\ Store.is_realm_ref key = true
                            /\ realms !! key = None)
            \/ (e = NameError "username"
                /\ exists line0 tail,
                     In line0 (line :: rest)
                     /\ Py.split_char ";" (Store.curline_of line0)
                        = device :: tail)).
  { intros k Hk. apply IH in Hk as [Hk|[Hk|(-> & l0 & tail & Hin & Hs)]];
      [now left | now right; left |].
    right. right. split; [reflexivity|].
    exists l0, tail. split; [now right | exact Hs]. }
  destruct (Store.is_data_line (Store.curline_of line)); [|now apply Hrest in H].
  destruct (Py.count_char ";" (Store.curline_of line) =? 3)%nat eqn:Hn;
    cbn [negb] in H; [|now apply Hrest in H].
  apply bind_raise_inv in H as [H|(r & c1 & _ & H)].
  - apply (snmp_device_line_raises _ _ _ _ _ _ Hn) in H
      as [H|[H|(-> & tail & Hs)]]; [now left | now right; left |].
    right. right. split; [reflexivity|].
    exists line, tail. split; [now left | exact Hs].
  - destruct r as [r|]; [discriminate | now apply Hrest in H].
Qed.

End SnmpFacts.

(** X13: the dict that [read_deviceinfo] of [SNMP_pwdecrypt.py] returns
    is that of the requested device and has a community that is not
    empty; host name and address are the first two fields of a line of
    the file with four fields. *)
Theorem snmp_read_deviceinfo_result {F : Fernet}
    (file : option (list string))
    (realms : gmap string SNMP_pwdecrypt.realm_data) (device : string)
    (calls calls' : Cipher.log) (c : SNMP_pwdecrypt.device_credentials) :
  SNMP_pwdecrypt.read_deviceinfo file realms device calls
  = (Return (Some c), calls') ->
  SNMP_pwdecrypt.hostname c = device
  /\ SNMP_pwdecrypt.community c <> ""
  /\ exists lines line community0 port0,
       file = Some lines /\ In line lines
       /\ Py.split_char ";" (Store.curline_of line)
          = [SNMP_pwdecrypt.hostname c; SNMP_pwdecrypt.ipaddr c;
             community0; port0].
Proof.
  unfold SNMP_pwdecrypt.read_deviceinfo.
  destruct file as [lines|]; [|discriminate].
  intros H. apply snmp_device_lines_result in H
    as (Hh & Hc & line & co & po & Hin & Hs).
  split; [exact Hh|]. split; [exact Hc|]. now exists lines, line, co, po.
Qed.

Lemma snmp_read_deviceinfo_result_witness :
  SNMP_pwdecrypt.hostname
    {| SNMP_pwdecrypt.hostname := "sw1"; SNMP_pwdecrypt.ipaddr := "10.0.0.2";
       SNMP_pwdecrypt.community := "public"; SNMP_pwdecrypt.port := "161" |}
  = "sw1".
Proof.
  destruct (@snmp_read_deviceinfo_result Cipher.example_cipher
              (Some ["# switches" +:+ DoOobDevice.LF;
                     "sw1;10.0.0.2;enc:public;*V2" +:+ DoOobDevice.LF])
              {[ "*V2" := {| SNMP_pwdecrypt.r_community := "public";
                             SNMP_pwdecrypt.r_port := "161" |} ]}
              "sw1" [] ["enc:public"]
              {| SNMP_pwdecrypt.hostname := "sw1";
                 SNMP_pwdecrypt.ipaddr := "10.0.0.2";
                 SNMP_pwdecrypt.community := "public";
                 SNMP_pwdecrypt.port := "161" |}) as [H _].
  - vm_compute. reflexivity.
  - exact H.
Defined.



(** ** What [connect] does to a channel *)

Section ChannelFacts.
Import DoOobDevice ConsoleSpec ConsoleMore.

Lemma trace_refl (ch : channel) : trace ch ch 0 [].
Proof. split; [now rewrite drop_0 | now rewrite app_nil_r]. Qed.

Lemma trace_trans (ch ch1 ch2 : channel) (j1 j2 : nat) (m1 m2 : list string) :
  trace ch ch1 j1 m1 -> trace ch1 ch2 j2 m2 ->
  trace ch ch2 (j1 + j2) (m1 ++ m2).
Proof.
  intros [Hp1 Hs1] [Hp2 Hs2]. split.
  - now rewrite Hp2, Hp1, drop_drop.
  - now rewrite Hs2, Hs1, <- app_assoc.
Qed.

Lemma trace_send (ch : channel) (s : string) :
  trace ch {| pending := pending ch; sent := sent ch ++ [s] |} 0 [s].
Proof. split; [now rewrite drop_0 | reflexivity]. Qed.

(** A poll takes the head of what is pending. *)
Lemma poll_run (ch : channel) :
  exists p ch1,
    poll ch = (Return p, ch1) /\ trace ch ch1 1 []
    /\ ((p = None /\ silent (take 1 (pending ch)))
        \/ exists b, p = Some b /\ take 1 (pending ch) = [Some b]).
Proof.
  unfold poll. destruct ch as [[|p rest] snt]; cbn [pending sent].
  - eexists None, _. split; [reflexivity|]. split.
    + split; [reflexivity | now rewrite app_nil_r].
    + left. split; [reflexivity | constructor].
  - eexists p, _. split; [reflexivity|]. split.
    + split; cbn [pending sent]; [reflexivity | now rewrite app_nil_r].
    + destruct p as [b|]; [right; now exists b|].
      left. split; [reflexivity|]. cbn [firstn]. rewrite take_0.
      now repeat constructor.
Qed.

Lemma decode_run (b : list Byte.byte) (ch : channel) :
  (exists t, Utf8.decode b = Some t /\ decode b ch = (Return t, ch))
  \/ (Utf8.valid b = false /\ decode b ch = (Raise UnicodeDecodeError, ch)).
Proof.
  unfold decode, lift_option, Utf8.decode.
  destruct (Utf8.valid b); [left; eauto | right; auto].
Qed.

Lemma prompted_later (l : list (option (list Byte.byte))) (j1 j2 : nat) :
  prompted (take j2 (drop j1 l)) -> prompted (take (j1 + j2) l).
Proof.
  intros H. rewrite <- take_take_drop. apply Exists_app. now right.
Qed.

Lemma prompted_sooner (l : list (option (list Byte.byte))) (j1 j2 : nat) :
  prompted (take j1 l) -> prompted (take (j1 + j2) l).
Proof.
  intros H. rewrite <- take_take_drop. apply Exists_app. now left.
Qed.

Lemma prompted_head (l : list (option (list Byte.byte)))
    (b : list Byte.byte) (t : string) :
  take 1 l = [Some b] -> Utf8.decode b = Some t ->
  Py.contains "assword:" t = true ->
  prompted (take 1 l).
Proof.
  intros -> Hd Hc. apply Exists_cons_hd. now exists b, t.
Qed.

(** The banner loop: at most two polls a turn, and the password once for
    every prompt. *)
Lemma banner_polls_trace (n : nat) (password : string) :
  forall (banner : string) (ch : channel) o (ch' : channel),
  banner_polls n password banner ch = (o, ch') ->
  exists j k,
    (j <= 2 * n)%nat /\ (k <= n)%nat
    /\ trace ch ch' j (repeat (password +:+ LF) k)
    /\ (k <> O -> prompted (take j (pending ch))).
Proof.
  induction n as [|n IH]; intros banner ch o ch' H.
  - cbn [banner_polls] in H. unfold ret in H. inversion H. subst.
    exists O, O. split; [lia|]. split; [lia|]. split; [apply trace_refl|].
    intros E. now destruct E.
  - cbn [banner_polls] in H.
    destruct (poll_run ch) as (p & ch1 & Hpoll & Ht1 & Hp).
    rewrite (bind_return _ _ _ _ _ Hpoll) in H.
    (* going on with the next turn from a later state *)
    assert (Hnext : forall banner0 (ch2 : channel) (j0 k0 : nat),
      (j0 <= 2)%nat -> (k0 <= 1)%nat ->
      trace ch ch2 j0 (repeat (password +:+ LF) k0) ->
      (k0 <> O -> prompted (take j0 (pending ch))) ->
      banner_polls n password banner0 ch2 = (o, ch') ->
      exists j k,
        (j <= 2 * S n)%nat /\ (k <= S n)%nat
        /\ trace ch ch' j (repeat (password +:+ LF) k)
        /\ (k <> O -> prompted (take j (pending ch)))).
    { intros banner0 ch2 j0 k0 Hj0 Hk0 Ht0 Hpr0 Hrun.
      apply IH in Hrun as (j & k & Hj & Hk & Ht & Hpr).
      exists (j0 + j)%nat, (k0 + k)%nat.
      split; [lia|]. split; [lia|]. split.
      - rewrite repeat_app. now apply (trace_trans _ ch2).
      - intros Hne. destruct k0 as [|k0].
        + apply prompted_later. destruct Ht0 as [Hp0 _]. rewrite <- Hp0.
          apply Hpr. exact Hne.
        + apply prompted_sooner. apply Hpr0. discriminate. }
    (* stopping here *)
    assert (Hstop : forall (j0 k0 : nat),
      (j0 <= 2)%nat -> (k0 <= 1)%nat ->
      trace ch ch' j0 (repeat (password +:+ LF) k0) ->
      (k0 <> O -> prompted (take j0 (pending ch))) ->
      exists j k,
        (j <= 2 * S n)%nat /\ (k <= S n)%nat
        /\ trace ch ch' j (repeat (password +:+ LF) k)
        /\ (k <> O -> prompted (take j (pending ch)))).
    { intros j0 k0 Hj0 Hk0 Ht0 Hpr0. exists j0, k0.
      split; [lia|]. split; [lia|]. now split. }
    assert (Hnone : O <> O -> prompted (take 1 (pending ch)))
      by (intros E; now destruct E).
    destruct Hp as [[-> _]|(b & -> & Hhead)].
    { apply (Hnext banner ch1 1%nat O); [lia | lia | exact Ht1 | exact Hnone | exact H]. }
    destruct (decode_run b ch1) as [(t & Hdec & Hrun)|[_ Hrun]].
    2:{ rewrite (bind_raise _ _ _ _ _ Hrun) in H. inversion H. subst.
        apply (Hstop 1%nat O); [lia | lia | exact Ht1 | exact Hnone]. }
    rewrite (bind_return _ _ _ _ _ Hrun) in H.
    destruct (Py.contains "Connection" t).
    { unfold ret in H. inversion H. subst. apply (Hstop 1%nat O); [lia | lia | exact Ht1 | exact Hnone]. }
    destruct (Py.contains "assword:" t) eqn:Hpw.
    2:{ apply (Hnext (banner +:+ t) ch1 1%nat O);
          [lia | lia | exact Ht1 | exact Hnone | exact H]. }
    unfold bind at 1 in H. unfold send at 1 in H.
    set (ch2 := {| pending := pending ch1; sent := sent ch1 ++ [password +:+ LF] |})
      in H.
    assert (Ht2 : trace ch ch2 1 (repeat (password +:+ LF) 1)).
    { change 1%nat with (1 + 0)%nat at 1.
      change (repeat (password +:+ LF) 1) with ([] ++ [password +:+ LF]).
      apply (trace_trans _ ch1); [exact Ht1 | apply trace_send]. }
    assert (Hpr1 : prompted (take 1 (pending ch)))
      by (now apply (prompted_head _ b t)).
    destruct (poll_run ch2) as (q & ch3 & Hpoll2 & Ht3 & Hq).
    rewrite (bind_return _ _ _ _ _ Hpoll2) in H.
    assert (Ht13 : trace ch ch3 2 (repeat (password +:+ LF) 1)).
    { change 2%nat with (1 + 1)%nat.
      rewrite <- (app_nil_r (repeat _ 1)).
      now apply (trace_trans _ ch2). }
    assert (Hpr2 : 1%nat <> O -> prompted (take 2 (pending ch))).
    { intros _. change 2%nat with (1 + 1)%nat. now apply prompted_sooner. }
    destruct Hq as [[-> _]|(b' & -> & _)].
    { apply (Hnext (banner +:+ t) ch3 2%nat 1%nat);
        [lia | lia | exact Ht13 | exact Hpr2 | exact H]. }
    destruct (decode_run b' ch3) as [(t' & Hdec' & Hrun')|[_ Hrun']].
    + rewrite (bind_return _ _ _ _ _ Hrun') in H.
      apply (Hnext ((banner +:+ t) +:+ t') ch3 2%nat 1%nat);
        [lia | lia | exact Ht13 | exact Hpr2 | exact H].
    + rewrite (bind_raise _ _ _ _ _ Hrun') in H. inversion H. subst.
      apply (Hstop 2%nat 1%nat); [lia | lia | exact Ht13 | exact Hpr2].
Qed.

Lemma confirm_polls_trace (n : nat) :
  forall (prompt : string) (ch : channel) o (ch' : channel),
  confirm_polls n prompt ch = (o, ch') ->
  exists j, (j <= n)%nat /\ trace ch ch' j [].
Proof.
  induction n as [|n IH]; intros prompt ch o ch' H; cbn [confirm_polls] in H.
  - unfold ret in H. inversion H. subst. exists O. split; [lia | apply trace_refl].
  - destruct (poll_run ch) as (p & ch1 & Hpoll & Ht1 & _).
    rewrite (bind_return _ _ _ _ _ Hpoll) in H.
    assert (Hnext : forall prompt0,
      confirm_polls n prompt0 ch1 = (o, ch') ->
      exists j, (j <= S n)%nat /\ trace ch ch' j []).
    { intros prompt0 Hrun. apply IH in Hrun as (j & Hj & Ht).
      exists (1 + j)%nat. split; [lia|].
      change (@nil string) with (@nil string ++ []).
      now apply (trace_trans _ ch1). }
    destruct p as [b|]; [|now apply (Hnext prompt)].
    destruct (decode_run b ch1) as [(t & _ & Hrun)|[_ Hrun]].
    + rewrite (bind_return _ _ _ _ _ Hrun) in H. now apply (Hnext (prompt +:+ t)).
    + rewrite (bind_raise _ _ _ _ _ Hrun) in H. inversion H. subst.
      exists 1%nat. split; [lia | exact Ht1].
Qed.

(** The channel after [receive]. *)
Lemma receive_trace (command password : string) (ch : channel) o (ch' : channel) :
  receive command password ch = (o, ch') ->
  exists j k i,
    (j <= 24)%nat /\ (k <= 3)%nat /\ (i <= 6)%nat
    /\ trace ch ch' j
         ([command +:+ LF] ++ repeat (password +:+ LF) k ++ repeat LF i)
    /\ (k <> O -> prompted (take j (pending ch))).
Proof.
  unfold receive. unfold bind at 1. unfold send at 1.
  set (ch0 := {| pending := pending ch; sent := sent ch ++ [command +:+ LF] |}).
  assert (Ht0 : trace ch ch0 0 [command +:+ LF]) by apply trace_send.
  unfold bind at 1.
  destruct (banner_polls 3 password "" ch0) as [r chb] eqn:Hb.
  apply banner_polls_trace in Hb as (j & k & Hj & Hk & Htb & Hpr).
  cbn [pending ch0] in Hpr.
  assert (Hstop : trace ch chb j
            ([command +:+ LF] ++ repeat (password +:+ LF) k ++ repeat LF 0)).
  { cbn [repeat]. rewrite app_nil_r.
    change j with (0 + j)%nat. now apply (trace_trans _ ch0). }
  destruct r as [[buffer|banner]|e].
  - unfold ret. intros H. inversion H. subst.
    exists j, k, O. split; [lia|]. split; [lia|]. split; [lia|]. now split.
  - destruct (Store.is_empty banner).
    + unfold ret. intros H. inversion H. subst.
      exists j, k, O. split; [lia|]. split; [lia|]. split; [lia|]. now split.
    + destruct (retry_loop_spec 6 chb)
        as (i & j1 & j0 & ex & out & Hloop & Hi & _ & (Hj1 & _) & _).
      rewrite Hloop. intros H. inversion H. subst.
      exists (j + j1)%nat, k, i.
      split; [lia|]. split; [lia|]. split; [lia|]. split.
      * change (?a :: repeat ?x k ++ ?l) with ([a] ++ repeat x k ++ l).
        rewrite (app_assoc [command +:+ LF]).
        apply (trace_trans _ chb).
        -- cbn [repeat] in Hstop. now rewrite app_nil_r in Hstop.
        -- split; reflexivity.
      * intros Hne. apply prompted_sooner. now apply Hpr.
  - intros H. inversion H. subst.
    exists j, k, O. split; [lia|]. split; [lia|]. split; [lia|]. now split.
Qed.

(** The channel after the disconnect sequence of [connect]. *)
Lemma disconnect_trace (ch : channel) o (ch' : channel) :
  (send escape ;;
   send ("disco 1" +:+ LF) ;;
   prompt <- confirm_polls 2 "" ;;
   if Py.contains "[confirm]" prompt then
     send LF ;;
     p <- poll ;;
     match p with
     | None => ret tt
     | Some buffer => _ <- decode buffer ;; ret tt
     end
   else ret tt)%py ch = (o, ch') ->
  exists j msgs, (j <= 3)%nat /\ leave msgs /\ trace ch ch' j msgs.
Proof.
  unfold bind at 1. unfold send at 1.
  unfold bind at 1. unfold send at 1. cbn [pending sent].
  set (ch2 := {| pending := pending ch;
                 sent := (sent ch ++ [escape]) ++ ["disco 1" +:+ LF] |}).
  assert (Ht2 : trace ch ch2 0 [escape; "disco 1" +:+ LF]).
  { split; cbn [pending sent ch2]; [now rewrite drop_0 | now rewrite <- app_assoc]. }
  unfold bind at 1.
  destruct (confirm_polls 2 "" ch2) as [r ch3] eqn:Hc.
  apply confirm_polls_trace in Hc as (j & Hj & Ht3).
  assert (Ht13 : trace ch ch3 j [escape; "disco 1" +:+ LF]).
  { change j with (0 + j)%nat.
    rewrite <- (app_nil_r [escape; _]). now apply (trace_trans _ ch2). }
  assert (Hstop : (Return tt, ch3) = (o, ch') \/ (exists e, (Raise e, ch3) = (o, ch')) ->
                  exists j msgs, (j <= 3)%nat /\ leave msgs /\ trace ch ch' j msgs).
  { intros [H|[e H]]; inversion H; subst;
      exists j, [escape; "disco 1" +:+ LF];
      (split; [lia|]); (split; [right; now left | exact Ht13]). }
  destruct r as [prompt|e]; [|intros H; apply Hstop; eauto].
  destruct (Py.contains "[confirm]" prompt); [|unfold ret; intros H; now apply Hstop; left].
  unfold bind at 1. unfold send at 1.
  set (ch4 := {| pending := pending ch3; sent := sent ch3 ++ [LF] |}).
  assert (Ht4 : trace ch ch4 j [escape; "disco 1" +:+ LF; LF]).
  { change j with (0 + j)%nat at 1. rewrite <- (Nat.add_0_r (0 + j)).
    change [escape; "disco 1" +:+ LF; LF] with ([escape; "disco 1" +:+ LF] ++ [LF]).
    apply (trace_trans _ ch3); [exact Ht13 | apply trace_send]. }
  destruct (poll_run ch4) as (p & ch5 & Hpoll & Ht5 & _).
  rewrite (bind_return _ _ _ _ _ Hpoll).
  assert (Ht15 : trace ch ch5 (j + 1) [escape; "disco 1" +:+ LF; LF]).
  { rewrite <- (app_nil_r [escape; _; _]). now apply (trace_trans _ ch4). }
  assert (Hend : forall (r : outcome unit), (r, ch5) = (o, ch') ->
                 exists j msgs, (j <= 3)%nat /\ leave msgs /\ trace ch ch' j msgs).
  { intros r0 H. inversion H. subst.
    exists (j + 1)%nat, [escape; "disco 1" +:+ LF; LF].
    split; [lia|]. split; [right; now right | exact Ht15]. }
  destruct p as [b|]; [|unfold ret; apply Hend].
  destruct (decode_run b ch5) as [(t & _ & Hrun)|[_ Hrun]].
  - rewrite (bind_return _ _ _ _ _ Hrun). unfold ret. apply Hend.
  - rewrite (bind_raise _ _ _ _ _ Hrun). apply Hend.
Qed.

(** The channel after [connect]. *)
Lemma connect_trace (hostname username password line : string)
    (ch : channel) o (ch' : channel) :
  connect hostname username password line ch = (o, ch') ->
  exists j k i tail,
    (j <= 27)%nat /\ (k <= 3)%nat /\ (i <= 6)%nat /\ leave tail
    /\ trace ch ch' j
         ([ssh_command hostname line] ++ repeat (password +:+ LF) k
          ++ repeat LF i ++ tail)
    /\ (k <> O -> prompted (take j (pending ch))).
Proof.
  unfold connect, ssh_command. unfold bind at 1.
  destruct (receive ("ssh -p " +:+ line +:+ " " +:+ hostname) password ch)
    as [r ch1] eqn:Hr.
  apply receive_trace in Hr as (j & k & i & Hj & Hk & Hi & Ht & Hpr).
  rewrite !append_assoc in Ht.
  assert (Hstop : forall (r0 : outcome string), (r0, ch1) = (o, ch') ->
    exists j k i tail,
      (j <= 27)%nat /\ (k <= 3)%nat /\ (i <= 6)%nat /\ leave tail
      /\ trace ch ch' j
           (["ssh -p " +:+ line +:+ " " +:+ hostname +:+ LF]
            ++ repeat (password +:+ LF) k ++ repeat LF i ++ tail)
      /\ (k <> O -> prompted (take j (pending ch)))).
  { intros r0 H. inversion H. subst. exists j, k, i, [].
    split; [lia|]. split; [lia|]. split; [lia|]. split; [now left|].
    rewrite app_nil_r. now split. }
  destruct r as [[c output]|e]; [|apply Hstop].
  cbn [snd]. unfold bind at 1.
  destruct (Store.is_empty output); [unfold ret; apply Hstop|].
  destruct (negb (Py.contains "Connection" output)); [|unfold ret; apply Hstop].
  match goal with
  | |- context [match ?m ch1 with _ => _ end] =>
      destruct (m ch1) as [r2 ch2] eqn:Hd
  end.
  apply disconnect_trace in Hd as (j2 & tail & Hj2 & Hleave & Ht2).
  intros H.
  assert (Hch : ch' = ch2) by (destruct r2; unfold ret in H; now inversion H).
  subst ch'.
  exists (j + j2)%nat, k, i, tail.
  split; [lia|]. split; [lia|]. split; [lia|]. split; [exact Hleave|]. split.
  - rewrite !app_assoc. apply (trace_trans _ ch1); [|exact Ht2].
    now rewrite <- !app_assoc.
  - intros Hne. apply prompted_sooner. now apply Hpr.
Qed.

End ChannelFacts.

(** X15: everything [connect] does to the channel of a line, whether it
    returns or raises: it makes at most 27 polls and sends, in this
    order, the [ssh] command, the password at most three times, at most
    six bare newlines, and then nothing, or the escape and [disco 1], or
    these and a newline to confirm.  It sends the password only if one
    of its polls has found a chunk with a password prompt. *)
Theorem connect_channel_use (hostname username password line : string)
    (ch ch' : DoOobDevice.channel) (o : outcome string) :
  DoOobDevice.connect hostname username password line ch = (o, ch') ->
  exists (j k i : nat) (tail : list string),
    (j <= 27)%nat /\ (k <= 3)%nat /\ (i <= 6)%nat /\ ConsoleMore.leave tail
    /\ DoOobDevice.pending ch' = drop j (DoOobDevice.pending ch)
    /\ DoOobDevice.sent ch'
       = DoOobDevice.sent ch
         ++ [ConsoleMore.ssh_command hostname line]
         ++ repeat (password +:+ DoOobDevice.LF) k
         ++ repeat DoOobDevice.LF i ++ tail
    /\ (k <> O -> ConsoleMore.prompted (take j (DoOobDevice.pending ch))).
Proof.
  intros H. apply connect_trace in H
    as (j & k & i & tail & Hj & Hk & Hi & Hl & [Hp Hs] & Hpr).
  exists j, k, i, tail. auto 10.
Qed.

Lemma connect_channel_use_witness :
  exists (j k i : nat) (tail : list string),
    (j <= 27)%nat /\ (k <= 3)%nat /\ (i <= 6)%nat /\ ConsoleMore.leave tail
    /\ DoOobDevice.pending
         (snd (DoOobDevice.connect "r1" "admin" "pw" "2005"
                 (DoOobDevice.fresh Scenario.polls_connection_after_password)))
       = drop j (DoOobDevice.pending
                   (DoOobDevice.fresh Scenario.polls_connection_after_password))
    /\ DoOobDevice.sent
         (snd (DoOobDevice.connect "r1" "admin" "pw" "2005"
                 (DoOobDevice.fresh Scenario.polls_connection_after_password)))
       = DoOobDevice.sent
           (DoOobDevice.fresh Scenario.polls_connection_after_password)
         ++ [ConsoleMore.ssh_command "r1" "2005"]
         ++ repeat ("pw" +:+ DoOobDevice.LF) k
         ++ repeat DoOobDevice.LF i ++ tail
    /\ (k <> O ->
        ConsoleMore.prompted
          (take j (DoOobDevice.pending
                     (DoOobDevice.fresh Scenario.polls_connection_after_password)))).
Proof.
  apply (connect_channel_use "r1" "admin" "pw" "2005"
           (DoOobDevice.fresh Scenario.polls_connection_after_password)
           (snd (DoOobDevice.connect "r1" "admin" "pw" "2005"
                   (DoOobDevice.fresh Scenario.polls_connection_after_password)))
           (fst (DoOobDevice.connect "r1" "admin" "pw" "2005"
                   (DoOobDevice.fresh Scenario.polls_connection_after_password)))).
  vm_compute. reflexivity.
Defined.

(** The run of the witness: the password once, one bare newline, and the
    disconnect. *)
Example connect_after_password_run :
  DoOobDevice.connect "r1" "admin" "pw" "2005"
    (DoOobDevice.fresh Scenario.polls_connection_after_password)
  = (Return "x",
     {| DoOobDevice.pending := [];
        DoOobDevice.sent :=
          [ConsoleMore.ssh_command "r1" "2005"; "pw" +:+ DoOobDevice.LF;
           DoOobDevice.LF; DoOobDevice.escape; "disco 1" +:+ DoOobDevice.LF] |}).
Proof. vm_compute. reflexivity. Qed.

(** ** How [receive] and [connect] end *)

Section OutcomeFacts.
Import DoOobDevice ConsoleSpec ConsoleMore.

Lemma dirty_head (l : list (option (list Byte.byte))) (b : list Byte.byte) :
  take 1 l = [Some b] -> Utf8.valid b = false -> ~ utf8_clean l.
Proof.
  intros Hh Hv Hc. rewrite <- (take_drop 1 l), Hh in Hc.
  apply Forall_app in Hc as [Hc _]. inversion Hc as [|? ? Hb _]; subst.
  congruence.
Qed.

Lemma dirty_later (ch ch1 : channel) (j : nat) (msgs : list string) :
  trace ch ch1 j msgs -> ~ utf8_clean (pending ch1) -> ~ utf8_clean (pending ch).
Proof.
  intros [Hp _] Hd Hc. apply Hd. rewrite Hp. now apply Forall_drop.
Qed.

(** What a decoding that fails says. *)
Lemma decode_raises (b : list Byte.byte) (ch ch1 : channel) (e : exn)
    (ch' : channel) :
  take 1 (pending ch) = [Some b] ->
  decode b ch1 = (Raise e, ch') ->
  e = UnicodeDecodeError /\ ~ utf8_clean (pending ch).
Proof.
  intros Hh H.
  destruct (decode_run b ch1) as [(t & _ & Hrun)|[Hv Hrun]];
    rewrite Hrun in H; inversion H; subst.
  split; [reflexivity | now apply (dirty_head _ b)].
Qed.

Lemma banner_polls_raises (n : nat) (password : string) :
  forall (banner : string) (ch : channel) (e : exn) (ch' : channel),
  banner_polls n password banner ch = (Raise e, ch') ->
  e = UnicodeDecodeError /\ ~ utf8_clean (pending ch).
Proof.
  induction n as [|n IH]; intros banner ch e ch' H; cbn [banner_polls] in H;
    [discriminate|].
  destruct (poll_run ch) as (p & ch1 & Hpoll & Ht1 & Hp).
  rewrite (bind_return _ _ _ _ _ Hpoll) in H.
  assert (Hnext : forall banner0 (ch2 : channel) j msgs,
    trace ch ch2 j msgs ->
    banner_polls n password banner0 ch2 = (Raise e, ch') ->
    e = UnicodeDecodeError /\ ~ utf8_clean (pending ch)).
  { intros banner0 ch2 j msgs Ht Hrun. apply IH in Hrun as [-> Hd].
    split; [reflexivity | now apply (dirty_later ch ch2 j msgs)]. }
  destruct Hp as [[-> _]|(b & -> & Hhead)]; [now apply (Hnext banner ch1 1%nat [])|].
  apply bind_raise_inv in H as [H|(t & c1 & Hdec & H)];
    [now apply (decode_raises b ch ch1 e ch')|].
  assert (c1 = ch1) as ->.
  { destruct (decode_run b ch1) as [(t0 & _ & Hrun)|[_ Hrun]];
      rewrite Hrun in Hdec; now inversion Hdec. }
  destruct (Py.contains "Connection" t); [discriminate|].
  destruct (Py.contains "assword:" t);
    [|now apply (Hnext (banner +:+ t) ch1 1%nat [])].
  unfold bind at 1 in H. unfold send at 1 in H.
  set (ch2 := {| pending := pending ch1; sent := sent ch1 ++ [password +:+ LF] |})
    in H.
  assert (Ht2 : trace ch ch2 (1 + 0) ([] ++ [password +:+ LF]))
    by (apply (trace_trans _ ch1); [exact Ht1 | apply trace_send]).
  destruct (poll_run ch2) as (q & ch3 & Hpoll2 & Ht3 & Hq).
  rewrite (bind_return _ _ _ _ _ Hpoll2) in H.
  pose proof (trace_trans _ _ _ _ _ _ _ Ht2 Ht3) as Ht13.
  destruct Hq as [[-> _]|(b' & -> & Hhead')]; [now apply (Hnext _ _ _ _ Ht13 H)|].
  apply bind_raise_inv in H as [H|(t' & c3 & Hdec' & H)].
  - apply (decode_raises b' ch2 ch3 e ch' Hhead') in H as [-> Hd].
    split; [reflexivity | now apply (dirty_later ch ch2 _ _ Ht2)].
  - assert (c3 = ch3) as ->.
    { destruct (decode_run b' ch3) as [(t0 & _ & Hrun)|[_ Hrun]];
        rewrite Hrun in Hdec'; now inversion Hdec'. }
    now apply (Hnext _ _ _ _ Ht13 H).
Qed.

Lemma confirm_polls_raises (n : nat) :
  forall (prompt : string) (ch : channel) (e : exn) (ch' : channel),
  confirm_polls n prompt ch = (Raise e, ch') ->
  e = UnicodeDecodeError /\ ~ utf8_clean (pending ch).
Proof.
  induction n as [|n IH]; intros prompt ch e ch' H; cbn [confirm_polls] in H;
    [discriminate|].
  destruct (poll_run ch) as (p & ch1 & Hpoll & Ht1 & Hp).
  rewrite (bind_return _ _ _ _ _ Hpoll) in H.
  assert (Hnext : forall prompt0,
    confirm_polls n prompt0 ch1 = (Raise e, ch') ->
    e = UnicodeDecodeError /\ ~ utf8_clean (pending ch)).
  { intros prompt0 Hrun. apply IH in Hrun as [-> Hd].
    split; [reflexivity | now apply (dirty_later ch ch1 1%nat [])]. }
  destruct Hp as [[-> _]|(b & -> & Hhead)]; [now apply (Hnext prompt)|].
  apply bind_raise_inv in H as [H|(t & c1 & Hdec & H)];
    [now apply (decode_raises b ch ch1 e ch')|].
  assert (c1 = ch1) as ->.
  { destruct (decode_run b ch1) as [(t0 & _ & Hrun)|[_ Hrun]];
      rewrite Hrun in Hdec; now inversion Hdec. }
  now apply (Hnext (prompt +:+ t)).
Qed.

Lemma receive_raises (command password : string) (ch : channel) (e : exn)
    (ch' : channel) :
  receive command password ch = (Raise e, ch') ->
  e = UnicodeDecodeError /\ ~ utf8_clean (pending ch).
Proof.
  unfold receive. unfold bind at 1. unfold send at 1.
  intros H. apply bind_raise_inv in H as [H|(r & chb & _ & H)].
  - now apply banner_polls_raises in H.
  - destruct r as [buffer|banner]; [discriminate|].
    destruct (Store.is_empty banner); [discriminate|].
    destruct (retry_loop_spec 6 chb) as (i & j1 & j0 & ex & out & Hloop & _).
    rewrite Hloop in H. discriminate.
Qed.

Lemma connect_raises (hostname username password line : string)
    (ch : channel) (e : exn) (ch' : channel) :
  connect hostname username password line ch = (Raise e, ch') ->
  e = UnicodeDecodeError /\ ~ utf8_clean (pending ch).
Proof.
  unfold connect. intros H.
  apply bind_raise_inv in H as [H|(r & ch1 & Hr & H)];
    [now apply receive_raises in H|].
  apply receive_trace in Hr as (j & k & i & _ & _ & _ & Ht & _).
  apply bind_raise_inv in H as [H|(u & ch2 & _ & H)]; [|discriminate].
  destruct (Store.is_empty (snd r)); [discriminate|].
  destruct (negb (Py.contains "Connection" (snd r))); [|discriminate].
  unfold bind at 1 in H. unfold send at 1 in H.
  unfold bind at 1 in H. unfold send at 1 in H. cbn [pending sent] in H.
  set (ch3 := {| pending := pending ch1;
                 sent := (sent ch1 ++ [escape]) ++ ["disco 1" +:+ LF] |}) in H.
  assert (Ht3 : trace ch1 ch3 0 [escape; "disco 1" +:+ LF]).
  { split; cbn [pending sent ch3]; [now rewrite drop_0 | now rewrite <- app_assoc]. }
  pose proof (trace_trans _ _ _ _ _ _ _ Ht Ht3) as Ht13.
  apply bind_raise_inv in H as [H|(prompt & ch4 & Hc & H)].
  { apply confirm_polls_raises in H as [-> Hd].
    split; [reflexivity | now apply (dirty_later _ _ _ _ Ht13)]. }
  apply confirm_polls_trace in Hc as (j4 & _ & Ht4).
  pose proof (trace_trans _ _ _ _ _ _ _ Ht13 Ht4) as Ht14.
  destruct (Py.contains "[confirm]" prompt); [|discriminate].
  unfold bind at 1 in H. unfold send at 1 in H.
  set (ch5 := {| pending := pending ch4; sent := sent ch4 ++ [LF] |}) in H.
  pose proof (trace_trans _ _ _ _ _ _ _ Ht14 (trace_send ch4 LF)) as Ht15.
  fold ch5 in Ht15.
  destruct (poll_run ch5) as (p & ch6 & Hpoll & Ht6 & Hp).
  rewrite (bind_return _ _ _ _ _ Hpoll) in H.
  destruct Hp as [[-> _]|(b & -> & Hhead)]; [discriminate|].
  apply bind_raise_inv in H as [H|(t & c & _ & H)]; [|discriminate].
  apply (decode_raises b ch5 ch6 e ch' Hhead) in H as [-> Hd].
  split; [reflexivity | now apply (dirty_later _ _ _ _ Ht15)].
Qed.

(** The text and the [return] statement of [receive]. *)
Lemma banner_polls_connection_text (n : nat) (password : string) :
  forall (banner : string) (ch : channel) (buffer : string) (ch' : channel),
  banner_polls n password banner ch = (Return (inl buffer), ch') ->
  Py.contains "Connection" buffer = true.
Proof.
  induction n as [|n IH]; intros banner ch buffer ch' H; cbn [banner_polls] in H;
    [discriminate|].
  apply bind_inv in H as (p & ch1 & _ & H).
  destruct p as [b|]; [|now apply IH in H].
  apply bind_inv in H as (t & c1 & _ & H).
  destruct (Py.contains "Connection" t) eqn:Hc.
  { unfold ret in H. inversion H. now subst. }
  destruct (Py.contains "assword:" t); [|now apply IH in H].
  apply bind_inv in H as (u & c2 & _ & H).
  apply bind_inv in H as (q & c3 & _ & H).
  destruct q as [b'|]; [|now apply IH in H].
  apply bind_inv in H as (t' & c4 & _ & H). now apply IH in H.
Qed.

Lemma receive_closed_with (command password : string) (ch : channel)
    (c : closed) (output : string) (ch' : channel) :
  receive command password ch = (Return (c, output), ch') ->
  closed_with c output.
Proof.
  unfold receive. intros H.
  apply bind_inv in H as (u & ch0 & _ & H).
  apply bind_inv in H as (r & chb & Hb & H).
  destruct r as [buffer|banner].
  - unfold ret in H. inversion H. subst.
    now apply banner_polls_connection_text in Hb.
  - destruct (Store.is_empty banner).
    + unfold ret in H. now inversion H.
    + destruct (retry_loop_spec 6 chb)
        as (i & j1 & j0 & ex & out & Hloop & _ & _ & _ & _ & _ & Hex).
      rewrite Hloop in H. inversion H. subst.
      destruct Hex as [[-> Hc]|(-> & Hc & _)]; exact Hc.
Qed.

(** A line on which the three banner polls find nothing. *)
Lemma banner_polls_silent (n : nat) (password banner : string) :
  forall ch : channel,
  silent (take n (pending ch)) ->
  banner_polls n password banner ch
  = (Return (inr banner),
     {| pending := drop n (pending ch); sent := sent ch |}).
Proof.
  induction n as [|n IH]; intros ch Hs; cbn [banner_polls].
  - unfold ret. now rewrite drop_0, channel_eta.
  - unfold bind at 1. unfold poll at 1.
    destruct ch as [[|p rest] snt]; cbn [pending sent firstn skipn] in *.
    + rewrite (IH {| pending := []; sent := snt |}); cbn [pending sent].
      * now rewrite drop_nil.
      * rewrite take_nil. constructor.
    + inversion Hs as [|? ? Hp Hrest]; subst.
      now rewrite (IH {| pending := rest; sent := snt |}).
Qed.

End OutcomeFacts.

(** X17: what [receive] returns, by the [return] statement it takes: a
    chunk with ["Connection"] for an inactive line, the empty text when
    there is no banner, a text with ["ogin:"] on success, and a text
    without ["ogin:"] after the retry loop has given up. *)
Theorem receive_return_text (command password : string)
    (ch ch' : DoOobDevice.channel) (c : DoOobDevice.closed) (output : string) :
  DoOobDevice.receive command password ch = (Return (c, output), ch') ->
  ConsoleMore.closed_with c output.
Proof. apply receive_closed_with. Qed.

Lemma receive_return_text_witness :
  ConsoleMore.closed_with DoOobDevice.Success "r1 login:".
Proof.
  apply (receive_return_text "ssh -p 2005 r1" "pw"
           (DoOobDevice.fresh [DoOobDevice.chunk "Welcome"; None; None;
                               None; DoOobDevice.chunk "r1 login:"])
           {| DoOobDevice.pending := [];
              DoOobDevice.sent := ["ssh -p 2005 r1" +:+ DoOobDevice.LF;
                                   DoOobDevice.LF] |}).
  vm_compute. reflexivity.
Defined.

(** X18: a silent line.  When the three banner polls find nothing,
    [connect] returns the empty text; it has sent the [ssh] command and
    nothing else -- no newline, no escape, no disconnect -- and has left
    what comes later unread. *)
Theorem connect_silent_line (hostname username password line : string)
    (ch : DoOobDevice.channel) :
  ConsoleMore.silent (take 3 (DoOobDevice.pending ch)) ->
  DoOobDevice.connect hostname username password line ch
  = (Return "",
     {| DoOobDevice.pending := drop 3 (DoOobDevice.pending ch);
        DoOobDevice.sent :=
          DoOobDevice.sent ch ++ [ConsoleMore.ssh_command hostname line] |}).
Proof.
  intros Hs. unfold DoOobDevice.connect, DoOobDevice.receive.
  unfold bind at 1. unfold bind at 1. unfold DoOobDevice.send at 1.
  unfold bind at 1.
  rewrite banner_polls_silent by exact Hs.
  cbn. unfold ConsoleMore.ssh_command. now rewrite !append_assoc.
Qed.

Lemma connect_silent_line_witness :
  DoOobDevice.connect "r1" "admin" "pw" "2005"
    (DoOobDevice.fresh [None; None; None; DoOobDevice.chunk "login:"])
  = (Return "",
     {| DoOobDevice.pending :=
          drop 3 (DoOobDevice.pending
                    (DoOobDevice.fresh [None; None; None;
                                        DoOobDevice.chunk "login:"]));
        DoOobDevice.sent :=
          DoOobDevice.sent
            (DoOobDevice.fresh [None; None; None; DoOobDevice.chunk "login:"])
          ++ [ConsoleMore.ssh_command "r1" "2005"] |}).
Proof.
  apply (connect_silent_line "r1" "admin" "pw" "2005"
           (DoOobDevice.fresh [None; None; None; DoOobDevice.chunk "login:"])).
  unfold ConsoleMore.silent. repeat constructor.
Defined.

(** ** [connect] with its session *)

Section LineFacts.
Import DoOobDevice DoOobLine LineSpec.
Variable s : session.
Hypothesis Hsound : sound s.
Local Open Scope py_scope.

Lemma agrees_ret {A} (a : A) : agrees (wret a) (ret a).
Proof. intros w Hw. now repeat split. Qed.

Lemma agrees_fail {A} : agrees (@wfail A DecodeError) (raise UnicodeDecodeError).
Proof. intros w Hw. now repeat split. Qed.

Lemma agrees_bind {A B} (m : W A) (m' : M channel A)
    (k : A -> W B) (k' : A -> M channel B) :
  agrees m m' -> (forall a, agrees (k a) (k' a)) ->
  agrees (wbind m k) (bind m' k').
Proof.
  intros Hm Hk w Hw. destruct (Hm w Hw) as (Hr & Hc & Hi).
  unfold wbind, bind.
  destruct (m w) as [[a|f] w1]; destruct (m' (channel_of w)) as [[a'|e] ch1];
    cbn [fst snd result_of] in *; try discriminate.
  - inversion Hr. subst a'. rewrite <- Hc. now apply Hk.
  - inversion Hr. subst f. now repeat split.
Qed.

Lemma agrees_try {A} (m h : W A) (m' h' : M channel A) :
  agrees m m' -> agrees h h' -> agrees (wtry m h) (try_except m' h').
Proof.
  intros Hm Hh w Hw. destruct (Hm w Hw) as (Hr & Hc & Hi).
  unfold wtry, try_except.
  destruct (m w) as [[a|f] w1]; destruct (m' (channel_of w)) as [[a'|e] ch1];
    cbn [fst snd result_of] in *; try discriminate.
  - inversion Hr. subst a'. now repeat split.
  - rewrite <- Hc. now apply Hh.
Qed.

Lemma agrees_send (msg : string) :
  agrees (DoOobLine.send s msg) (DoOobDevice.send msg).
Proof.
  intros w Hw. unfold DoOobLine.send, DoOobDevice.send.
  destruct Hsound as (_ & _ & Hsend). rewrite Hsend.
  now repeat split.
Qed.

Lemma agrees_poll : agrees DoOobLine.poll DoOobDevice.poll.
Proof.
  intros [[|r rest] snt] Hw; unfold DoOobLine.poll, DoOobDevice.poll, channel_of;
    cbn [readings wsent map pending sent].
  - now repeat split.
  - unfold intact in Hw. cbn [readings] in Hw.
    apply Forall_cons in Hw as [Hr Hrest].
    destruct r as [|b|]; [| |congruence]; now repeat split.
Qed.

Lemma agrees_decode (buffer : list Byte.byte) :
  agrees (DoOobLine.decode buffer) (DoOobDevice.decode buffer).
Proof.
  unfold DoOobLine.decode, DoOobDevice.decode, lift_option.
  destruct (Utf8.decode buffer); [apply agrees_ret | apply agrees_fail].
Qed.

Lemma agrees_banner_polls (n : nat) (password : string) :
  forall banner,
  agrees (DoOobLine.banner_polls s n password banner)
         (DoOobDevice.banner_polls n password banner).
Proof.
  induction n as [|n IH]; intros banner;
    cbn [DoOobLine.banner_polls DoOobDevice.banner_polls];
    [apply agrees_ret|].
  apply agrees_bind; [apply agrees_poll|]. intros [buffer|]; [|apply IH].
  apply agrees_bind; [apply agrees_decode|]. intros t.
  destruct (Py.contains "Connection" t); [apply agrees_ret|].
  destruct (Py.contains "assword:" t); [|apply IH].
  apply agrees_bind; [apply agrees_send|]. intros _.
  apply agrees_bind; [apply agrees_poll|]. intros [buffer'|]; [|apply IH].
  apply agrees_bind; [apply agrees_decode|]. intros t'. apply IH.
Qed.

Lemma agrees_retry_polls (n : nat) :
  forall output,
  agrees (DoOobLine.retry_polls n output) (DoOobDevice.retry_polls n output).
Proof.
  induction n as [|n IH]; intros output;
    cbn [DoOobLine.retry_polls DoOobDevice.retry_polls];
    [apply agrees_ret|].
  apply agrees_bind; [apply agrees_poll|]. intros p.
  apply agrees_bind.
  - destruct p as [buffer|]; [|apply agrees_ret].
    apply agrees_bind;
      [apply agrees_try; [apply agrees_decode | apply agrees_ret]|].
    intros t. destruct (Store.is_empty output); apply agrees_ret.
  - intros output'.
    destruct (Py.contains "ogin:" output'); [apply agrees_ret | apply IH].
Qed.

Lemma agrees_retry_loop (left : nat) :
  forall output,
  agrees (DoOobLine.retry_loop s left output) (DoOobDevice.retry_loop left output).
Proof.
  induction left as [|left IH]; intros output;
    cbn [DoOobLine.retry_loop DoOobDevice.retry_loop];
    [apply agrees_ret|].
  destruct (Store.is_empty output); [|apply agrees_ret].
  apply agrees_bind; [apply agrees_send|]. intros _.
  apply agrees_bind; [apply agrees_retry_polls|].
  intros [o|o]; [apply agrees_ret | apply IH].
Qed.

Lemma agrees_receive (command password : string) :
  agrees (DoOobLine.receive s command password)
         (DoOobDevice.receive command password).
Proof.
  unfold DoOobLine.receive, DoOobDevice.receive.
  apply agrees_bind; [apply agrees_send|]. intros _.
  apply agrees_bind; [apply agrees_banner_polls|].
  intros [buffer|banner]; [apply agrees_ret|].
  destruct (Store.is_empty banner); [apply agrees_ret | apply agrees_retry_loop].
Qed.

Lemma agrees_confirm_polls (n : nat) :
  forall prompt,
  agrees (DoOobLine.confirm_polls n prompt) (DoOobDevice.confirm_polls n prompt).
Proof.
  induction n as [|n IH]; intros prompt;
    cbn [DoOobLine.confirm_polls DoOobDevice.confirm_polls];
    [apply agrees_ret|].
  apply agrees_bind; [apply agrees_poll|]. intros [buffer|]; [|apply IH].
  apply agrees_bind; [apply agrees_decode|]. intros t. apply IH.
Qed.

(** The step [ssh.close()] that ends [connect]. *)
Lemma agrees_close {A} (m : W A) (m' : M channel A) :
  agrees m m' ->
  agrees (wbind (if close_ok s then wret tt else wfail TransportError)
            (fun _ => m)) m'.
Proof.
  intros Hm w Hw. destruct Hsound as (_ & Hclose & _). rewrite Hclose.
  unfold wbind, wret. now apply Hm.
Qed.

(** On a session in which no call of paramiko fails, [connect] is
    [connect] on the channel alone. *)
Lemma agrees_connect (hostname username password line : string) :
  agrees (DoOobLine.connect s hostname username password line)
         (DoOobDevice.connect hostname username password line).
Proof.
  unfold DoOobLine.connect, DoOobDevice.connect.
  destruct Hsound as (Hshell & _ & _). rewrite Hshell. cbn [negb].
  apply agrees_bind; [apply agrees_receive|]. intros r.
  apply agrees_bind; [|intros _; apply agrees_close, agrees_ret].
  destruct (Store.is_empty (snd r)); [apply agrees_ret|].
  destruct (negb (Py.contains "Connection" (snd r))); [|apply agrees_ret].
  apply agrees_bind; [apply agrees_send|]. intros _.
  apply agrees_bind; [apply agrees_send|]. intros _.
  apply agrees_bind; [apply agrees_confirm_polls|]. intros prompt.
  destruct (Py.contains "[confirm]" prompt); [|apply agrees_ret].
  apply agrees_bind; [apply agrees_send|]. intros _.
  apply agrees_bind; [apply agrees_poll|]. intros [buffer|]; [|apply agrees_ret].
  apply agrees_bind; [apply agrees_decode|]. intros _. apply agrees_ret.
Qed.

Lemma utf8_readings_clean (w : wire) :
  utf8_readings w -> ConsoleMore.utf8_clean (pending (channel_of w)).
Proof.
  unfold utf8_readings, ConsoleMore.utf8_clean, channel_of. cbn [pending].
  induction 1 as [|r rest Hr _ IH]; cbn [map]; constructor; [|exact IH].
  now destruct r.
Qed.

Lemma clean_utf8_readings (w : wire) :
  ConsoleMore.utf8_clean (pending (channel_of w)) -> utf8_readings w.
Proof.
  unfold utf8_readings, ConsoleMore.utf8_clean, channel_of. cbn [pending].
  induction (readings w) as [|r rest IH]; cbn [map]; intros H; constructor.
  - apply Forall_cons in H as [H _]. now destruct r.
  - apply Forall_cons in H as [_ H]. now apply IH.
Qed.

Lemma line_connect_outcome (hostname username password line : string)
    (w : wire) :
  intact w ->
  (forall f w',
     DoOobLine.connect s hostname username password line w = (inr f, w') ->
     f = DecodeError /\ ~ utf8_readings w)
  /\ (utf8_readings w ->
      exists output w',
        DoOobLine.connect s hostname username password line w
        = (inl output, w')).
Proof.
  intros Hw.
  destruct (agrees_connect hostname username password line w Hw) as (Hr & _ & _).
  destruct (DoOobDevice.connect hostname username password line (channel_of w))
    as [[out|e] ch'] eqn:Hold; cbn [fst result_of] in Hr.
  - split.
    + intros f w' H. rewrite H in Hr. discriminate.
    + intros _.
      destruct (DoOobLine.connect s hostname username password line w)
        as [[o|f] w']; [now exists o, w' | discriminate].
  - apply connect_raises in Hold as [-> Hdirty].
    split.
    + intros f w' H. rewrite H in Hr. cbn [fst] in Hr. inversion Hr.
      split; [reflexivity|]. intros Hc. apply Hdirty.
      now apply utf8_readings_clean.
    + intros Hc. exfalso. apply Hdirty. now apply utf8_readings_clean.
Qed.

End LineFacts.



(** A poll that fails, and a chunk that is not UTF-8. *)
Example connect_transport_failure :
  DoOobLine.connect
    {| DoOobLine.shell_ok := true;
       DoOobLine.send_ok := fun _ _ => true;
       DoOobLine.close_ok := true |}
    "r1" "admin" "pw" "2005"
    {| DoOobLine.readings := [DoOobLine.NotReady; DoOobLine.Broken];
       DoOobLine.wsent := [] |}
  = (inr DoOobLine.TransportError,
     {| DoOobLine.readings := [];
        DoOobLine.wsent := [ConsoleMore.ssh_command "r1" "2005"] |})
  /\ DoOobLine.connect
       {| DoOobLine.shell_ok := true;
          DoOobLine.send_ok := fun _ _ => true;
          DoOobLine.close_ok := true |}
       "r1" "admin" "pw" "2005"
       {| DoOobLine.readings := [DoOobLine.Chunk [Byte.xff]];
          DoOobLine.wsent := [] |}
     = (inr DoOobLine.DecodeError,
        {| DoOobLine.readings := [];
           DoOobLine.wsent := [ConsoleMore.ssh_command "r1" "2005"] |}).
Proof. vm_compute. split; reflexivity. Qed.

(** ** The rows of [show line] *)

Section RowFacts.
Import DoOobDevice.

(** The rotary column, seventh from the end, exists in a row of four
    columns or more: with four to six columns the negative index counts
    from the end of the row. *)
Lemma index_rotary {A} (data : list A) :
  (4 <= length data)%nat ->
  exists roty, Py.index data (Z.of_nat (length data) - 7) = Some roty.
Proof.
  intros Hlen. unfold Py.index.
  destruct (0 <=? Z.of_nat (length data) - 7) eqn:Hpos.
  - assert (Hlt : (Z.of_nat (length data) - 7 <? Z.of_nat (length data)) = true)
      by (apply Z.ltb_lt; lia).
    rewrite Hlt. cbn [andb].
    apply lookup_lt_is_Some. lia.
  - cbn [andb].
    assert (Hlo : (- Z.of_nat (length data) <=? Z.of_nat (length data) - 7) = true)
      by (apply Z.leb_le; lia).
    assert (Hneg : (Z.of_nat (length data) - 7 <? 0) = true)
      by (apply Z.ltb_lt; apply Z.leb_gt in Hpos; lia).
    rewrite Hlo, Hneg. cbn [andb].
    apply lookup_lt_is_Some. apply Z.leb_gt in Hpos. lia.
Qed.

Lemma index_first {A} (d0 : A) (rest : list A) :
  Py.index (d0 :: rest) 0 = Some d0.
Proof. unfold Py.index. cbn [length]. reflexivity. Qed.

Lemma index_second {A} (d0 d1 : A) (rest : list A) :
  Py.index (d0 :: d1 :: rest) 1 = Some d1.
Proof.
  unfold Py.index. cbn [length].
  assert (H : (1 <? Z.of_nat (S (S (length rest)))) = true)
    by (apply Z.ltb_lt; lia).
  rewrite H. reflexivity.
Qed.

Lemma line_row_index_error_iff (lines : gmap string string) (txtline : string) :
  fst (line_row lines txtline tt) = Raise IndexError
  <-> Py.contains "TTY" txtline = true
      /\ (length (row_columns txtline) < 4)%nat.
Proof.
  unfold line_row.
  destruct (Py.contains "TTY" txtline); [|split; [discriminate | intros [H _]; discriminate]].
  destruct (row_columns txtline) as [|d0 [|d1 [|d2 [|d3 rest]]]] eqn:Hdata.
  - cbn. split; [intros _; split; [reflexivity | lia] | reflexivity].
  - cbn. split; [intros _; split; [reflexivity | lia] | reflexivity].
  - cbn. split; [intros _; split; [reflexivity | lia] | reflexivity].
  - cbn. split; [intros _; split; [reflexivity | lia] | reflexivity].
  - split; [|intros [_ H]; cbn [length] in H; lia].
    destruct (index_rotary (d0 :: d1 :: d2 :: d3 :: rest)) as [roty Hr];
      [cbn [length]; lia|].
    cbv zeta. unfold bind at 1. rewrite index_first.
    cbn [lift_option ret].
    unfold bind at 1. rewrite index_second.
    cbn [lift_option ret].
    unfold bind at 1. rewrite Hr. cbn [lift_option ret].
    unfold bind at 1.
    destruct (Py.int (if String.eqb roty "-" then d1 else roty));
      cbn [lift_option ret raise]; [|discriminate].
    destruct (Py.contains "/" ("As" +:+ d0)); discriminate.
Qed.

(** Where an entry of the table comes from. *)
Lemma line_row_entries (lines lines' : gmap string string) (txtline : string)
    (u : unit) (id interface : string) :
  line_row lines txtline tt = (Return lines', u) ->
  lines' !! id = Some interface ->
  lines !! id = Some interface
  \/ exists tty n,
       Py.contains "TTY" txtline = true
       /\ Py.index (row_columns txtline) 0 = Some tty
       /\ interface = "As" +:+ tty
       /\ Py.contains "/" interface = true
       /\ id = Py.str (2000 + n).
Proof.
  unfold line_row.
  destruct (Py.contains "TTY" txtline);
    [|unfold ret; intros H; inversion H; subst; now left].
  intros H.
  apply bind_inv in H as (tty & u0 & H0 & H).
  apply bind_inv in H as (line & u1 & _ & H).
  apply bind_inv in H as (roty & u2 & _ & H).
  apply bind_inv in H as (n & u3 & _ & H).
  destruct (Py.index (row_columns txtline) 0) as [tty0|] eqn:Ht; [|discriminate].
  unfold lift_option, ret in H0. inversion H0. subst tty0 u0.
  destruct (Py.contains "/" ("As" +:+ tty)) eqn:Hs;
    unfold ret in H; inversion H; subst; [|now left].
  intros Hl. destruct (decide (id = Py.str (offset + n))) as [->|Hne].
  - rewrite lookup_insert_eq in Hl. inversion Hl. subst.
    right. exists tty, n. auto.
  - rewrite lookup_insert_ne in Hl by congruence. now left.
Qed.

Lemma line_rows_entries (rows : list string) :
  forall (lines lines' : gmap string string) (u : unit) (id interface : string),
  line_rows rows lines tt = (Return lines', u) ->
  lines' !! id = Some interface ->
  lines !! id = Some interface
  \/ exists row tty n,
       In row rows
       /\ Py.contains "TTY" row = true
       /\ Py.index (row_columns row) 0 = Some tty
       /\ interface = "As" +:+ tty
       /\ Py.contains "/" interface = true
       /\ id = Py.str (2000 + n).
Proof.
  induction rows as [|row rest IH]; intros lines lines' u id interface H Hl;
    cbn [line_rows] in H.
  - unfold ret in H. inversion H. subst. now left.
  - apply bind_inv in H as (lines1 & u1 & Hrow & H). destruct u1.
    destruct (IH _ _ _ _ _ H Hl) as [Hl1|(row0 & tty & n & Hin & Hrest)].
    + destruct (line_row_entries _ _ _ _ _ _ Hrow Hl1)
        as [Hl0|(tty & n & Hrest)]; [now left|].
      right. exists row, tty, n. split; [now left | exact Hrest].
    + right. exists row0, tty, n. split; [now right | exact Hrest].
Qed.

End RowFacts.

(** X19: a row of [show line] that contains [TTY] raises [IndexError]
    exactly when it has fewer than four columns.  From four columns on
    the rotary column [data[n_cols - 7]] always exists: with four to six
    columns the index is negative and counts from the end of the row. *)
Theorem line_row_index_error (lines : gmap string string) (txtline : string) :
  fst (DoOobDevice.line_row lines txtline tt) = Raise IndexError
  <-> Py.contains "TTY" txtline = true
      /\ (length (DoOobDevice.row_columns txtline) < 4)%nat.
Proof. apply line_row_index_error_iff. Qed.

Lemma line_row_index_error_witness :
  fst (DoOobDevice.line_row ∅ "  1 TTY 9600/9600" tt) = Raise IndexError.
Proof.
  apply (proj2 (line_row_index_error ∅ "  1 TTY 9600/9600")).
  split; [vm_compute; reflexivity | vm_compute; lia].
Defined.

(** With five columns the rotary column is read at index -2: the id of
    the row comes from its fourth column. *)
Example short_row_wraps :
  DoOobDevice.line_row ∅ "0/0/1 9 TTY 7 x" tt
  = (Return {[ "2007" := "As0/0/1" ]}, tt).
Proof. vm_compute. reflexivity. Qed.

(** X20: the table of console lines that [do_oob_device] builds from the
    rows of [show line].  Every entry comes from a row that contains
    [TTY]: the interface is [As] and the first column of that row and
    holds a slash, and the line id is the numeral of 2000 plus a number,
    which [int] reads back. *)
Theorem console_lines_entries (rows : list string)
    (lines : gmap string string) (id interface : string) :
  DoOobDevice.console_lines rows tt = (Return lines, tt) ->
  lines !! id = Some interface ->
  exists row tty n,
    In row rows
    /\ Py.contains "TTY" row = true
    /\ Py.index (DoOobDevice.row_columns row) 0 = Some tty
    /\ interface = "As" +:+ tty
    /\ Py.contains "/" interface = true
    /\ id = Py.str (2000 + n)
    /\ Py.int id = Some (2000 + n).
Proof.
  unfold DoOobDevice.console_lines. intros H Hl.
  destruct (line_rows_entries _ _ _ _ _ _ H Hl)
    as [He|(row & tty & n & Hin & Htty & H0 & Hi & Hs & Hid)].
  - rewrite lookup_empty in He. discriminate.
  - exists row, tty, n. subst id. rewrite int_str. auto 10.
Qed.

Lemma console_lines_entries_witness :
  exists row tty n,
    In row ["   Tty Line Typ     Tx/Rx    A Roty AccO AccI  Uses  Noise Overruns  Int";
            "   0/0/0    5 TTY   9600/9600  -    -      -    -    -     0      0    0/0      -";
            "     1    6 AUX   9600/9600  -    -      -    -    -     0      0    0/0      -"]
    /\ Py.contains "TTY" row = true
    /\ Py.index (DoOobDevice.row_columns row) 0 = Some tty
    /\ "As0/0/0" = "As" +:+ tty
    /\ Py.contains "/" "As0/0/0" = true
    /\ "2005" = Py.str (2000 + n)
    /\ Py.int "2005" = Some (2000 + n).
Proof.
  apply (console_lines_entries _ {[ "2005" := "As0/0/0" ]} "2005" "As0/0/0");
    vm_compute; reflexivity.
Defined.

(** ** The interface tables of the SNMP scripts *)

Section WalkFacts.
Import SnmpScripts SnmpSpec.

(** A name that [dot_num] matches starts with its dot. *)
Lemma dot_num_match_find (ifName : string) :
  dot_num_match ifName = true -> PyText.find_char "." ifName = 0.
Proof.
  destruct ifName as [|a s]; [discriminate|].
  unfold dot_num_match.
  destruct (Ascii.eqb a ".") eqn:E.
  - intros _. cbn [PyText.find_char]. now rewrite E.
  - apply Ascii.eqb_neq in E.
    destruct a as [[] [] [] [] [] [] [] []]; try discriminate.
    now destruct E.
Qed.

Variable short_ifName : string -> string.

Lemma walk_ifName_step_entry (hostname : string) (int2vlan ifNames : gmap string string)
    (data : string * string) :
  walk_ifName_step short_ifName hostname int2vlan ifNames data tt
  = (Return (<[Py.replace (OID_ifName +:+ ".") "" (fst data)
               := ifName_entry short_ifName hostname int2vlan (snd data)]> ifNames),
     tt).
Proof.
  unfold walk_ifName_step, ifName_entry.
  assert (Hvlan :
    (if dot_num_match (short_ifName (snd data))
     then if 0 <? PyText.find_char "." (short_ifName (snd data))
          then PyText.slice_from (short_ifName (snd data))
                 (PyText.find_char "." (short_ifName (snd data)) + 1)
          else ""
     else "") = "").
  { destruct (dot_num_match (short_ifName (snd data))) eqn:Hm; [|reflexivity].
    now rewrite (dot_num_match_find _ Hm). }
  cbv zeta. rewrite Hvlan.
  destruct (int2vlan !! (hostname +:+ ";" +:+ short_ifName (snd data)));
    reflexivity.
Qed.

Lemma walk_ifName_loop_table (hostname : string) (int2vlan : gmap string string)
    (result : list (string * string)) :
  forall ifNames : gmap string string,
  walk_ifName_loop short_ifName hostname int2vlan result ifNames tt
  = (Return
       (fold_left
          (fun ifNames data =>
             <[Py.replace (OID_ifName +:+ ".") "" (fst data)
               := ifName_entry short_ifName hostname int2vlan (snd data)]> ifNames)
          result ifNames), tt).
Proof.
  induction result as [|data rest IH]; intros ifNames; [reflexivity|].
  cbn [walk_ifName_loop fold_left].
  rewrite (bind_return _ _ _ _ _ (walk_ifName_step_entry _ _ _ _)).
  apply IH.
Qed.

End WalkFacts.

(** X21: [SNMP_walk_ifName], in both scripts, never raises and stores for
    every variable of the walk the vlan that [int2vlan] gives for the
    interface of the host, and the short interface name otherwise.  The
    branch for names with a vlan suffix is never taken: [dot_num.match]
    matches at the start of a name only, where [find('.')] is 0, so that
    [vlan] stays empty and [int(vlan)] is never evaluated. *)
Theorem SNMP_walk_ifName_table (result : list (string * string))
    (hostname : string) (int2vlan : gmap string string) :
  SnmpScripts.SNMP_walk_ifName GetSnmpMac.short_ifName (Some result)
    hostname int2vlan tt
  = (Return (SnmpSpec.ifName_table GetSnmpMac.short_ifName hostname int2vlan
               result), tt)
  /\ SnmpScripts.SNMP_walk_ifName GetSnmpArp.short_ifName (Some result)
       hostname int2vlan tt
     = (Return (SnmpSpec.ifName_table GetSnmpArp.short_ifName hostname int2vlan
                  result), tt).
Proof. split; apply walk_ifName_loop_table. Qed.

(** A sub-interface keeps its name: no vlan is taken from the suffix. *)
Example walk_vlan_suffix_kept :
  SnmpScripts.SNMP_walk_ifName GetSnmpArp.short_ifName
    (Some [("iso.3.6.1.2.1.31.1.1.1.1.7", "eth0.42");
           ("iso.3.6.1.2.1.31.1.1.1.1.8", "GigabitEthernet0/1")])
    "fw1" {[ "fw1;Gi0/1" := "100" ]} tt
  = (Return {[ "7" := "eth0.42"; "8" := "100" ]}, tt).
Proof. vm_compute. reflexivity. Qed.

Section Int2vlanFacts.
Import SnmpScripts SnmpSpec.

(** The fields of a split, joined again, are the text; no field holds
    the separator. *)
Lemma join_cons (sep x y : string) (l : list string) :
  PyText.join sep (x :: y :: l) = x +:+ sep +:+ PyText.join sep (y :: l).
Proof. reflexivity. Qed.

Lemma split_char_join (c : ascii) (s : string) :
  PyText.join (String c "") (Py.split_char c s) = s
  /\ Forall (fun f => Py.count_char c f = O) (Py.split_char c s).
Proof.
  induction s as [|a s [IHj IHc]]; [split; [reflexivity | now repeat constructor]|].
  cbn [Py.split_char].
  pose proof (split_char_length c s) as Hl.
  destruct (Py.split_char c s) as [|f fs] eqn:Hs; [discriminate|].
  destruct (Ascii.eqb a c) eqn:E.
  - apply Ascii.eqb_eq in E. subst a. split.
    + rewrite join_cons, IHj. reflexivity.
    + constructor; [reflexivity | exact IHc].
  - apply Forall_cons in IHc as [Hf Hfs]. split.
    + destruct fs as [|g gs].
      * cbn [PyText.join] in *. now rewrite IHj.
      * rewrite join_cons in IHj. rewrite join_cons, append_cons.
        now rewrite IHj.
    + constructor; [|exact Hfs]. cbn [Py.count_char]. now rewrite E.
Qed.

Lemma int2vlan_line_entries (int2vlan int2vlan' : gmap string string)
    (line : string) o (key vlan : string) :
  int2vlan_line int2vlan line tt = (o, tt) ->
  exists t, o = Return t
    /\ (t !! key = Some vlan ->
        int2vlan !! key = Some vlan
        \/ (Py.rstrip line = key +:+ ";" +:+ vlan
            /\ Py.startswith "#" (Py.rstrip line) = false
            /\ Py.count_char ";" key = 1%nat
            /\ Py.count_char ";" vlan = O)).
Proof.
  unfold int2vlan_line.
  destruct (Py.startswith "#" (Py.rstrip line)) eqn:Hc; cbn [negb andb].
  { unfold ret. intros H. inversion H. subst. exists int2vlan. now split; [|left]. }
  destruct (Py.count_char ";" (Py.rstrip line) =? 2)%nat eqn:Hn;
    [|unfold ret; intros H; inversion H; subst; exists int2vlan; now split; [|left]].
  apply Nat.eqb_eq in Hn.
  pose proof (split_char_length ";" (Py.rstrip line)) as Hlen. rewrite Hn in Hlen.
  destruct (split_char_join ";" (Py.rstrip line)) as [Hjoin Hnone].
  destruct (Py.split_char ";" (Py.rstrip line)) as [|h [|i [|v [|x t]]]];
    try discriminate.
  unfold ret. intros H. inversion H. subst o. eexists. split; [reflexivity|].
  intros Hl. destruct (decide (key = h +:+ ";" +:+ i)) as [->|Hne].
  - rewrite lookup_insert_eq in Hl. inversion Hl. subst v. right.
    inversion Hnone as [|? ? Hh Hrest]; subst.
    inversion Hrest as [|? ? Hi Hrest']; subst.
    inversion Hrest' as [|? ? Hv _]; subst.
    split; [|split; [reflexivity|split]].
    + rewrite <- Hjoin. cbn [PyText.join]. now rewrite !append_assoc.
    + rewrite !count_char_app, Hh, Hi. reflexivity.
    + exact Hv.
  - rewrite lookup_insert_ne in Hl by congruence. now left.
Qed.

Lemma int2vlan_lines_entries (lines : list string) :
  forall (int2vlan : gmap string string),
  exists t,
    int2vlan_lines lines int2vlan tt = (Return t, tt)
    /\ forall key vlan,
         t !! key = Some vlan ->
         int2vlan !! key = Some vlan
         \/ exists line,
              In line lines
              /\ Py.rstrip line = key +:+ ";" +:+ vlan
              /\ Py.startswith "#" (Py.rstrip line) = false
              /\ Py.count_char ";" key = 1%nat
              /\ Py.count_char ";" vlan = O.
Proof.
  induction lines as [|line rest IH]; intros int2vlan.
  - exists int2vlan. split; [reflexivity | now left].
  - cbn [int2vlan_lines].
    destruct (int2vlan_line int2vlan line tt) as [o []] eqn:Hline.
    assert (Ho : exists t1, o = Return t1).
    { destruct (int2vlan_line_entries _ int2vlan _ _ "" "" Hline) as (t1 & -> & _).
      now exists t1. }
    destruct Ho as [t1 ->].
    destruct (IH t1) as (t & Hrun & Hent).
    exists t. rewrite (bind_return _ _ _ _ _ Hline). split; [exact Hrun|].
    intros key vlan Hl.
    destruct (Hent key vlan Hl) as [Hl1|(l0 & Hin & Hrest)].
    + destruct (int2vlan_line_entries _ int2vlan _ _ key vlan Hline)
        as (t1' & Heq & Hstep).
      inversion Heq. subst t1'.
      destruct (Hstep Hl1) as [Hl0|Hhere]; [now left|].
      right. exists line. split; [now left | exact Hhere].
    + right. exists l0. split; [now right | exact Hrest].
Qed.

End Int2vlanFacts.


Example read_int2vlan_run :
  SnmpScripts.read_int2vlan
    (Some ["# host;interface;vlan" +:+ DoOobDevice.LF;
           "fw1;Gi0/1;100  " +:+ DoOobDevice.LF;
           "fw1;Gi0/2" +:+ DoOobDevice.LF;
           "fw1;Gi0/1;200" +:+ DoOobDevice.LF]) tt
  = (Return {[ "fw1;Gi0/1" := "200" ]}, tt).
Proof. vm_compute. reflexivity. Qed.

(** ** MAC addresses in the two scripts *)

Section MacFacts.
Import SnmpScripts SnmpSpec.

Lemma octets_ok : forallb (fun k => octet_ok (Z.of_nat k)) (seq 0 256) = true.
Proof. vm_compute. reflexivity. Qed.

Lemma format_02X_octet (n : Z) :
  0 <= n < 256 ->
  exists h l,
    PyText.format_02X n = String h (String l EmptyString)
    /\ Ascii.eqb h "-" = false /\ Ascii.eqb l "-" = false
    /\ octet_of (String h (String l EmptyString)) = Some n.
Proof.
  intros Hn.
  pose proof octets_ok as Hall. rewrite forallb_forall in Hall.
  specialize (Hall (Z.to_nat n)).
  rewrite Z2Nat.id in Hall by lia.
  assert (Hin : In (Z.to_nat n) (seq 0 256)) by (apply in_seq; lia).
  apply Hall in Hin. unfold octet_ok in Hin.
  destruct (PyText.format_02X n) as [|h [|l [|x t]]]; try discriminate.
  exists h, l.
  apply andb_true_iff in Hin as [Hin Ho].
  apply andb_true_iff in Hin as [Hh Hl].
  apply negb_true_iff in Hh, Hl.
  destruct (octet_of (String h (String l ""))) as [m|]; [|discriminate].
  apply Z.eqb_eq in Ho. subst m. auto.
Qed.

Lemma all_digits_no_dot (s : string) :
  IfName.all_digits s = true -> Py.count_char "." s = O.
Proof.
  induction s as [|a s IH]; [reflexivity|].
  cbn [IfName.all_digits Py.count_char]. intros H.
  apply andb_true_iff in H as [Ha Hs]. rewrite (IH Hs).
  destruct (Ascii.eqb a ".") eqn:E; [|reflexivity].
  apply Ascii.eqb_eq in E. subst a. discriminate.
Qed.

Lemma str_no_dot (z : Z) : Py.count_char "." (Py.str z) = O.
Proof.
  unfold Py.str. destruct (z <? 0).
  - cbn [Py.count_char]. change (Ascii.eqb "-" ".") with false.
    now rewrite all_digits_no_dot by now apply str_pos_digits.
  - now apply all_digits_no_dot, str_pos_digits.
Qed.

(** Splitting a joined list gives the list, when no item holds the
    separator. *)
Lemma split_join (c : ascii) (l : list string) :
  l <> [] ->
  Forall (fun f => Py.count_char c f = O) l ->
  Py.split_char c (PyText.join (String c "") l) = l.
Proof.
  induction l as [|x l IH]; [congruence|].
  intros _ Hall. apply Forall_cons in Hall as [Hx Hl].
  destruct l as [|y l].
  - cbn [PyText.join]. now apply split_char_whole.
  - rewrite join_cons.
    change (String c "" +:+ PyText.join (String c "") (y :: l))
      with (String c (PyText.join (String c "") (y :: l))).
    rewrite split_char_app by exact Hx.
    now rewrite IH.
Qed.

Lemma split_dotted (octets : list Z) :
  octets <> [] -> Py.split_char "." (dotted octets) = map Py.str octets.
Proof.
  intros Hne. unfold dotted. apply split_join.
  - destruct octets; [congruence | discriminate].
  - apply Forall_map, Forall_forall. intros z _. apply str_no_dot.
Qed.

Lemma dotted2ieee_loop_str (octets : list Z) :
  forall (i : nat) (ieee : string),
  dotted2ieee_loop i (map Py.str octets) ieee tt
  = (Return (bin2ieee_loop i octets ieee), tt).
Proof.
  induction octets as [|z rest IH]; intros i ieee; [reflexivity|].
  cbn [map dotted2ieee_loop bin2ieee_loop].
  unfold bind at 1. rewrite int_str. cbn [lift_option ret].
  apply IH.
Qed.

Lemma dotted2ieee_dotted (octets : list Z) :
  dotted2ieee (dotted octets) tt = (Return (bin2ieee octets), tt).
Proof.
  unfold dotted2ieee, bin2ieee.
  destruct octets as [|z rest]; [reflexivity|].
  rewrite split_dotted by discriminate.
  rewrite length_map.
  destruct (length (z :: rest) =? 6)%nat; cbn [negb]; [|reflexivity].
  apply dotted2ieee_loop_str.
Qed.

Lemma bin2ieee_octets (octets : list Z) :
  is_mac octets ->
  String.length (bin2ieee octets) = 17%nat
  /\ ieee_octets (bin2ieee octets) = Some octets.
Proof.
  intros [Hlen Hall].
  destruct octets as [|a [|b [|c [|d [|e [|f [|g t]]]]]]]; try discriminate.
  repeat (apply Forall_cons in Hall as [? Hall]).
  destruct (format_02X_octet a) as (a1 & a2 & Ea & Ha1 & Ha2 & Hoa); [assumption|].
  destruct (format_02X_octet b) as (b1 & b2 & Eb & Hb1 & Hb2 & Hob); [assumption|].
  destruct (format_02X_octet c) as (c1 & c2 & Ec & Hc1 & Hc2 & Hoc); [assumption|].
  destruct (format_02X_octet d) as (d1 & d2 & Ed & Hd1 & Hd2 & Hod); [assumption|].
  destruct (format_02X_octet e) as (e1 & e2 & Ee & He1 & He2 & Hoe); [assumption|].
  destruct (format_02X_octet f) as (f1 & f2 & Ef & Hf1 & Hf2 & Hof); [assumption|].
  unfold bin2ieee. cbn [length Nat.eqb negb bin2ieee_loop Nat.ltb Nat.leb].
  rewrite Ea, Eb, Ec, Ed, Ee, Ef.
  rewrite !append_nil_l, ?append_cons, ?append_nil_l.
  repeat (rewrite ?append_cons, ?append_nil_l).
  split; [reflexivity|].
  unfold ieee_octets. cbn [Py.split_char].
  rewrite Ha1, Ha2, Hb1, Hb2, Hc1, Hc2, Hd1, Hd2, He1, He2, Hf1, Hf2.
  change (Ascii.eqb "-" "-") with true. cbv iota.
  cbn [mapM]. rewrite Hoa, Hob, Hoc, Hod, Hoe, Hof. reflexivity.
Qed.

Lemma dotted2ieee_loop_raises (octets : list string) :
  forall (i : nat) (ieee : string) (e : exn),
  fst (dotted2ieee_loop i octets ieee tt) = Raise e
  <-> e = ValueError /\ Exists (fun f => Py.int f = None) octets.
Proof.
  induction octets as [|o rest IH]; intros i ieee e; cbn [dotted2ieee_loop].
  - split; [discriminate | intros [_ H]; inversion H].
  - unfold bind at 1. destruct (Py.int o) as [n|] eqn:Hn; cbn [lift_option ret raise].
    + rewrite IH. split; intros [He Hex]; (split; [exact He|]).
      * now apply Exists_cons_tl.
      * inversion Hex as [? ? Hbad|? ? Hlater]; subst; [congruence | exact Hlater].
    + cbn [fst]. split.
      * intros H. inversion H. split; [reflexivity | now apply Exists_cons_hd].
      * intros [-> _]. reflexivity.
Qed.

End MacFacts.

(** X23: the two scripts write a MAC address the same way: for every list
    of numbers, [dotted2ieee] of [get-snmp-mac.py] on its dotted decimal
    form returns what [bin2ieee] of [get-snmp-arp.py] returns on the
    characters with these code points, so that the tables of the two
    scripts can be joined on the address. *)
Theorem dotted2ieee_agrees_with_bin2ieee (octets : list Z) :
  SnmpScripts.dotted2ieee (SnmpSpec.dotted octets) tt
  = (Return (SnmpScripts.bin2ieee octets), tt).
Proof. apply dotted2ieee_dotted. Qed.

(** X24: for six octets [bin2ieee] returns 17 characters, pairs of
    hexadecimal capitals between hyphens, from which the octets are read
    back: different addresses are written differently. *)
Theorem bin2ieee_reads_back (octets : list Z) :
  SnmpSpec.is_mac octets ->
  String.length (SnmpScripts.bin2ieee octets) = 17%nat
  /\ SnmpSpec.ieee_octets (SnmpScripts.bin2ieee octets) = Some octets.
Proof. apply bin2ieee_octets. Qed.

Lemma bin2ieee_reads_back_witness :
  String.length (SnmpScripts.bin2ieee [0; 26; 43; 255; 1; 16]) = 17%nat
  /\ SnmpSpec.ieee_octets (SnmpScripts.bin2ieee [0; 26; 43; 255; 1; 16])
     = Some [0; 26; 43; 255; 1; 16].
Proof.
  apply (bin2ieee_reads_back [0; 26; 43; 255; 1; 16]).
  split; [reflexivity|]. repeat constructor; lia.
Defined.



(** ** Long interface names *)

Section LongForms.
Import IfNameSpec.

Lemma contains_port (old port : string) (c : ascii) :
  port_char c = false -> is_port port = true ->
  Py.contains (String c old) port = false.
Proof.
  intros Hc. induction port as [|a port IH]; intros Hp; [reflexivity|].
  cbn [is_port] in Hp. apply andb_true_iff in Hp as [Ha Hp].
  rewrite contains_cons, (IH Hp), orb_false_r.
  cbn [Py.startswith].
  destruct (Ascii.eqb c a) eqn:E; [|reflexivity].
  apply Ascii.eqb_eq in E. subst a. congruence.
Qed.

Lemma replace_aux_port (old new port : string) (c : ascii) :
  port_char c = false -> is_port port = true ->
  Py.replace_aux (String c old) new O port = port.
Proof.
  intros Hc Hp. apply replace_aux_absent. now apply contains_port.
Qed.

Lemma startswith_port (old port : string) (c : ascii) :
  port_char c = false -> is_port port = true ->
  Py.startswith (String c old) port = false.
Proof.
  intros Hc Hp. destruct port as [|a port]; [reflexivity|].
  cbn [is_port] in Hp. apply andb_true_iff in Hp as [Ha _].
  cbn [Py.startswith].
  destruct (Ascii.eqb c a) eqn:E; [|reflexivity].
  apply Ascii.eqb_eq in E. subst a. congruence.
Qed.

Lemma startswith_empty (s : string) : Py.startswith "" s = true.
Proof. reflexivity. Qed.

End LongForms.

(** [startswith] is unfolded on texts that are written out only. *)
#[local] Arguments Py.startswith !p !s.

(** Tests on characters that are written out are decided by evaluation. *)
Ltac eval_chars :=
  repeat match goal with
         | |- context [Py.lower_char ?a] =>
             match a with Ascii _ _ _ _ _ _ _ _ =>
               let r := eval vm_compute in (Py.lower_char a) in
               change (Py.lower_char a) with r
             end
         | |- context [Ascii.eqb ?a ?b] =>
             match a with Ascii _ _ _ _ _ _ _ _ =>
               match b with Ascii _ _ _ _ _ _ _ _ =>
                 let r := eval vm_compute in (Ascii.eqb a b) in
                 change (Ascii.eqb a b) with r
               end
             end
         end;
  cbn [andb orb negb].

(** One pass over a name that ends in a port position. *)
Ltac port_step Hp :=
  cbn [Py.replace Py.replace_aux Py.startswith String.length Nat.sub];
  rewrite ?startswith_empty;
  eval_chars;
  repeat match goal with
         | |- context [Py.replace_aux (String ?c ?old) ?new O ?port] =>
             rewrite (replace_aux_port old new port c eq_refl Hp)
         | |- context [Py.startswith (String ?c ?old) ?port] =>
             rewrite (startswith_port old port c eq_refl Hp)
         end;
  rewrite ?append_cons, ?append_nil_l.

(** The tests of [short_common] on the first characters of a name. *)
Ltac head_step :=
  cbn [IfName.re_match_slot Py.lower Py.startswith];
  rewrite ?startswith_empty;
  eval_chars.

Ltac long_form Hp :=
  unfold GetSnmpArp.short_ifName, GetSnmpMac.short_ifName, IfName.short_common;
  rewrite ?append_cons, ?append_nil_l;
  do 12 port_step Hp;
  head_step; reflexivity.

Section CiscoForms.
Import IfNameSpec.

Lemma short_common_cisco (long short port : string) :
  In (long, short) cisco_forms -> is_port port = true ->
  IfName.short_common (long +:+ port) = short +:+ port.
Proof.
  intros Hin Hp. unfold cisco_forms in Hin. cbn [In] in Hin.
  repeat (destruct Hin as [Hin|Hin]; [inversion Hin; subst long short; long_form Hp|]).
  destruct Hin.
Qed.

Lemma arp_short_ifName_cisco (long short port : string) :
  In (long, short) cisco_forms -> is_port port = true ->
  GetSnmpArp.short_ifName (long +:+ port) = short +:+ port.
Proof.
  intros Hin Hp. unfold GetSnmpArp.short_ifName.
  rewrite (short_common_cisco _ _ _ Hin Hp).
  unfold cisco_forms in Hin. cbn [In] in Hin.
  repeat (destruct Hin as [Hin|Hin]; [inversion Hin; subst long short; reflexivity|]).
  destruct Hin.
Qed.

End CiscoForms.

(** X26: the long interface names of Cisco devices.  For each of the
    long forms [TenGigabitEthernet], [GigabitEthernet], [FastEthernet],
    [Ethernet], [Management], [Port-channel], [port-channel] and
    [switch], followed by a port position of digits and slashes,
    [short_ifName] of both scripts returns the short form ([Te], [Gi],
    [Fa], [Et], [Ma], [Po], [Po], [Et]) followed by the same position. *)
Theorem short_ifName_cisco (long short port : string) :
  In (long, short) IfNameSpec.cisco_forms ->
  IfNameSpec.is_port port = true ->
  GetSnmpMac.short_ifName (long +:+ port) = short +:+ port
  /\ GetSnmpArp.short_ifName (long +:+ port) = short +:+ port.
Proof.
  intros Hin Hp. split.
  - now apply short_common_cisco.
  - now apply arp_short_ifName_cisco.
Qed.

Lemma short_ifName_cisco_witness :
  GetSnmpMac.short_ifName ("TenGigabitEthernet" +:+ "1/0/24") = "Te" +:+ "1/0/24"
  /\ GetSnmpArp.short_ifName ("TenGigabitEthernet" +:+ "1/0/24") = "Te" +:+ "1/0/24".
Proof.
  apply (short_ifName_cisco "TenGigabitEthernet" "Te" "1/0/24").
  - left. reflexivity.
  - reflexivity.
Defined.

Section NumberedForms.
Import IfNameSpec.

Lemma digits_port (d : string) : IfName.all_digits d = true -> is_port d = true.
Proof.
  induction d as [|c d IH]; [reflexivity|].
  cbn [IfName.all_digits is_port]. intros H.
  apply andb_true_iff in H as [Hc Hd].
  unfold port_char. now rewrite Hc, (IH Hd).
Qed.

Lemma digits_to_end_digits (d : string) (seen : bool) :
  IfName.all_digits d = true ->
  IfName.digits_to_end seen d = seen || Py.nonempty d.
Proof.
  revert seen. induction d as [|c d IH]; intros seen H.
  - cbn. now rewrite orb_false_r.
  - cbn [IfName.all_digits] in H. apply andb_true_iff in H as [Hc Hd].
    cbn [IfName.digits_to_end Py.nonempty]. rewrite Hc, (IH _ Hd).
    now rewrite orb_true_r.
Qed.

(** No digit is followed by a slash in a run of digits. *)
Lemma digits_no_slot (d : string) :
  IfName.all_digits d = true -> Py.contains "3/" d = false.
Proof.
  induction d as [|c d IH]; [reflexivity|].
  cbn [IfName.all_digits]. intros H. apply andb_true_iff in H as [Hc Hd].
  rewrite contains_cons, (IH Hd), orb_false_r.
  destruct d as [|a d]; [cbn; now rewrite andb_false_r|].
  cbn [IfName.all_digits] in Hd. apply andb_true_iff in Hd as [Ha _].
  assert (E : Ascii.eqb "/" a = false).
  { destruct (Ascii.eqb "/" a) eqn:E; [|reflexivity].
    apply Ascii.eqb_eq in E. subst a. discriminate. }
  cbn [Py.startswith]. rewrite E. cbn [andb]. apply andb_false_r.
Qed.

Lemma digits_not_ignored (d : string) :
  IfName.all_digits d = true -> GetSnmpArp.ignore_ifName d = false.
Proof.
  destruct d as [|c d]; [reflexivity|].
  cbn [IfName.all_digits]. intros H. apply andb_true_iff in H as [Hc _].
  unfold GetSnmpArp.ignore_ifName, GetSnmpArp.ignore_ifNames.
  cbn [existsb Py.startswith].
  destruct (Ascii.eqb "b" c) eqn:E1;
    [apply Ascii.eqb_eq in E1; subst c; discriminate|].
  destruct (Ascii.eqb "J" c) eqn:E2;
    [apply Ascii.eqb_eq in E2; subst c; discriminate|].
  destruct (Ascii.eqb "j" c) eqn:E3;
    [apply Ascii.eqb_eq in E3; subst c; discriminate|].
  destruct (Ascii.eqb "l" c) eqn:E4;
    [apply Ascii.eqb_eq in E4; subst c; discriminate|].
  reflexivity.
Qed.

Lemma short_common_vlan (form d : string) :
  In form vlan_forms -> IfName.all_digits d = true ->
  IfName.short_common (form +:+ d) = d.
Proof.
  intros Hin Hd. pose proof (digits_port d Hd) as Hp.
  unfold vlan_forms in Hin. cbn [In] in Hin.
  repeat (destruct Hin as [Hin|Hin];
          [subst form; unfold IfName.short_common;
           rewrite ?append_cons, ?append_nil_l;
           do 12 port_step Hp; head_step;
           do 4 port_step Hp; reflexivity|]).
  destruct Hin.
Qed.

Lemma slot_match (a b : ascii) (d : string) :
  IfName.re_match_slot a (String b (String "/" d))
  = Ascii.eqb b a && IfName.digits_to_end false d.
Proof. reflexivity. Qed.

Lemma slot_other (a b c : ascii) (s : string) :
  Ascii.eqb c "/" = false ->
  IfName.re_match_slot a (String b (String c s)) = false.
Proof.
  intros H. unfold IfName.re_match_slot.
  destruct c as [[] [] [] [] [] [] [] []]; try reflexivity. discriminate.
Qed.

Lemma short_common_slot_0 (d : string) :
  IfName.all_digits d = true -> Py.nonempty d = true ->
  IfName.short_common ("0/" +:+ d) = "Et0/" +:+ d.
Proof.
  intros Hd Hn. pose proof (digits_port d Hd) as Hp.
  unfold IfName.short_common.
  rewrite ?append_cons, ?append_nil_l.
  do 12 port_step Hp.
  rewrite !slot_match. eval_chars.
  rewrite (digits_to_end_digits d false Hd), Hn. cbn [andb orb].
  rewrite !(slot_other "3" "E" "t") by reflexivity.
  head_step. reflexivity.
Qed.

Lemma short_common_slot_3 (d : string) :
  IfName.all_digits d = true -> Py.nonempty d = true ->
  IfName.short_common ("3/" +:+ d) = "Po" +:+ d.
Proof.
  intros Hd Hn. pose proof (digits_port d Hd) as Hp.
  unfold IfName.short_common.
  rewrite ?append_cons, ?append_nil_l.
  do 12 port_step Hp.
  rewrite !slot_match. eval_chars.
  rewrite !slot_match. eval_chars.
  rewrite (digits_to_end_digits d false Hd), Hn. cbn [andb orb].
  cbn [Py.replace Py.replace_aux Py.startswith String.length Nat.sub].
  eval_chars.
  rewrite (replace_aux_absent "3/" "Po" d (digits_no_slot d Hd)).
  rewrite ?append_cons, ?append_nil_l.
  head_step. reflexivity.
Qed.

End NumberedForms.

(** X27: vlan interfaces become their number.  For each of the forms
    [Vlan], [Vl], [VLAN- ] and [br-vlan] followed by digits,
    [short_ifName] of both scripts returns the digits. *)
Theorem short_ifName_vlan (form d : string) :
  In form IfNameSpec.vlan_forms -> IfName.all_digits d = true ->
  GetSnmpMac.short_ifName (form +:+ d) = d
  /\ GetSnmpArp.short_ifName (form +:+ d) = d.
Proof.
  intros Hin Hd. unfold GetSnmpMac.short_ifName, GetSnmpArp.short_ifName.
  rewrite (short_common_vlan _ _ Hin Hd).
  split; [reflexivity|]. now rewrite digits_not_ignored.
Qed.

Lemma short_ifName_vlan_witness :
  GetSnmpMac.short_ifName ("VLAN- " +:+ "100") = "100"
  /\ GetSnmpArp.short_ifName ("VLAN- " +:+ "100") = "100".
Proof.
  apply (short_ifName_vlan "VLAN- " "100").
  - right. right. left. reflexivity.
  - reflexivity.
Defined.

(** X28: the ports of a Ubiquiti switch.  For a number [d] of one digit
    or more, [short_ifName] of both scripts turns [0/d] into [Et0/d] and
    [3/d] into [Po] and [d]. *)
Theorem short_ifName_ubiquiti (d : string) :
  IfName.all_digits d = true -> Py.nonempty d = true ->
  GetSnmpMac.short_ifName ("0/" +:+ d) = "Et0/" +:+ d
  /\ GetSnmpMac.short_ifName ("3/" +:+ d) = "Po" +:+ d
  /\ GetSnmpArp.short_ifName ("0/" +:+ d) = "Et0/" +:+ d
  /\ GetSnmpArp.short_ifName ("3/" +:+ d) = "Po" +:+ d.
Proof.
  intros Hd Hn. unfold GetSnmpMac.short_ifName, GetSnmpArp.short_ifName.
  rewrite (short_common_slot_0 d Hd Hn), (short_common_slot_3 d Hd Hn).
  repeat split; reflexivity.
Qed.

Lemma short_ifName_ubiquiti_witness :
  GetSnmpMac.short_ifName ("0/" +:+ "12") = "Et0/" +:+ "12"
  /\ GetSnmpMac.short_ifName ("3/" +:+ "12") = "Po" +:+ "12"
  /\ GetSnmpArp.short_ifName ("0/" +:+ "12") = "Et0/" +:+ "12"
  /\ GetSnmpArp.short_ifName ("3/" +:+ "12") = "Po" +:+ "12".
Proof.
  apply (short_ifName_ubiquiti "12"); reflexivity.
Defined.

(** ** [do_device] *)

Section ScriptFacts.
Import DoDevice DoDeviceSpec.
Variable w : world.

Lemma attempted_app (a b : list event) :
  attempted (a ++ b) = attempted a ++ attempted b.
Proof.
  induction a as [|e a IH]; [reflexivity|].
  destruct e; cbn [app attempted]; rewrite IH; reflexivity.
Qed.

Lemma answered_app (a b : list event) :
  answered (a ++ b) = answered a ++ answered b.
Proof.
  induction a as [|e a IH]; [reflexivity|].
  destruct e as [| | | | | |c [o|]|]; cbn [app answered]; rewrite IH; reflexivity.
Qed.

(** The special lines and the comments are no commands. *)
Lemma special_no_command (cmd : string) :
  Py.startswith "!" (curcmd_of cmd) = true -> is_command cmd = false.
Proof. intros H. unfold is_command. rewrite H. apply andb_false_r. Qed.

Lemma eqb_startswith (s lit : string) :
  String.eqb s lit = true -> Py.startswith "!" lit = true ->
  Py.startswith "!" s = true.
Proof. intros E H. apply String.eqb_eq in E. now subst. Qed.

Lemma startswith_sleep (s : string) :
  Py.startswith "!!sleep " s = true -> Py.startswith "!" s = true.
Proof. apply (startswith_app_l "!" "!sleep "). Qed.

(** The run of the loop: what was passed to [send_command] is a first
    part of the commands of the script. *)
Lemma script_loop_commands (lines : list string) :
  forall (trace trace' : list event) (r : ending),
  script_loop w lines trace = (r, trace') ->
  exists more later,
    trace' = trace ++ more
    /\ commands lines = attempted more ++ later
    /\ match r with
       | Exit rc =>
           (rc = ERR_NONE /\ later = [] /\ answered more = attempted more)
           \/ (rc = ERR_SEND_COMMAND
               /\ exists cmd before,
                    more = before ++ [Sent cmd None]
                    /\ answered more = answered before
                    /\ answered before = attempted before)
       | Uncaught _ => answered more = attempted more
       end.
Proof.
  induction lines as [|cmd rest IH]; intros trace trace' r H;
    cbn [script_loop] in H.
  - inversion H. subst. exists [], []. rewrite app_nil_r.
    split; [reflexivity|]. split; [reflexivity|]. left. auto.
  - (* a line that is no command, and after which the loop goes on *)
    assert (Hskip : forall ev,
      is_command cmd = false ->
      attempted [ev] = [] -> answered [ev] = [] ->
      script_loop w rest (trace ++ [ev]) = (r, trace') ->
      exists more later,
        trace' = trace ++ more
        /\ commands (cmd :: rest) = attempted more ++ later
        /\ match r with
           | Exit rc =>
               (rc = ERR_NONE /\ later = [] /\ answered more = attempted more)
               \/ (rc = ERR_SEND_COMMAND
                   /\ exists c before,
                        more = before ++ [Sent c None]
                        /\ answered more = answered before
                        /\ answered before = attempted before)
           | Uncaught _ => answered more = attempted more
           end).
    { intros ev Hc Hat Han Hrun.
      assert (Hat' : forall l, attempted (ev :: l) = attempted l).
      { intros l. change (ev :: l) with ([ev] ++ l).
        now rewrite attempted_app, Hat. }
      assert (Han' : forall l, answered (ev :: l) = answered l).
      { intros l. change (ev :: l) with ([ev] ++ l).
        now rewrite answered_app, Han. }
      apply IH in Hrun as (more & later & -> & Hcmds & Hr).
      exists (ev :: more), later.
      split; [now rewrite <- app_assoc|].
      split.
      - unfold commands. cbn [List.filter]. rewrite Hc. fold (commands rest).
        now rewrite Hat'.
      - destruct r as [rc|f]; [|now rewrite Hat', Han'].
        destruct Hr as [(-> & -> & Ha)|(-> & c & before & -> & Ha & Hb)].
        + left. now rewrite Hat', Han'.
        + right. split; [reflexivity|].
          exists c, (ev :: before). split; [reflexivity|].
          rewrite !Han', Hat'. now split. }
    (* a line at which the run stops without a command *)
    assert (Hstop : forall f,
      is_command cmd = false ->
      (Uncaught f, trace) = (r, trace') ->
      exists more later,
        trace' = trace ++ more
        /\ commands (cmd :: rest) = attempted more ++ later
        /\ match r with
           | Exit rc =>
               (rc = ERR_NONE /\ later = [] /\ answered more = attempted more)
               \/ (rc = ERR_SEND_COMMAND
                   /\ exists c before,
                        more = before ++ [Sent c None]
                        /\ answered more = answered before
                        /\ answered before = attempted before)
           | Uncaught _ => answered more = attempted more
           end).
    { intros f Hc Heq. inversion Heq. subst.
      exists [], (commands (cmd :: rest)). rewrite app_nil_r.
      split; [reflexivity|]. split; reflexivity. }
    assert (Hmethod : forall m,
      is_command cmd = false ->
      attempted [m] = [] -> answered [m] = [] ->
      call_method w m trace (script_loop w rest) = (r, trace') ->
      exists more later,
        trace' = trace ++ more
        /\ commands (cmd :: rest) = attempted more ++ later
        /\ match r with
           | Exit rc =>
               (rc = ERR_NONE /\ later = [] /\ answered more = attempted more)
               \/ (rc = ERR_SEND_COMMAND
                   /\ exists c before,
                        more = before ++ [Sent c None]
                        /\ answered more = answered before
                        /\ answered before = attempted before)
           | Uncaught _ => answered more = attempted more
           end).
    { intros m Hc Hat Han. unfold call_method.
      destruct (method_ok w trace m); [now apply Hskip | now apply Hstop]. }
    destruct (String.eqb (curcmd_of cmd) "!!enable") eqn:E1.
    { apply (Hstop EnableUnbound); [|exact H].
      apply special_no_command. now apply (eqb_startswith _ _ E1). }
    destruct (String.eqb (curcmd_of cmd) "!!disable") eqn:E2.
    { apply (Hmethod Disabled); try reflexivity; [|exact H].
      apply special_no_command. now apply (eqb_startswith _ _ E2). }
    destruct (String.eqb (curcmd_of cmd) "!!config_mode") eqn:E3.
    { apply (Hmethod ConfigMode); try reflexivity; [|exact H].
      apply special_no_command. now apply (eqb_startswith _ _ E3). }
    destruct (String.eqb (curcmd_of cmd) "!!exit_config_mode") eqn:E4.
    { apply (Hmethod ExitConfigMode); try reflexivity; [|exact H].
      apply special_no_command. now apply (eqb_startswith _ _ E4). }
    destruct (Py.nonempty (curcmd_of cmd) && Py.startswith "!!sleep " (curcmd_of cmd))
      eqn:E5.
    { apply andb_true_iff in E5 as [_ E5]. apply startswith_sleep in E5.
      apply special_no_command in E5.
      destruct (sleep_ok w _);
        [refine (Hskip _ E5 _ _ H); reflexivity | exact (Hstop _ E5 H)]. }
    destruct (Py.nonempty (curcmd_of cmd) && negb (Py.startswith "!" (curcmd_of cmd)))
      eqn:E6; [|refine (Hskip _ E6 _ _ H); reflexivity].
    fold (is_command cmd) in E6.
    assert (Hcmds : commands (cmd :: rest) = curcmd_of cmd :: commands rest).
    { unfold commands. cbn [List.filter]. now rewrite E6. }
    destruct (send_command w trace (curcmd_of cmd)) as [output|].
    + apply IH in H as (more & later & -> & Hrest & Hr).
      exists (Sent (curcmd_of cmd) (Some output) :: more), later.
      split; [now rewrite <- app_assoc|].
      split; [cbn [attempted app]; now rewrite Hcmds, Hrest|].
      cbn [attempted answered].
      destruct r as [rc|f]; [|now rewrite Hr].
      destruct Hr as [(-> & -> & Ha)|(-> & c & before & -> & Ha & Hb)].
      * left. now rewrite Ha.
      * right. split; [reflexivity|].
        exists c, (Sent (curcmd_of cmd) (Some output) :: before).
        split; [reflexivity|]. cbn [attempted answered].
        now rewrite Ha, Hb.
    + inversion H. subst.
      exists [Sent (curcmd_of cmd) None], (commands rest).
      split; [reflexivity|]. split; [now rewrite Hcmds|].
      right. split; [reflexivity|]. now exists (curcmd_of cmd), [].
Qed.

End ScriptFacts.

(** X29: what [do_device] sends.  The commands passed to [send_command]
    are a first part of the commands of the script -- its lines that are
    not empty and do not start with an exclamation mark, white space in
    front and the newline apart -- in script order and nothing else.
    When [do_device] returns 0 all of them were sent and answered; when
    it returns 42 the last thing it did was a [send_command] that raised,
    all commands before it having been answered. *)
Theorem do_device_sends_script_commands {F : Fernet}
    (w : DoDevice.world) (device : string) (lines : list string)
    (r : DoDevice.ending) (trace : list DoDevice.event) :
  DoDevice.script_lines w = Some lines ->
  DoDevice.do_device w device = (r, trace) ->
  exists later,
    DoDeviceSpec.commands lines = DoDeviceSpec.attempted trace ++ later
    /\ (r = DoDevice.Exit DoDevice.ERR_NONE ->
        later = []
        /\ DoDeviceSpec.answered trace = DoDeviceSpec.attempted trace)
    /\ (r = DoDevice.Exit DoDevice.ERR_SEND_COMMAND ->
        exists cmd before,
          trace = before ++ [DoDevice.Sent cmd None]
          /\ DoDeviceSpec.answered before = DoDeviceSpec.attempted before).
Proof.
  intros Hscript. unfold DoDevice.do_device. rewrite Hscript.
  assert (Hearly : forall rc t,
    rc <> DoDevice.ERR_NONE -> rc <> DoDevice.ERR_SEND_COMMAND ->
    DoDeviceSpec.attempted t = [] ->
    (DoDevice.Exit rc, t) = (r, trace) ->
    exists later,
      DoDeviceSpec.commands lines = DoDeviceSpec.attempted trace ++ later
      /\ (r = DoDevice.Exit DoDevice.ERR_NONE ->
          later = []
          /\ DoDeviceSpec.answered trace = DoDeviceSpec.attempted trace)
      /\ (r = DoDevice.Exit DoDevice.ERR_SEND_COMMAND ->
          exists cmd before,
            trace = before ++ [DoDevice.Sent cmd None]
            /\ DoDeviceSpec.answered before = DoDeviceSpec.attempted before)).
  { intros rc t H0 H42 Ht Heq. inversion Heq. subst.
    exists (DoDeviceSpec.commands lines). rewrite Ht.
    split; [reflexivity|]. split; intros E; inversion E; contradiction. }
  destruct (DoDevice.logfile_exists w); [now apply Hearly|].
  destruct (fst (Pwdecrypt.get_credentials (DoDevice.store w) device []))
    as [[credentials ssh_port]|e].
  2:{ intros H. inversion H. subst.
      exists (DoDeviceSpec.commands lines).
      split; [reflexivity|]. split; intros E; discriminate. }
  destruct credentials as [| |c]; [now apply Hearly| |].
  - destruct (negb (DoDevice.logfile_creatable w)); now apply Hearly.
  - destruct (negb (DoDevice.logfile_creatable w)); [now apply Hearly|].
    destruct (DoDevice.connects w c _); [|now apply Hearly].
    intros H. apply script_loop_commands in H as (more & later & -> & Hcmds & Hr).
    exists later.
    change ([DoDevice.LogCreated; DoDevice.Connected c
               (if ssh_port =? 22 then None else Some ssh_port)] ++ more)
      with ([DoDevice.LogCreated] ++ [DoDevice.Connected c
               (if ssh_port =? 22 then None else Some ssh_port)] ++ more).
    rewrite !attempted_app, !answered_app. cbn [DoDeviceSpec.attempted
      DoDeviceSpec.answered app].
    split; [exact Hcmds|].
    destruct r as [rc|f]; [|split; intros E; discriminate].
    destruct Hr as [(-> & -> & Ha)|(-> & cmd & before & -> & Ha & Hb)].
    + split; [intros _; now split | intros E; discriminate].
    + split; [intros E; discriminate|]. intros _.
      exists cmd, (DoDevice.LogCreated
                   :: DoDevice.Connected c
                        (if ssh_port =? 22 then None else Some ssh_port)
                   :: before).
      split; [reflexivity|]. exact Hb.
Qed.

Lemma do_device_sends_script_commands_witness :
  exists later,
    DoDeviceSpec.commands
      ["! show the version" +:+ DoOobDevice.LF;
       "  show version" +:+ DoOobDevice.LF;
       DoOobDevice.LF;
       "!!disable" +:+ DoOobDevice.LF;
       "show clock" +:+ DoOobDevice.LF]
    = DoDeviceSpec.attempted
        [DoDevice.LogCreated;
         DoDevice.Connected (Scenario.r1_credentials "s3cret") None;
         DoDevice.Echoed "! show the version";
         DoDevice.Sent "show version" (Some "ok");
         DoDevice.Echoed "";
         DoDevice.Disabled;
         DoDevice.Sent "show clock" (Some "ok")] ++ later
    /\ (DoDevice.Exit 0 = DoDevice.Exit DoDevice.ERR_NONE ->
        later = []
        /\ DoDeviceSpec.answered
             [DoDevice.LogCreated;
              DoDevice.Connected (Scenario.r1_credentials "s3cret") None;
              DoDevice.Echoed "! show the version";
              DoDevice.Sent "show version" (Some "ok");
              DoDevice.Echoed "";
              DoDevice.Disabled;
              DoDevice.Sent "show clock" (Some "ok")]
           = DoDeviceSpec.attempted
               [DoDevice.LogCreated;
                DoDevice.Connected (Scenario.r1_credentials "s3cret") None;
                DoDevice.Echoed "! show the version";
                DoDevice.Sent "show version" (Some "ok");
                DoDevice.Echoed "";
                DoDevice.Disabled;
                DoDevice.Sent "show clock" (Some "ok")])
    /\ (DoDevice.Exit 0 = DoDevice.Exit DoDevice.ERR_SEND_COMMAND ->
        exists cmd before,
          [DoDevice.LogCreated;
           DoDevice.Connected (Scenario.r1_credentials "s3cret") None;
           DoDevice.Echoed "! show the version";
           DoDevice.Sent "show version" (Some "ok");
           DoDevice.Echoed "";
           DoDevice.Disabled;
           DoDevice.Sent "show clock" (Some "ok")]
          = before ++ [DoDevice.Sent cmd None]
          /\ DoDeviceSpec.answered before = DoDeviceSpec.attempted before).
Proof.
  apply (@do_device_sends_script_commands Cipher.example_cipher
           {| DoDevice.logfile_exists := false;
              DoDevice.script_lines :=
                Some ["! show the version" +:+ DoOobDevice.LF;
                      "  show version" +:+ DoOobDevice.LF;
                      DoOobDevice.LF;
                      "!!disable" +:+ DoOobDevice.LF;
                      "show clock" +:+ DoOobDevice.LF];
              DoDevice.store := Scenario.store_of "/etc/do-device" "enc:s3cret";
              DoDevice.logfile_creatable := true;
              DoDevice.connects := fun _ _ => true;
              DoDevice.send_command := fun _ _ => Some "ok";
              DoDevice.method_ok := fun _ _ => true;
              DoDevice.sleep_ok := fun _ => true |}
           "r1").
  - reflexivity.
  - vm_compute. reflexivity.
Defined.

(** X30: credentials and the exit code of [do_device], the log file not
    being there and the script being readable.  It returns 11
    ([ERR_CREDENTIALS]) exactly when [get_credentials] returns [None],
    and has done nothing then.  A store that cannot be reached is not
    answered with 11: the [UnboundLocalError] of [get_credentials] goes
    uncaught.  Incomplete credentials (the empty string) are not
    answered with 11 either: the log file is created, and the connect
    fails with 12 ([ERR_CONNECT]). *)
Theorem do_device_credentials_exit {F : Fernet}
    (w : DoDevice.world) (device : string) (lines : list string) :
  DoDevice.logfile_exists w = false ->
  DoDevice.script_lines w = Some lines ->
  (fst (DoDevice.do_device w device) = DoDevice.Exit DoDevice.ERR_CREDENTIALS
   <-> exists port,
         fst (Pwdecrypt.get_credentials (DoDevice.store w) device [])
         = Return (Store.NoDevice, port))
  /\ (fst (DoDevice.do_device w device) = DoDevice.Exit DoDevice.ERR_CREDENTIALS ->
      snd (DoDevice.do_device w device) = [])
  /\ (StoreMore.store_missing (DoDevice.store w) ->
      DoDevice.do_device w device
      = (DoDevice.Uncaught
           (DoDevice.StoreError (UnboundLocalError "ssh_port")), []))
  /\ (forall port,
        fst (Pwdecrypt.get_credentials (DoDevice.store w) device [])
        = Return (Store.EmptyCredentials, port) ->
        DoDevice.logfile_creatable w = true ->
        DoDevice.do_device w device
        = (DoDevice.Exit DoDevice.ERR_CONNECT, [DoDevice.LogCreated])).
Proof.
  intros Hlog Hscript.
  assert (Hloop : forall t,
    fst (DoDevice.script_loop w lines t) <> DoDevice.Exit DoDevice.ERR_CREDENTIALS).
  { intros t Hf.
    destruct (DoDevice.script_loop w lines t) as [r t'] eqn:Hrun.
    cbn [fst] in Hf. subst r.
    apply script_loop_commands in Hrun as (more & later & _ & _ & Hr).
    destruct Hr as [(E & _)|(E & _)]; discriminate. }
  unfold DoDevice.do_device. rewrite Hlog, Hscript.
  split; [|split; [|split]].
  - destruct (fst (Pwdecrypt.get_credentials (DoDevice.store w) device []))
      as [[credentials ssh_port]|e].
    + destruct credentials as [| |c].
      * split; [intros _; now exists ssh_port | reflexivity].
      * split; [|intros [p Hp]; discriminate].
        destruct (negb (DoDevice.logfile_creatable w)); discriminate.
      * split; [|intros [p Hp]; discriminate].
        destruct (negb (DoDevice.logfile_creatable w)); [discriminate|].
        destruct (DoDevice.connects w c _); [|discriminate].
        intros H. now apply Hloop in H.
    + split; [discriminate | intros [p Hp]; discriminate].
  - destruct (fst (Pwdecrypt.get_credentials (DoDevice.store w) device []))
      as [[credentials ssh_port]|e]; [|discriminate].
    destruct credentials as [| |c]; [reflexivity| |].
    + destruct (negb (DoDevice.logfile_creatable w)); discriminate.
    + destruct (negb (DoDevice.logfile_creatable w)); [discriminate|].
      destruct (DoDevice.connects w c _); [|discriminate].
      intros H. now apply Hloop in H.
  - intros Hmiss.
    assert (Hg : fst (Pwdecrypt.get_credentials (DoDevice.store w) device [])
                 = Raise (UnboundLocalError "ssh_port")).
    { unfold Pwdecrypt.get_credentials.
      destruct Hmiss as [Hm|Hm]; rewrite Hm; [reflexivity|].
      now destruct (Store.DO_DEVICE (DoDevice.store w)). }
    now rewrite Hg.
  - intros port Hg Hc. now rewrite Hg, Hc.
Qed.

Lemma do_device_credentials_exit_witness :
  @DoDevice.do_device
    {| DoDevice.logfile_exists := false;
       DoDevice.script_lines := Some ["show version" +:+ DoOobDevice.LF];
       DoDevice.store :=
         {| Store.DO_DEVICE := None; Store.DO_DEVICE_isdir := false;
            Store.credentials_txt := None; Store.deviceinfo_txt := None |};
       DoDevice.logfile_creatable := true;
       DoDevice.connects := fun _ _ => true;
       DoDevice.send_command := fun _ _ => Some "ok";
       DoDevice.method_ok := fun _ _ => true;
       DoDevice.sleep_ok := fun _ => true |}
    Cipher.example_cipher "r1"
  = (DoDevice.Uncaught (DoDevice.StoreError (UnboundLocalError "ssh_port")), []).
Proof.
  destruct (@do_device_credentials_exit Cipher.example_cipher
              {| DoDevice.logfile_exists := false;
                 DoDevice.script_lines := Some ["show version" +:+ DoOobDevice.LF];
                 DoDevice.store :=
                   {| Store.DO_DEVICE := None; Store.DO_DEVICE_isdir := false;
                      Store.credentials_txt := None;
                      Store.deviceinfo_txt := None |};
                 DoDevice.logfile_creatable := true;
                 DoDevice.connects := fun _ _ => true;
                 DoDevice.send_command := fun _ _ => Some "ok";
                 DoDevice.method_ok := fun _ _ => true;
                 DoDevice.sleep_ok := fun _ => true |}
              "r1" ["show version" +:+ DoOobDevice.LF]
              eq_refl eq_refl) as (_ & _ & H & _).
  apply H. left. reflexivity.
Defined.

(** Incomplete credentials: the log file is created before the connect
    fails. *)
Example do_device_incomplete_credentials :
  @DoDevice.do_device
    {| DoDevice.logfile_exists := false;
       DoDevice.script_lines := Some ["show version" +:+ DoOobDevice.LF];
       DoDevice.store :=
         {| Store.DO_DEVICE := Some "/etc/do-device";
            Store.DO_DEVICE_isdir := true;
            Store.credentials_txt := Some [Scenario.realm_line_of "enc:s3cret"];
            Store.deviceinfo_txt :=
              Some ["r1;;ios;admin;;enc:pw" +:+ DoOobDevice.LF] |};
       DoDevice.logfile_creatable := true;
       DoDevice.connects := fun _ _ => true;
       DoDevice.send_command := fun _ _ => Some "ok";
       DoDevice.method_ok := fun _ _ => true;
       DoDevice.sleep_ok := fun _ => true |}
    Cipher.example_cipher "r1"
  = (DoDevice.Exit 12, [DoDevice.LogCreated]).
Proof. vm_compute. reflexivity. Qed.
